(** * Event propagation core: recurrence arithmetic, publisher, idempotent
      consumers and reminder scheduling

    A shallow embedding of the Python services of the repository:

    - [backend/app/services/recurring.py] and [backend/app/services/reminder.py]
    - [services/chat-api/app/services/events.py], [.../services/reminder.py],
      [.../dapr/client.py], [.../dapr/idempotency.py]
    - [services/notification-service/app/handlers/reminder.py]
    - [services/audit-service/app/handlers/audit_log.py]
    - [services/recurring-task-service/app/handlers/task_completed.py]

    Python [str] values are modelled as byte strings restricted to ASCII,
    Python [int] as [Z], [dict] literals as JSON association lists, dataclasses
    as records.  Network calls, the clock, UUID generation and the database
    session are the effects of a small free monad ([Prog]); a program is run
    against an arbitrary environment that answers each effect.  Logging is not
    modelled. *)

From Stdlib Require Import ZArith List String Ascii Bool Lia QArith.
From Stdlib Require Import DecimalString DecimalPos.
Import ListNotations.

Set Warnings "-register-all".

#[local] Open Scope string_scope.
#[local] Open Scope Z_scope.

(** String concatenation, the [+] of Python and the pieces of an f-string. *)
Infix "+++" := String.append (at level 60, right associativity).

(* ================================================================== *)
(** ** Exceptions and fallible results *)

Inductive Exn : Type :=
| ValueError (msg : string)
| OverflowError (msg : string)
| TypeError (msg : string)
| AttributeError (msg : string)
| JSONDecodeError (msg : string)
| EventPublishError (msg : string)
| InvalidURL (msg : string).

Inductive Res (A : Type) : Type :=
| Ok (a : A)
| Err (e : Exn).
Arguments Ok {A} a.
Arguments Err {A} e.

Definition res_bind {A B} (r : Res A) (k : A -> Res B) : Res B :=
  match r with
  | Ok a => k a
  | Err e => Err e
  end.

(* ================================================================== *)
(** ** Python string operations (ASCII) *)

Module PyStr.

Definition code (c : ascii) : Z := Z.of_N (N_of_ascii c).
Definition chr (z : Z) : ascii := ascii_of_N (Z.to_N z).

(** [str.isspace] on the ASCII range: TAB..CR, FS..US and SPACE. *)
Definition isspace (c : ascii) : bool :=
  let n := code c in
  ((9 <=? n) && (n <=? 13)) || ((28 <=? n) && (n <=? 32)).

Definition isdigit (c : ascii) : bool :=
  let n := code c in (48 <=? n) && (n <=? 57).

Definition digit_value (c : ascii) : Z := code c - 48.

Definition upper_char (c : ascii) : ascii :=
  let n := code c in
  if (97 <=? n) && (n <=? 122) then chr (n - 32) else c.

Definition lower_char (c : ascii) : ascii :=
  let n := code c in
  if (65 <=? n) && (n <=? 90) then chr (n + 32) else c.

Fixpoint map (f : ascii -> ascii) (s : string) : string :=
  match s with
  | EmptyString => EmptyString
  | String c r => String (f c) (map f r)
  end.

Definition upper : string -> string := map upper_char.
Definition lower : string -> string := map lower_char.

Fixpoint lstrip (s : string) : string :=
  match s with
  | String c r => if isspace c then lstrip r else s
  | EmptyString => EmptyString
  end.

Fixpoint rstrip (s : string) : string :=
  match s with
  | EmptyString => EmptyString
  | String c r =>
      match rstrip r with
      | EmptyString => if isspace c then EmptyString else String c EmptyString
      | r' => String c r'
      end
  end.

Definition strip (s : string) : string := rstrip (lstrip s).

(** Truthiness of a [str]: the empty string is falsy. *)
Definition truthy (s : string) : bool :=
  match s with EmptyString => false | _ => true end.

(** [s.startswith(p)] *)
Fixpoint startswith (s p : string) {struct p} : bool :=
  match p with
  | EmptyString => true
  | String c p' =>
      match s with
      | String c' s' => Ascii.eqb c c' && startswith s' p'
      | EmptyString => false
      end
  end.

Fixpoint rev_acc (s acc : string) : string :=
  match s with
  | EmptyString => acc
  | String c r => rev_acc r (String c acc)
  end.
Definition rev (s : string) : string := rev_acc s EmptyString.

Definition endswith (s p : string) : bool := startswith (rev s) (rev p).

(** [s[:-1]] *)
Fixpoint drop_last (s : string) : string :=
  match s with
  | EmptyString => EmptyString
  | String c EmptyString => EmptyString
  | String c r => String c (drop_last r)
  end.

(** [s.split(sep)] for a one-character separator: the pieces between
    consecutive separators, always at least one piece. *)
Fixpoint split (sep : ascii) (s : string) : list string :=
  match s with
  | EmptyString => [EmptyString]
  | String c r =>
      if Ascii.eqb c sep then EmptyString :: split sep r
      else match split sep r with
           | p :: ps => String c p :: ps
           | [] => [String c EmptyString]
           end
  end.

Fixpoint drop (n : nat) (s : string) : string :=
  match n, s with
  | O, _ => s
  | S n', String _ r => drop n' r
  | S _, EmptyString => EmptyString
  end.

(** [s.replace(old, new)] for a non-empty [old]: leftmost, non-overlapping
    occurrences.  The fuel is the length of [s]. *)
Fixpoint replace_fuel (fuel : nat) (old new s : string) : string :=
  match fuel with
  | O => s
  | S fuel' =>
      match s with
      | EmptyString => EmptyString
      | String c r =>
          if startswith s old
          then new +++ replace_fuel fuel' old new (drop (String.length old) s)
          else String c (replace_fuel fuel' old new r)
      end
  end.
Definition replace (old new s : string) : string :=
  replace_fuel (String.length s) old new s.

(** [str(n)] for an [int]. *)
Definition of_int (z : Z) : string := NilZero.string_of_int (Z.to_int z).

(** Digits with single underscores allowed between digits, as [int()]
    reads them; [acc] is the value so far, [prev_digit] tells whether the
    previous character was a digit. *)
Fixpoint int_digits (s : string) (acc : Z) (prev_digit : bool) : option Z :=
  match s with
  | EmptyString => if prev_digit then Some acc else None
  | String c r =>
      if isdigit c then int_digits r (acc * 10 + digit_value c) true
      else if Ascii.eqb c "_" then
        if prev_digit then int_digits r acc false else None
      else None
  end.

(** C's [isspace] on the ASCII range, with which [int()] trims its
    argument: TAB..CR and SPACE (not FS..US, which [str.strip] removes). *)
Definition c_isspace (c : ascii) : bool :=
  let n := code c in ((9 <=? n) && (n <=? 13)) || (n =? 32).

Fixpoint lstrip_by (f : ascii -> bool) (s : string) : string :=
  match s with
  | String c r => if f c then lstrip_by f r else s
  | EmptyString => EmptyString
  end.

Fixpoint rstrip_by (f : ascii -> bool) (s : string) : string :=
  match s with
  | EmptyString => EmptyString
  | String c r =>
      match rstrip_by f r with
      | EmptyString => if f c then EmptyString else String c EmptyString
      | r' => String c r'
      end
  end.

(** The number of decimal digits in [s]. *)
Fixpoint count_digits (s : string) : Z :=
  match s with
  | EmptyString => 0
  | String c r => (if isdigit c then 1 else 0) + count_digits r
  end.

(** [sys.get_int_max_str_digits()], at its default. *)
Definition MAX_STR_DIGITS : Z := 4300.

(** [int(s)] in base 10: surrounding whitespace is ignored, one sign is
    allowed, and a literal of more than [MAX_STR_DIGITS] digits is refused;
    [None] stands for the [ValueError] raised in each of these cases. *)
Definition int (s : string) : option Z :=
  let literal (r : string) : option Z :=
    if MAX_STR_DIGITS <? count_digits r then None
    else int_digits r 0 false in
  match rstrip_by c_isspace (lstrip_by c_isspace s) with
  | String "+" r => literal r
  | String "-" r => option_map Z.opp (literal r)
  | t => literal t
  end.

(** The maximal run of leading digits and the rest. *)
Fixpoint span_digits (s : string) : string * string :=
  match s with
  | String c r =>
      if isdigit c then let '(d, t) := span_digits r in (String c d, t)
      else (EmptyString, s)
  | EmptyString => (EmptyString, EmptyString)
  end.

(** Every character of [s] satisfies [f]. *)
Fixpoint all (f : ascii -> bool) (s : string) : bool :=
  match s with
  | EmptyString => true
  | String c r => f c && all f r
  end.

(** An ASCII control character: what [str.isprintable] refuses below 128. *)
Definition iscntrl (c : ascii) : bool :=
  let n := code c in (n <? 32) || (n =? 127).

(** Letters, digits, [-] and [_]: the characters of a UUID and of the
    identifiers built from one. *)
Definition plain_char (c : ascii) : bool :=
  let n := code c in
  ((48 <=? n) && (n <=? 57)) || ((65 <=? n) && (n <=? 90))
  || ((97 <=? n) && (n <=? 122)) || (n =? 45) || (n =? 95).

Definition plain (s : string) : bool := all plain_char s.

(** The number that a run of decimal digits adds to [acc]. *)
Fixpoint uint_value (d : Decimal.uint) (acc : Z) : Z :=
  match d with
  | Decimal.Nil => acc
  | Decimal.D0 l => uint_value l (acc * 10 + 0)
  | Decimal.D1 l => uint_value l (acc * 10 + 1)
  | Decimal.D2 l => uint_value l (acc * 10 + 2)
  | Decimal.D3 l => uint_value l (acc * 10 + 3)
  | Decimal.D4 l => uint_value l (acc * 10 + 4)
  | Decimal.D5 l => uint_value l (acc * 10 + 5)
  | Decimal.D6 l => uint_value l (acc * 10 + 6)
  | Decimal.D7 l => uint_value l (acc * 10 + 7)
  | Decimal.D8 l => uint_value l (acc * 10 + 8)
  | Decimal.D9 l => uint_value l (acc * 10 + 9)
  end.

(** Zero-padded decimal of a non-negative number, at least [width] digits
    (the [%0wd] of the C formatting used by [isoformat]). *)
Definition pad (width : nat) (z : Z) : string :=
  let d := of_int z in
  let fix zeros (n : nat) : string :=
    match n with O => EmptyString | S n' => String "0" (zeros n') end in
  zeros (width - String.length d)%nat +++ d.

(** Empty, or beginning with a character that is not whitespace. *)
Definition no_lead (s : string) : Prop :=
  match s with
  | EmptyString => True
  | String c _ => isspace c = false
  end.

End PyStr.

(* ================================================================== *)
(** ** [datetime]: the proleptic Gregorian calendar of the standard library *)

Module Datetime.

Definition MINYEAR : Z := 1.
Definition MAXYEAR : Z := 9999.
(** [date.max.toordinal()] *)
Definition MAXORDINAL : Z := 3652059.

(** A [datetime] value.  [tzinfo = None] is a naive value (what
    [datetime.utcnow()] returns); [Some off] is an aware value with a fixed
    UTC offset of [off] seconds. *)
Record datetime : Type := mkdatetime {
  year : Z; month : Z; day : Z;
  hour : Z; minute : Z; second : Z; microsecond : Z;
  tzinfo : option Z
}.

Definition is_leap (y : Z) : bool :=
  (y mod 4 =? 0) && (negb (y mod 100 =? 0) || (y mod 400 =? 0)).

Definition DAYS_IN_MONTH (m : Z) : Z :=
  match m with
  | 1 => 31 | 2 => 28 | 3 => 31 | 4 => 30 | 5 => 31 | 6 => 30
  | 7 => 31 | 8 => 31 | 9 => 30 | 10 => 31 | 11 => 30 | 12 => 31
  | _ => 0
  end.

Definition days_in_month (y m : Z) : Z :=
  if (m =? 2) && is_leap y then 29 else DAYS_IN_MONTH m.

(** Days before January 1st of year [y]. *)
Definition days_before_year (y : Z) : Z :=
  let y := y - 1 in y * 365 + y / 4 - y / 100 + y / 400.

(** Days in the year preceding the first day of month [m], for a common
    year; index 13 is the length of the year. *)
Definition DAYS_BEFORE_MONTH (m : Z) : Z :=
  match m with
  | 1 => 0 | 2 => 31 | 3 => 59 | 4 => 90 | 5 => 120 | 6 => 151 | 7 => 181
  | 8 => 212 | 9 => 243 | 10 => 273 | 11 => 304 | 12 => 334 | 13 => 365
  | _ => 0
  end.

Definition days_before_month (y m : Z) : Z :=
  DAYS_BEFORE_MONTH m + (if (2 <? m) && is_leap y then 1 else 0).

(** [date(y, m, d).toordinal()]: January 1st of year 1 is day 1. *)
Definition ymd2ord (y m d : Z) : Z :=
  days_before_year y + days_before_month y m + d.

Definition DI400Y : Z := 146097.
Definition DI100Y : Z := 36524.
Definition DI4Y : Z := 1461.

(** The month and day of the [n]-th day (from 0) of a year: the month is
    estimated as [(n + 50) >> 5] and corrected when it is one too large. *)
Definition month_day (leapyear : bool) (n : Z) : Z * Z :=
  let m := Z.shiftr (n + 50) 5 in
  let preceding :=
    DAYS_BEFORE_MONTH m + (if (2 <? m) && leapyear then 1 else 0) in
  if n <? preceding then
    let m := m - 1 in
    let preceding :=
      preceding
      - (DAYS_IN_MONTH m + (if (m =? 2) && leapyear then 1 else 0)) in
    (m, n - preceding + 1)
  else (m, n - preceding + 1).

(** [date.fromordinal(n)] as (year, month, day), following the standard
    library's algorithm on 400-, 100-, 4- and 1-year cycles. *)
Definition ord2ymd (n : Z) : Z * Z * Z :=
  let n := n - 1 in
  let n400 := n / DI400Y in
  let n := n mod DI400Y in
  let n100 := n / DI100Y in
  let n := n mod DI100Y in
  let n4 := n / DI4Y in
  let n := n mod DI4Y in
  let n1 := n / 365 in
  let n := n mod 365 in
  let y := n400 * 400 + 1 + n100 * 100 + n4 * 4 + n1 in
  if (n1 =? 4) || (n100 =? 4) then (y - 1, 12, 31)
  else
    let leapyear := (n1 =? 3) && (negb (n4 =? 24) || (n100 =? 3)) in
    let '(m, d) := month_day leapyear n in
    (y, m, d).

(** The fields of a well-formed value, as the constructor checks them. *)
Definition valid (d : datetime) : bool :=
  (MINYEAR <=? year d) && (year d <=? MAXYEAR)
  && (1 <=? month d) && (month d <=? 12)
  && (1 <=? day d) && (day d <=? days_in_month (year d) (month d))
  && (0 <=? hour d) && (hour d <? 24)
  && (0 <=? minute d) && (minute d <? 60)
  && (0 <=? second d) && (second d <? 60)
  && (0 <=? microsecond d) && (microsecond d <? 1000000).

Definition toordinal (d : datetime) : Z := ymd2ord (year d) (month d) (day d).

Definition US_PER_SECOND : Z := 1000000.
Definition US_PER_DAY : Z := 86400 * US_PER_SECOND.

(** A [timedelta] is its exact length in microseconds. *)
Definition timedelta : Type := Z.
Definition timedelta_days (n : Z) : timedelta := n * US_PER_DAY.
Definition timedelta_weeks (n : Z) : timedelta := n * 7 * US_PER_DAY.
Definition timedelta_minutes (n : Z) : timedelta := n * 60 * US_PER_SECOND.

(** Microseconds of the local (wall-clock) fields since the start of
    ordinal day 0. *)
Definition to_micros (d : datetime) : Z :=
  (((toordinal d * 24 + hour d) * 60 + minute d) * 60 + second d)
  * US_PER_SECOND + microsecond d.

Definition of_micros (t : Z) (tz : option Z) : Res datetime :=
  let days := t / US_PER_DAY in
  let r := t mod US_PER_DAY in
  if (1 <=? days) && (days <=? MAXORDINAL) then
    let '(y, m, d) := ord2ymd days in
    let secs := r / US_PER_SECOND in
    Ok (mkdatetime y m d (secs / 3600) ((secs / 60) mod 60) (secs mod 60)
          (r mod US_PER_SECOND) tz)
  else Err (OverflowError "date value out of range").

(** [d + delta]; the time zone is kept, a result outside
    0001-01-01 .. 9999-12-31 raises [OverflowError] (so does building a
    [timedelta] of more than 999999999 days, which is always outside). *)
Definition add (d : datetime) (delta : timedelta) : Res datetime :=
  of_micros (to_micros d + delta) (tzinfo d).

Definition sub (d : datetime) (delta : timedelta) : Res datetime :=
  add d (- delta).

(** [d + relativedelta(years=ys, months=ms)] of [dateutil], for
    [abs ms <= 12]: the year and month are advanced, the day is clipped to
    the length of the target month, and the fields are replaced
    ([ValueError] when the year leaves 1..9999). *)
Definition add_relativedelta (d : datetime) (ys ms : Z) : Res datetime :=
  let y := year d + ys in
  let m := month d in
  let '(y, m) :=
    if ms =? 0 then (y, m)
    else
      let m := m + ms in
      if 12 <? m then (y + 1, m - 12)
      else if m <? 1 then (y - 1, m + 12)
      else (y, m) in
  let dd := Z.min (days_in_month y m) (day d) in
  if (MINYEAR <=? y) && (y <=? MAXYEAR) then
    Ok (mkdatetime y m dd (hour d) (minute d) (second d) (microsecond d)
          (tzinfo d))
  else Err (ValueError ("year " +++ PyStr.of_int y +++ " is out of range")).

(** [a < b]: two naive values compare by their fields, two aware values by
    their UTC instants, a naive and an aware value cannot be compared. *)
Definition lt (a b : datetime) : Res bool :=
  match tzinfo a, tzinfo b with
  | None, None => Ok (to_micros a <? to_micros b)
  | Some oa, Some ob =>
      Ok (to_micros a - oa * US_PER_SECOND <? to_micros b - ob * US_PER_SECOND)
  | _, _ =>
      Err (TypeError "can't compare offset-naive and offset-aware datetimes")
  end.

(** What is expected of [month_day], as a check on one day of a year. *)
Definition month_day_ok (leap : bool) (n : Z) : bool :=
  let '(m, d) := month_day leap n in
  (1 <=? m) && (m <=? 12) && (1 <=? d)
  && (d <=? DAYS_IN_MONTH m + (if (m =? 2) && leap then 1 else 0))
  && (DAYS_BEFORE_MONTH m + (if (2 <? m) && leap then 1 else 0) + d =? n + 1).

(** The instants that a [datetime] can hold: 0001-01-01T00:00:00 up to
    9999-12-31T23:59:59.999999, in microseconds. *)
Definition representable (t : Z) : Prop :=
  US_PER_DAY <= t < (MAXORDINAL + 1) * US_PER_DAY.

(** *** ISO 8601 text *)

Definition format_offset (off : Z) : string :=
  let a := Z.abs off in
  (if off <? 0 then "-" else "+")
  +++ PyStr.pad 2 (a / 3600) +++ ":" +++ PyStr.pad 2 ((a / 60) mod 60)
  +++ (if a mod 60 =? 0 then "" else ":" +++ PyStr.pad 2 (a mod 60)).

(** [d.isoformat()] *)
Definition isoformat (d : datetime) : string :=
  PyStr.pad 4 (year d) +++ "-" +++ PyStr.pad 2 (month d) +++ "-"
  +++ PyStr.pad 2 (day d) +++ "T" +++ PyStr.pad 2 (hour d) +++ ":"
  +++ PyStr.pad 2 (minute d) +++ ":" +++ PyStr.pad 2 (second d)
  +++ (if microsecond d =? 0 then "" else "." +++ PyStr.pad 6 (microsecond d))
  +++ match tzinfo d with
      | None => ""
      | Some off => format_offset off
      end.

(** Exactly [n] decimal digits at the head of [s]. *)
Fixpoint take_digits (n : nat) (s : string) (acc : Z) : option (Z * string) :=
  match n with
  | O => Some (acc, s)
  | S n' =>
      match s with
      | String c r =>
          if PyStr.isdigit c
          then take_digits n' r (acc * 10 + PyStr.digit_value c)
          else None
      | EmptyString => None
      end
  end.

Definition expect (c : ascii) (s : string) : option string :=
  match s with
  | String c' r => if Ascii.eqb c c' then Some r else None
  | EmptyString => None
  end.

Definition obind {A B} (o : option A) (k : A -> option B) : option B :=
  match o with Some a => k a | None => None end.

(** [YYYY-MM-DD] *)
Definition parse_date (s : string) : option (Z * Z * Z * string) :=
  obind (take_digits 4 s 0) (fun '(y, s) =>
  obind (expect "-" s) (fun s =>
  obind (take_digits 2 s 0) (fun '(m, s) =>
  obind (expect "-" s) (fun s =>
  obind (take_digits 2 s 0) (fun '(d, s) =>
  Some (y, m, d, s)))))).

(** The fraction after the seconds: [.fff] or [.ffffff]. *)
Definition parse_fraction (s : string) : option (Z * string) :=
  match s with
  | String "." r =>
      match take_digits 6 r 0 with
      | Some (us, r') => Some (us, r')
      | None =>
          obind (take_digits 3 r 0) (fun '(ms, r') => Some (ms * 1000, r'))
      end
  | _ => Some (0, s)
  end.

(** [HH[:MM[:SS[.fff[fff]]]]] *)
Definition parse_time (s : string) : option (Z * Z * Z * Z * string) :=
  obind (take_digits 2 s 0) (fun '(h, s) =>
  match s with
  | String ":" s =>
      obind (take_digits 2 s 0) (fun '(mi, s) =>
      match s with
      | String ":" s =>
          obind (take_digits 2 s 0) (fun '(sec, s) =>
          obind (parse_fraction s) (fun '(us, s) =>
          Some (h, mi, sec, us, s)))
      | _ => Some (h, mi, 0, 0, s)
      end)
  | _ => Some (h, 0, 0, 0, s)
  end).

(** The UTC offset that ends the text: nothing, or [+HH:MM] / [-HH:MM]. *)
Definition parse_offset (s : string) : option (option Z) :=
  match s with
  | EmptyString => Some None
  | String c r =>
      if Ascii.eqb c "+" || Ascii.eqb c "-" then
        obind (take_digits 2 r 0) (fun '(h, r) =>
        obind (expect ":" r) (fun r =>
        obind (take_digits 2 r 0) (fun '(mi, r) =>
        match r with
        | EmptyString =>
            if (h <? 24) && (mi <? 60) then
              let off := h * 3600 + mi * 60 in
              Some (Some (if Ascii.eqb c "-" then - off else off))
            else None
        | _ => None
        end)))
      else None
  end.

Definition parse_iso (s : string) : option datetime :=
  obind (parse_date s) (fun '(y, m, d, s) =>
  match s with
  | EmptyString => Some (mkdatetime y m d 0 0 0 0 None)
  | String _ s =>
      obind (parse_time s) (fun '(h, mi, sec, us, s) =>
      obind (parse_offset s) (fun tz =>
      Some (mkdatetime y m d h mi sec us tz)))
  end).

(** [datetime.fromisoformat(s)] on the texts that [isoformat] produces
    (a date, optionally followed by one separator character, a time with
    optional seconds and fraction, and an optional [+HH:MM] offset), which
    every version of Python 3 reads alike; fields out of range raise
    [ValueError].  On any other text the model answers [ValueError] as
    well: that is what Python up to 3.10 does, while later versions read
    further ISO 8601 forms.  The statements below therefore rely on the
    texts that parse here, and on texts too short to hold a date. *)
Definition fromisoformat (s : string) : Res datetime :=
  match parse_iso s with
  | Some d =>
      if valid d then Ok d
      else Err (ValueError ("Invalid isoformat string: " +++ s))
  | None => Err (ValueError ("Invalid isoformat string: " +++ s))
  end.

End Datetime.

(* ================================================================== *)
(** ** Python values, effects and programs *)

Module Py.
Import Datetime.

(** The values that travel in [dict] literals and JSON bodies. *)
Inductive Value : Type :=
| VNone
| VBool (b : bool)
| VInt (n : Z)
| VStr (s : string)
| VList (l : list Value)
| VDict (items : list (string * Value)).

(** Truth value testing: [None], [False], zero and empty containers are
    falsy. *)
Definition truthy (v : Value) : bool :=
  match v with
  | VNone => false
  | VBool b => b
  | VInt n => negb (n =? 0)
  | VStr s => PyStr.truthy s
  | VList l => match l with [] => false | _ => true end
  | VDict d => match d with [] => false | _ => true end
  end.

(** [d.get(key)] on the items of a dict: [None] when the key is absent. *)
Fixpoint get (items : list (string * Value)) (key : string) : Value :=
  match items with
  | [] => VNone
  | (k, v) :: rest => if String.eqb k key then v else get rest key
  end.

Definition of_option_str (o : option string) : Value :=
  match o with Some s => VStr s | None => VNone end.

Definition of_option_int (o : option Z) : Value :=
  match o with Some n => VInt n | None => VNone end.

(** What an [httpx] call gives back: a response, or a raised
    [httpx.RequestError] (connection failure, timeout).  [json] is the
    decoded body, [None] when the text is not JSON. *)
Record Response : Type := mkResponse {
  status_code : Z;
  text : string;
  json : option Value
}.

Inductive HttpResult : Type :=
| Responded (r : Response)
| RequestError (detail : string).

(** A row of the [audit_log] table
    ([audit-service/app/models/audit_log.py]). *)
Record AuditLogEntry : Type := mkAuditLogEntry {
  id : string;
  entry_event_id : string;
  entry_event_type : string;
  timestamp : datetime;
  received_at : datetime;
  entry_user_id : string;
  task_id : option string;
  entry_payload : list (string * Value);
  entry_source : string
}.

(** The effects of the services, indexed by the type of their answer. *)
Inductive Eff : Type -> Type :=
| HttpGet (url : string) : Eff HttpResult
| HttpPost (url : string) (body : Value) (headers : list (string * string))
  : Eff HttpResult
| HttpDelete (url : string) : Eff HttpResult
| Sleep (seconds : Q) : Eff unit
| UtcNow : Eff datetime
| Uuid4 : Eff string
| SessionAdd (entry : AuditLogEntry) : Eff unit.

(** Programs: return, raise, or perform an effect and continue with its
    answer. *)
Inductive Prog (R : Type) : Type :=
| Ret (r : R)
| Raise (e : Exn)
| Vis {X : Type} (e : Eff X) (k : X -> Prog R).
Arguments Ret {R} r.
Arguments Raise {R} e.
Arguments Vis {R X} e k.

Fixpoint bind {A B : Type} (p : Prog A) (f : A -> Prog B) : Prog B :=
  match p with
  | Ret a => f a
  | Raise e => Raise e
  | Vis e k => Vis e (fun x => bind (k x) f)
  end.

Definition perform {X : Type} (e : Eff X) : Prog X := Vis e Ret.

Definition lift {A : Type} (r : Res A) : Prog A :=
  match r with Ok a => Ret a | Err e => Raise e end.

(** What [httpx] checks of a URL before it sends anything: at most 65536
    characters, none of them an ASCII control character.  (Scheme, host
    and port come from the deployment's configuration and are taken to be
    well formed.) *)
Definition MAX_URL_LENGTH : Z := 65536.

Definition url_ok (url : string) : bool :=
  (Z.of_nat (String.length url) <=? MAX_URL_LENGTH)
  && PyStr.all (fun c => negb (PyStr.iscntrl c)) url.

(** The [httpx.InvalidURL] raised otherwise; it is not an
    [httpx.RequestError]. *)
Definition invalid_url (url : string) : Exn :=
  InvalidURL
    (if Z.of_nat (String.length url) <=? MAX_URL_LENGTH
     then "Invalid non-printable ASCII character in URL"
     else "URL too long").

(** [client.get(url)] and [client.delete(url)] on a URL that embeds text
    received in a request: the URL is checked, then the request is made. *)
Definition http_get (url : string) : Prog HttpResult :=
  if url_ok url then perform (HttpGet url) else Raise (invalid_url url).

Definition http_delete (url : string) : Prog HttpResult :=
  if url_ok url then perform (HttpDelete url) else Raise (invalid_url url).

(** An environment: a state of the outside world and its answer to each
    effect. *)
Record Env : Type := mkEnv {
  world : Type;
  answer : forall X : Type, Eff X -> world -> X * world
}.

(** One performed effect with the answer it got. *)
Inductive Call : Type :=
| Called {X : Type} (e : Eff X) (x : X).

(** Running a program: the calls made in order, the outcome, and the final
    state of the world. *)
Fixpoint run (env : Env) {R : Type} (p : Prog R) (w : world env)
  : list Call * Res R * world env :=
  match p with
  | Ret r => ([], Ok r, w)
  | Raise e => ([], Err e, w)
  | Vis e k =>
      let '(x, w1) := answer env _ e w in
      let '(calls, r, w2) := run env (k x) w1 in
      (Called e x :: calls, r, w2)
  end.

Definition is_post (c : Call) : bool :=
  match c with
  | Called e _ => match e with HttpPost _ _ _ => true | _ => false end
  end.

Definition is_delete (c : Call) : bool :=
  match c with
  | Called e _ => match e with HttpDelete _ => true | _ => false end
  end.

Definition is_session_add (c : Call) : bool :=
  match c with
  | Called e _ => match e with SessionAdd _ => true | _ => false end
  end.

(** The bodies posted, in order. *)
Definition posted (calls : list Call) : list (string * Value) :=
  flat_map (fun c =>
    match c with
    | Called e _ =>
        match e with HttpPost url body _ => [(url, body)] | _ => [] end
    end) calls.

(** The durations slept, in order. *)
Definition slept (calls : list Call) : list Q :=
  flat_map (fun c =>
    match c with
    | Called e _ => match e with Sleep q => [q] | _ => [] end
    end) calls.

(** The identifiers drawn from the UUID source, in order. *)
Definition uuids (calls : list Call) : list string :=
  flat_map (fun c =>
    match c with
    | Called e x =>
        match e in Eff T return T -> list string with
        | Uuid4 => fun s => [s]
        | _ => fun _ => []
        end x
    end) calls.

(** The rows added to the database session, in order. *)
Definition added (calls : list Call) : list AuditLogEntry :=
  flat_map (fun c =>
    match c with
    | Called e _ => match e with SessionAdd entry => [entry] | _ => [] end
    end) calls.

(** The write of a marker was accepted: status 200, 201 or 204. *)
Definition accepted (x : HttpResult) : bool :=
  match x with
  | Responded r =>
      (status_code r =? 200) || (status_code r =? 201) || (status_code r =? 204)
  | RequestError _ => false
  end.

(** A stateless environment: every request of a kind gets the same
    answer, the clock and the UUID source are fixed. *)
Definition const_env (on_get on_post on_delete : HttpResult)
    (now : datetime) (uuid : string) : Env :=
  mkEnv unit (fun X (e : Eff X) (w : unit) =>
    match e in Eff T return T * unit with
    | HttpGet _ => (on_get, tt)
    | HttpPost _ _ _ => (on_post, tt)
    | HttpDelete _ => (on_delete, tt)
    | Sleep _ => (tt, tt)
    | UtcNow => (now, tt)
    | Uuid4 => (uuid, tt)
    | SessionAdd _ => (tt, tt)
    end).

Definition status_only (code : Z) : HttpResult :=
  Responded (mkResponse code "" None).

(** A state store that works: the world is the list of keys saved so far.
    A GET under [state_url] answers 200 with a body when the key was saved
    and 204 with an empty body otherwise; a POST of a state entry saves its
    key and answers 204.  The key of a GET is the text after [state_url/]
    as it is written: that is the key the store reads when this text has
    no URL syntax of its own (no [/], [?], [#], [%] or dot segments), as
    for the event ids made of letters, digits, [-] and [_]. *)
Definition saved_key (body : Value) : list string :=
  match body with
  | VList [VDict items] =>
      match get items "key" with VStr k => [k] | _ => [] end
  | _ => []
  end.

Definition store_env (state_url : string) (now : datetime) (uuid : string)
  : Env :=
  mkEnv (list string) (fun X (e : Eff X) (keys : list string) =>
    match e in Eff T return T * list string with
    | HttpGet url =>
        (if existsb (fun k => String.eqb url (state_url +++ "/" +++ k)) keys
         then Responded (mkResponse 200 "saved" None)
         else status_only 204, keys)
    | HttpPost url body _ =>
        (status_only 204,
         if String.eqb url state_url then (saved_key body ++ keys)%list
         else keys)
    | HttpDelete _ => (status_only 204, keys)
    | Sleep _ => (tt, keys)
    | UtcNow => (now, keys)
    | Uuid4 => (uuid, keys)
    | SessionAdd _ => (tt, keys)
    end).

(** The same store, with deletion: a DELETE under [state_url] removes the
    key and answers 204. *)
Definition kv_env (state_url : string) (now : datetime) (uuid : string)
  : Env :=
  mkEnv (list string) (fun X (e : Eff X) (keys : list string) =>
    match e in Eff T return T * list string with
    | HttpGet url =>
        (if existsb (fun k => String.eqb url (state_url +++ "/" +++ k)) keys
         then Responded (mkResponse 200 "saved" None)
         else status_only 204, keys)
    | HttpPost url body _ =>
        (status_only 204,
         if String.eqb url state_url then (saved_key body ++ keys)%list
         else keys)
    | HttpDelete url =>
        (status_only 204,
         filter (fun k => negb (String.eqb url (state_url +++ "/" +++ k)))
           keys)
    | Sleep _ => (tt, keys)
    | UtcNow => (now, keys)
    | Uuid4 => (uuid, keys)
    | SessionAdd _ => (tt, keys)
    end).

(** A broker that answers 503 to the first [failures] requests and 204 to
    the later ones: the world counts the requests made. *)
Definition flaky_env (failures : nat) (now : datetime) (uuid : string)
  : Env :=
  mkEnv nat (fun X (e : Eff X) (count : nat) =>
    match e in Eff T return T * nat with
    | HttpGet _ => (status_only 204, count)
    | HttpPost _ _ _ =>
        (status_only (if (count <? failures)%nat then 503 else 204), S count)
    | HttpDelete _ => (status_only 204, count)
    | Sleep _ => (tt, count)
    | UtcNow => (now, count)
    | Uuid4 => (uuid, count)
    | SessionAdd _ => (tt, count)
    end).

(** [range(a, b)] *)
Definition range (a b : Z) : list Z :=
  List.map (fun i => a + Z.of_nat i) (seq 0 (Z.to_nat (b - a))).

End Py.

Declare Scope prog_scope.
Delimit Scope prog_scope with prog.
Notation "x <- c1 ;; c2" := (Py.bind c1 (fun x => c2))
  (at level 100, c1 at next level, right associativity) : prog_scope.
Notation "c1 ;; c2" := (Py.bind c1 (fun _ => c2))
  (at level 100, right associativity) : prog_scope.

(* ================================================================== *)
(** ** backend/app/services/recurring.py *)

Module Recurring.
Import Datetime.

(** The dict that [parse_recurrence_rule] returns. *)
Record Parsed : Type := mkParsed {
  type : string;
  interval : Z;
  unit : string
}.

Definition invalid_interval (rule : string) : Exn :=
  ValueError ("Invalid INTERVAL format: " +++ rule
              +++ ". Use INTERVAL:N where N is a positive integer").

Definition parse_recurrence_rule (rule : string) : Res Parsed :=
  if negb (PyStr.truthy rule) then
    Err (ValueError "Recurrence rule cannot be empty")
  else
    let rule := PyStr.strip (PyStr.upper rule) in
    if String.eqb rule "DAILY" then Ok (mkParsed "DAILY" 1 "days")
    else if String.eqb rule "WEEKLY" then Ok (mkParsed "WEEKLY" 7 "days")
    else if String.eqb rule "MONTHLY" then Ok (mkParsed "MONTHLY" 1 "months")
    else if String.eqb rule "YEARLY" then Ok (mkParsed "YEARLY" 1 "years")
    else if PyStr.startswith rule "INTERVAL:" then
      (* try: int(rule.split(":")[1]); an IndexError or ValueError inside
         the block is re-raised as the ValueError of the format *)
      match nth_error (PyStr.split ":" rule) 1 with
      | None => Err (invalid_interval rule)
      | Some piece =>
          match PyStr.int piece with
          | None => Err (invalid_interval rule)
          | Some interval =>
              if interval <? 1 then Err (invalid_interval rule)
              else Ok (mkParsed "INTERVAL" interval "days")
          end
      end
    else
      Err (ValueError ("Unknown recurrence rule: " +++ rule +++ ". "
                       +++ "Valid values: DAILY, WEEKLY, MONTHLY, YEARLY, INTERVAL:N")).

Definition calculate_next_due_date
    (current_due_date : option datetime) (recurrence_rule : string)
  : Res (option datetime) :=
  match current_due_date with
  | None => Ok None
  | Some current =>
      res_bind (parse_recurrence_rule recurrence_rule) (fun parsed =>
      res_bind
        (if String.eqb (unit parsed) "days" then
           add current (timedelta_days (interval parsed))
         else if String.eqb (unit parsed) "months" then
           add_relativedelta current 0 (interval parsed)
         else if String.eqb (unit parsed) "years" then
           add_relativedelta current (interval parsed) 0
         else add current (timedelta_days (interval parsed)))
        (fun next => Ok (Some next)))
  end.

(** [get_recurrence_display]: only [ValueError] is caught. *)
Definition get_recurrence_display (rule : string) : Res string :=
  match parse_recurrence_rule rule with
  | Ok parsed =>
      if String.eqb (type parsed) "DAILY" then Ok "Every day"
      else if String.eqb (type parsed) "WEEKLY" then Ok "Every week"
      else if String.eqb (type parsed) "MONTHLY" then Ok "Every month"
      else if String.eqb (type parsed) "YEARLY" then Ok "Every year"
      else if String.eqb (type parsed) "INTERVAL" then
        if interval parsed =? 1 then Ok "Every day"
        else Ok ("Every " +++ PyStr.of_int (interval parsed) +++ " days")
      else Ok rule
  | Err (ValueError _) => Ok rule
  | Err e => Err e
  end.

End Recurring.

(* ================================================================== *)
(** ** backend/app/services/reminder.py *)

Module BackendReminder.
Import Datetime.

Definition calculate_remind_at
    (due_date : option datetime) (reminder_offset_minutes : option Z)
  : Res (option datetime) :=
  match due_date, reminder_offset_minutes with
  | Some due, Some offset =>
      if offset <? 0 then
        Err (ValueError "reminder_offset_minutes must be non-negative")
      else
        res_bind (sub due (timedelta_minutes offset)) (fun r => Ok (Some r))
  | _, _ => Ok None
  end.

(** [REMINDER_PRESETS], in the order of the dict literal. *)
Definition REMINDER_PRESETS : list (string * Z) :=
  [ ("10_minutes", 10); ("30_minutes", 30); ("1_hour", 60); ("2_hours", 120);
    ("1_day", 1440); ("2_days", 2880); ("1_week", 10080) ].

Definition validate_reminder_offset (offset_minutes : Z) : bool :=
  let MIN_OFFSET := 1 in
  let MAX_OFFSET := 525600 in
  (MIN_OFFSET <=? offset_minutes) && (offset_minutes <=? MAX_OFFSET).

Definition get_reminder_display (offset_minutes : option Z) : string :=
  match offset_minutes with
  | None => "No reminder"
  | Some offset_minutes =>
      if offset_minutes <? 60 then
        if offset_minutes =? 1 then "1 minute before"
        else PyStr.of_int offset_minutes +++ " minutes before"
      else if offset_minutes <? 1440 then
        let hours := offset_minutes / 60 in
        if hours =? 1 then "1 hour before"
        else PyStr.of_int hours +++ " hours before"
      else
        let days := offset_minutes / 1440 in
        if days =? 1 then "1 day before"
        else if days =? 7 then "1 week before"
        else PyStr.of_int days +++ " days before"
  end.

(** [remind_at < datetime.utcnow()] reads the clock. *)
Definition is_reminder_in_past (remind_at : option datetime) : Py.Prog bool :=
  match remind_at with
  | None => Py.Ret false
  | Some t => Py.bind (Py.perform Py.UtcNow) (fun now => Py.lift (lt t now))
  end.

End BackendReminder.

(* ================================================================== *)
(** ** backend/app/schemas/task.py: the field validators of [TaskCreate]
       (those of [TaskUpdate] have the same bodies) *)

Module TaskSchema.

(** The first tag that is empty or longer than 50 characters stops the
    loop. *)
Fixpoint check_tags (tags : list string) : Res unit :=
  match tags with
  | [] => Ok tt
  | tag :: rest =>
      if negb (PyStr.truthy tag) || (50 <? Z.of_nat (String.length tag))
      then Err (ValueError "Each tag must be 1-50 characters")
      else check_tags rest
  end.

Definition validate_tags (v : list string) : Res (list string) :=
  if 20 <? Z.of_nat (List.length v)
  then Err (ValueError "Maximum 20 tags allowed")
  else res_bind (check_tags v) (fun _ => Ok v).

Definition validate_reminder_requires_due_date (v : option Z)
  : Res (option Z) :=
  match v with
  | Some n =>
      if n <? 1 then Err (ValueError "Reminder offset must be at least 1 minute")
      else Ok v
  | None => Ok v
  end.

Definition valid_rules : list string := ["DAILY"; "WEEKLY"; "MONTHLY"; "YEARLY"].

Definition invalid_interval : Exn :=
  ValueError
    "Invalid INTERVAL format. Use INTERVAL:N where N is a positive integer".

Definition validate_recurrence_rule (v : option string)
  : Res (option string) :=
  match v with
  | None => Ok None
  | Some v =>
      let v_upper := PyStr.strip (PyStr.upper v) in
      if existsb (String.eqb v_upper) valid_rules then Ok (Some v_upper)
      else if PyStr.startswith v_upper "INTERVAL:" then
        match nth_error (PyStr.split ":" v_upper) 1 with
        | None => Err invalid_interval
        | Some piece =>
            match PyStr.int piece with
            | None => Err invalid_interval
            | Some interval =>
                if interval <? 1 then Err invalid_interval
                else Ok (Some v_upper)
            end
        end
      else
        Err (ValueError
               "Invalid recurrence rule. Valid: ['DAILY', 'WEEKLY', 'MONTHLY', 'YEARLY'] or INTERVAL:N")
  end.

End TaskSchema.

(* ================================================================== *)
(** ** services/chat-api/app/services/events.py *)

Module Events.
Import Datetime Py.
#[local] Open Scope prog_scope.

(** Module-level configuration, read from the process environment.
    [RETRY_DELAY_SECONDS] is a float, taken here to be a finite one and
    given by its exact value. *)
Record Config : Type := mkConfig {
  DAPR_HTTP_PORT : string;
  DAPR_PUBSUB_NAME : string;
  DAPR_ENABLED : bool;
  MAX_RETRIES : Z;
  RETRY_DELAY_SECONDS : Q
}.

(** [event_id or str(uuid4())] *)
Definition event_id_or_fresh (event_id : option string) : Prog string :=
  match event_id with
  | Some s => if PyStr.truthy s then Ret s else perform Uuid4
  | None => perform Uuid4
  end.

Definition _build_event (event_type user_id : string) (payload : Value)
    (event_id : option string) : Prog Value :=
  eid <- event_id_or_fresh event_id ;;
  now <- perform UtcNow ;;
  Ret (VDict [ ("event_id", VStr eid);
               ("event_type", VStr event_type);
               ("timestamp", VStr (isoformat now +++ "Z"));
               ("user_id", VStr user_id);
               ("payload", payload);
               ("source", VStr "chat-api");
               ("specversion", VStr "1.0") ]).

(** The defaults of the module: port 3500, component [pubsub], Dapr
    enabled, 3 attempts, 0.5 s base delay. *)
Definition default_config : Config := mkConfig "3500" "pubsub" true 3 (1 # 2).

(** [event["event_id"]] *)
Definition event_id_of (event : Value) : Value :=
  match event with
  | VDict items => get items "event_id"
  | _ => VNone
  end.

Definition success_status (code : Z) : bool :=
  (code =? 200) || (code =? 201) || (code =? 204).

(** [str(last_error)] *)
Definition str_last_error (last_error : option string) : string :=
  match last_error with Some e => e | None => "None" end.

(** A broker answer that [publish_event] does not take for a success: a
    status other than 200, 201 and 204, or a transport error. *)
Definition failed (x : HttpResult) : bool :=
  match x with
  | Responded r => negb (success_status (status_code r))
  | RequestError _ => true
  end.

Definition post_failed (c : Call) : bool :=
  match c with
  | Called e x =>
      match e in Eff T return T -> bool with
      | HttpPost _ _ _ => failed
      | _ => fun _ => true
      end x
  end.

(** The attempts and waits of a run, in order. *)
Inductive Step : Type :=
| Attempt
| Wait (seconds : Q).

Definition steps (calls : list Call) : list Step :=
  flat_map (fun c =>
    match c with
    | Called e _ =>
        match e with
        | HttpPost _ _ _ => [Attempt]
        | Sleep q => [Wait q]
        | _ => []
        end
    end) calls.

Section WithConfig.
Variable cfg : Config.

Definition publish_url (topic : string) : string :=
  "http://localhost:" +++ DAPR_HTTP_PORT cfg +++ "/v1.0/publish/"
  +++ DAPR_PUBSUB_NAME cfg +++ "/" +++ topic.

(** [RETRY_DELAY_SECONDS * (2 ** (attempt - 1))]; a product of a float
    and a power of two is exact, so the delay is a rational. *)
Definition backoff_delay (attempt : Z) : Q :=
  (RETRY_DELAY_SECONDS cfg * inject_Z (2 ^ (attempt - 1)))%Q.

(** The wait that ends an iteration: [if attempt < MAX_RETRIES: sleep].
    The delay is a float times [2 ** (attempt - 1)]: the product raises
    [OverflowError] once the power no longer converts to a float, that is
    from [2 ** 1024] on. *)
Definition backoff (attempt : Z) : Prog unit :=
  if attempt <? MAX_RETRIES cfg then
    if 1024 <=? attempt - 1
    then Raise (OverflowError "int too large to convert to float")
    else perform (Sleep (backoff_delay attempt))
  else Ret tt.

(** The attempts after which the computation of the delay overflows. *)
Definition overflows (attempt : Z) : bool :=
  (attempt <? MAX_RETRIES cfg) && (1024 <=? attempt - 1).

(** Every delay that the loop can compute is a finite float: the largest
    of them in magnitude, after attempt [min (MAX_RETRIES - 1) 1024], is
    below [2 ** 1024].  (A larger product is the float [inf], which is not
    a duration that [asyncio.sleep] waits out.) *)
Definition delays_finite : bool :=
  let last := Z.min (MAX_RETRIES cfg - 1) 1024 in
  (last <? 1)
  || (negb (Qle_bool (inject_Z (2 ^ 1024)) (backoff_delay last))
      && negb (Qle_bool (backoff_delay last) (- inject_Z (2 ^ 1024)))).

(** The body of [for attempt in range(1, MAX_RETRIES + 1)], over the
    attempts still to make. *)
Fixpoint publish_attempts (topic : string) (event : Value)
    (attempts : list Z) (last_error : option string) : Prog Value :=
  match attempts with
  | [] =>
      Raise (EventPublishError
               ("Failed to publish to " +++ topic +++ " after "
                +++ PyStr.of_int (MAX_RETRIES cfg) +++ " retries: "
                +++ str_last_error last_error))
  | attempt :: rest =>
      r <- perform (HttpPost (publish_url topic) event
                      [("Content-Type", "application/json")]) ;;
      match r with
      | Responded response =>
          if success_status (status_code response) then Ret event
          else
            let last_error :=
              Some ("HTTP " +++ PyStr.of_int (status_code response)
                    +++ ": " +++ text response) in
            backoff attempt ;;
            publish_attempts topic event rest last_error
      | RequestError e =>
          backoff attempt ;;
          publish_attempts topic event rest (Some e)
      end
  end.

(** The steps of a run in which every one of [attempts] fails: each
    attempt, followed by its backoff wait unless it is the last allowed
    one. *)
Definition failing_steps (attempts : list Z) : list Step :=
  flat_map (fun attempt =>
    Attempt :: (if attempt <? MAX_RETRIES cfg
                then [Wait (backoff_delay attempt)] else [])) attempts.

Definition publish_event (topic event_type user_id : string)
    (payload : Value) (event_id : option string) : Prog Value :=
  event <- _build_event event_type user_id payload event_id ;;
  if negb (DAPR_ENABLED cfg) then Ret event
  else
    publish_attempts topic event (range 1 (MAX_RETRIES cfg + 1)) None.

Definition publish_task_event (event_type user_id : string)
    (task_data : Value) : Prog Value :=
  publish_event "task-events" event_type user_id task_data None.

Definition publish_task_created (user_id : string) (task_data : Value)
  : Prog Value := publish_task_event "task.created" user_id task_data.

Definition publish_task_updated (user_id : string) (task_data : Value)
  : Prog Value := publish_task_event "task.updated" user_id task_data.

Definition publish_task_completed (user_id : string) (task_data : Value)
  : Prog Value := publish_task_event "task.completed" user_id task_data.

Definition publish_task_deleted (user_id task_id : string) : Prog Value :=
  publish_task_event "task.deleted" user_id (VDict [("task_id", VStr task_id)]).

Definition publish_reminder_event (user_id task_id task_title : string)
    (due_date : option datetime) (remind_at : datetime) (event_type : string)
  : Prog Value :=
  let payload :=
    VDict [ ("task_id", VStr task_id);
            ("task_title", VStr task_title);
            ("due_at", match due_date with
                       | Some d => VStr (isoformat d +++ "Z")
                       | None => VNone
                       end);
            ("remind_at", VStr (isoformat remind_at +++ "Z")) ] in
  publish_event "reminders" event_type user_id payload None.

Definition publish_task_sync (user_id task_id action : string) : Prog Value :=
  publish_event "task-updates" "task.sync" user_id
    (VDict [("task_id", VStr task_id); ("action", VStr action)]) None.

End WithConfig.

End Events.

(* ================================================================== *)
(** ** services/chat-api/app/dapr/idempotency.py *)

Module Idempotency.
Import Py.
#[local] Open Scope prog_scope.

Record Config : Type := mkConfig {
  DAPR_HTTP_PORT : string;
  DAPR_STATE_STORE : string;
  IDEMPOTENCY_TTL_SECONDS : Z
}.

Record IdempotencyChecker : Type := mkChecker {
  state_store : string;
  base_url : string
}.

Definition _get_key (event_id : string) : string := "processed:" +++ event_id.

Section WithConfig.
Variable cfg : Config.

(** [IdempotencyChecker()] with the default store. *)
Definition new : IdempotencyChecker :=
  mkChecker (DAPR_STATE_STORE cfg) ("http://localhost:" +++ DAPR_HTTP_PORT cfg).

Definition state_url (self : IdempotencyChecker) (event_id : string) : string :=
  base_url self +++ "/v1.0/state/" +++ state_store self +++ "/"
  +++ _get_key event_id.

Definition is_processed (self : IdempotencyChecker) (event_id : string)
  : Prog bool :=
  r <- http_get (state_url self event_id) ;;
  match r with
  | Responded response =>
      if (status_code response =? 200) && PyStr.truthy (text response)
      then Ret true
      else Ret false
  | RequestError _ => Ret false
  end.

Definition mark_processed (self : IdempotencyChecker) (event_id : string)
    (metadata : option (list (string * Value))) : Prog bool :=
  let url := base_url self +++ "/v1.0/state/" +++ state_store self in
  let value :=
    match metadata with
    | Some m => if truthy (VDict m) then VDict m
                else VDict [("processed", VBool true)]
    | None => VDict [("processed", VBool true)]
    end in
  let state_entry :=
    VList [ VDict [ ("key", VStr (_get_key event_id));
                    ("value", value);
                    ("metadata",
                      VDict [("ttlInSeconds",
                              VStr (PyStr.of_int (IDEMPOTENCY_TTL_SECONDS cfg)))]) ] ] in
  r <- perform (HttpPost url state_entry []) ;;
  match r with
  | Responded response =>
      Ret ((status_code response =? 200) || (status_code response =? 201)
           || (status_code response =? 204))
  | RequestError _ => Ret false
  end.

Definition delete_processed (self : IdempotencyChecker) (event_id : string)
  : Prog bool :=
  r <- http_delete (state_url self event_id) ;;
  match r with
  | Responded response =>
      Ret ((status_code response =? 200) || (status_code response =? 204))
  | RequestError _ => Ret false
  end.

End WithConfig.

End Idempotency.

(* ================================================================== *)
(** ** services/chat-api/app/dapr/client.py (Jobs API) *)

Module DaprClient.
Import Datetime Py.
#[local] Open Scope prog_scope.

Record DaprClient : Type := mkClient { base_url : string }.

(** [DaprClient()] for the configured sidecar port. *)
Definition new (DAPR_HTTP_PORT : string) : DaprClient :=
  mkClient ("http://localhost:" +++ DAPR_HTTP_PORT).

(** The callers name a job ["reminder-" + str(task.id)] with the task's
    UUID: such a URL has no character that the HTTP client refuses, so the
    requests on it are made without the check of [url_ok]. *)
Definition job_url (self : DaprClient) (job_name : string) : string :=
  base_url self +++ "/v1.0-alpha1/jobs/" +++ job_name.

Definition schedule_job (self : DaprClient) (job_name : string)
    (schedule_time : datetime) (data : Value) (callback_url : string)
  : Prog bool :=
  let job_spec :=
    VDict [ ("schedule", VStr ("@at " +++ isoformat schedule_time +++ "Z"));
            ("data", data);
            ("callback", VDict [("method", VStr callback_url)]) ] in
  r <- perform (HttpPost (job_url self job_name) job_spec []) ;;
  match r with
  | Responded response =>
      if (status_code response =? 200) || (status_code response =? 201)
         || (status_code response =? 204)
      then Ret true else Ret false
  | RequestError _ => Ret false
  end.

Definition cancel_job (self : DaprClient) (job_name : string) : Prog bool :=
  r <- perform (HttpDelete (job_url self job_name)) ;;
  match r with
  | Responded response =>
      if (status_code response =? 200) || (status_code response =? 204)
         || (status_code response =? 404)
      then Ret true else Ret false
  | RequestError _ => Ret false
  end.

End DaprClient.

(* ================================================================== *)
(** ** services/chat-api/app/services/reminder.py *)

Module Reminder.
Import Datetime Py.
#[local] Open Scope prog_scope.

Definition calculate_remind_at
    (due_date : option datetime) (reminder_offset_minutes : option Z)
  : Res (option datetime) :=
  match due_date, reminder_offset_minutes with
  | Some due, Some offset =>
      if offset <? 0 then
        Err (ValueError "reminder_offset_minutes must be non-negative")
      else
        res_bind (sub due (timedelta_minutes offset)) (fun r => Ok (Some r))
  | _, _ => Ok None
  end.

(** [remind_at < datetime.utcnow()] reads the clock. *)
Definition is_reminder_in_past (remind_at : option datetime) : Prog bool :=
  match remind_at with
  | None => Ret false
  | Some t => now <- perform UtcNow ;; lift (lt t now)
  end.

Definition _build_job_name (task_id : string) : string :=
  "reminder-" +++ task_id.

Section WithClient.
(** The module's [dapr_client] singleton. *)
Variable dapr_client : DaprClient.DaprClient.

Definition schedule_reminder_job (task_id task_title user_id : string)
    (due_date : option datetime) (remind_at : datetime) : Prog bool :=
  past <- is_reminder_in_past (Some remind_at) ;;
  if past then Ret false
  else
    let job_name := _build_job_name task_id in
    let job_data :=
      VDict [ ("task_id", VStr task_id);
              ("task_title", VStr task_title);
              ("user_id", VStr user_id);
              ("due_at", match due_date with
                         | Some d => VStr (isoformat d +++ "Z")
                         | None => VNone
                         end);
              ("remind_at", VStr (isoformat remind_at +++ "Z")) ] in
    DaprClient.schedule_job dapr_client job_name remind_at job_data
      "/api/v1/jobs/reminder-callback".

Definition cancel_reminder_job (task_id : string) : Prog bool :=
  DaprClient.cancel_job dapr_client (_build_job_name task_id).

Definition reschedule_reminder_job (task_id task_title user_id : string)
    (due_date remind_at : option datetime) : Prog bool :=
  cancel_reminder_job task_id ;;
  match remind_at with
  | Some t => schedule_reminder_job task_id task_title user_id due_date t
  | None => Ret true
  end.

End WithClient.

(** [REMINDER_PRESETS], in the order of the dict literal. *)
Definition REMINDER_PRESETS : list (string * Z) :=
  [ ("10_minutes", 10); ("30_minutes", 30); ("1_hour", 60); ("2_hours", 120);
    ("1_day", 1440); ("2_days", 2880); ("1_week", 10080) ].

Definition validate_reminder_offset (offset_minutes : Z) : bool :=
  let MIN_OFFSET := 1 in
  let MAX_OFFSET := 525600 in
  (MIN_OFFSET <=? offset_minutes) && (offset_minutes <=? MAX_OFFSET).

Definition get_reminder_display (offset_minutes : option Z) : string :=
  match offset_minutes with
  | None => "No reminder"
  | Some offset_minutes =>
      if offset_minutes <? 60 then
        if offset_minutes =? 1 then "1 minute before"
        else PyStr.of_int offset_minutes +++ " minutes before"
      else if offset_minutes <? 1440 then
        let hours := offset_minutes / 60 in
        if hours =? 1 then "1 hour before"
        else PyStr.of_int hours +++ " hours before"
      else
        let days := offset_minutes / 1440 in
        if days =? 1 then "1 day before"
        else if days =? 7 then "1 week before"
        else PyStr.of_int days +++ " days before"
  end.

End Reminder.

(* ================================================================== *)
(** ** services/chat-api/app/routers/callbacks.py *)

Module Callbacks.
Import Datetime Py.

Record ReminderCallbackData : Type := mkData {
  task_id : string;
  task_title : string;
  user_id : string;
  due_at : option string;
  remind_at : string
}.

(** A call handed to [background_tasks.add_task]: [publish_reminder_event]
    with its keyword arguments.  It runs after the response is sent. *)
Record ReminderTask : Type := mkTask {
  bg_user_id : string;
  bg_task_id : string;
  bg_task_title : string;
  bg_due_date : option datetime;
  bg_remind_at : datetime;
  bg_event_type : string
}.

(** [str(e)] *)
Definition str_exn (e : Exn) : string :=
  match e with
  | ValueError msg | OverflowError msg | TypeError msg | AttributeError msg
  | JSONDecodeError msg | EventPublishError msg | InvalidURL msg => msg
  end.

(** The body of the [try]: the two timestamps of the job data, parsed. *)
Definition parse_job_times (data : ReminderCallbackData)
  : Res (datetime * option datetime) :=
  res_bind (fromisoformat (PyStr.replace "Z" "+00:00" (remind_at data)))
    (fun remind_at =>
  res_bind
    (match due_at data with
     | Some text =>
         if PyStr.truthy text then
           res_bind (fromisoformat (PyStr.replace "Z" "+00:00" text))
             (fun d => Ok (Some d))
         else Ok None
     | None => Ok None
     end)
    (fun due_at => Ok (remind_at, due_at))).

(** The response, and the background task when one was added. *)
Definition handle_reminder_callback (data : ReminderCallbackData)
  : Value * option ReminderTask :=
  match parse_job_times data with
  | Ok (remind_at, due_at) =>
      (VDict [ ("status", VStr "success");
               ("message", VStr "Reminder triggered");
               ("task_id", VStr (task_id data)) ],
       Some (mkTask (user_id data) (task_id data) (task_title data)
               due_at remind_at "reminder.triggered"))
  | Err e =>
      (VDict [ ("status", VStr "error"); ("message", VStr (str_exn e)) ],
       None)
  end.

(** The background task, run. *)
Definition run_task (cfg : Events.Config) (t : ReminderTask) : Prog Value :=
  Events.publish_reminder_event cfg (bg_user_id t) (bg_task_id t)
    (bg_task_title t) (bg_due_date t) (bg_remind_at t) (bg_event_type t).

End Callbacks.

(* ================================================================== *)
(** ** services/notification-service/app/handlers/reminder.py *)

Module NotificationService.
Import Datetime Py.
#[local] Open Scope prog_scope.

Record Config : Type := mkConfig {
  DAPR_HTTP_PORT : string;
  DAPR_STATE_STORE : string
}.

Record ReminderEventPayload : Type := mkPayload {
  event_id : string;
  event_type : string;
  timestamp : string;
  user_id : string;
  task_id : string;
  task_title : string;
  due_at : option string;
  remind_at : string
}.

Record IdempotencyChecker : Type := mkChecker {
  store_name : string;
  base_url : string;
  ttl_seconds : Z
}.

Definition _key (event_id : string) : string :=
  "notification-processed:" +++ event_id.

Definition state_url (self : IdempotencyChecker) (event_id : string) : string :=
  base_url self +++ "/v1.0/state/" +++ store_name self +++ "/" +++ _key event_id.

(** [return response.status_code == 200 and response.text]: the value of
    the [and], which is [False] or the text of the response. *)
Definition is_processed (self : IdempotencyChecker) (event_id : string)
  : Prog Value :=
  r <- http_get (state_url self event_id) ;;
  match r with
  | Responded response =>
      if status_code response =? 200 then Ret (VStr (text response))
      else Ret (VBool false)
  | RequestError _ => Ret (VBool false)
  end.

Definition mark_processed (self : IdempotencyChecker) (event_id : string)
    (metadata : option (list (string * Value))) : Prog bool :=
  let url := base_url self +++ "/v1.0/state/" +++ store_name self in
  let state_entry :=
    VList [ VDict [ ("key", VStr (_key event_id));
                    ("value",
                      VDict [ ("event_id", VStr event_id);
                              ("processed_at",
                                match metadata with
                                | Some m => if truthy (VDict m)
                                            then get m "processed_at" else VNone
                                | None => VNone
                                end) ]);
                    ("metadata",
                      VDict [("ttlInSeconds",
                              VStr (PyStr.of_int (ttl_seconds self)))]) ] ] in
  r <- perform (HttpPost url state_entry []) ;;
  match r with
  | Responded response =>
      Ret ((status_code response =? 200) || (status_code response =? 201)
           || (status_code response =? 204))
  | RequestError _ => Ret false
  end.

Section WithConfig.
Variable cfg : Config.

(** The module's [idempotency_checker] singleton. *)
Definition idempotency_checker : IdempotencyChecker :=
  mkChecker (DAPR_STATE_STORE cfg)
    ("http://localhost:" +++ DAPR_HTTP_PORT cfg) 86400.

Definition handle_reminder_event (payload : ReminderEventPayload)
  : Prog Value :=
  let event_id := event_id payload in
  processed <- is_processed idempotency_checker event_id ;;
  if truthy processed then
    Ret (VDict [ ("status", VStr "duplicate");
                 ("event_id", VStr event_id);
                 ("message", VStr "Event already processed") ])
  else
    (* the notification itself is a stub that only logs *)
    now <- perform UtcNow ;;
    mark_processed idempotency_checker event_id
      (Some [("processed_at", VStr (isoformat now +++ "Z"))]) ;;
    Ret (VDict [ ("status", VStr "success");
                 ("event_id", VStr event_id);
                 ("task_id", VStr (task_id payload));
                 ("message", VStr "Notification logged (stubbed)") ]).

End WithConfig.

End NotificationService.

(* ================================================================== *)
(** ** services/audit-service/app/handlers/audit_log.py *)

Module AuditService.
Import Datetime Py.
#[local] Open Scope prog_scope.

Record Config : Type := mkConfig {
  DAPR_HTTP_PORT : string;
  DAPR_STATE_STORE : string
}.

Record TaskEventPayload : Type := mkPayload {
  event_id : string;
  event_type : string;
  timestamp : string;
  user_id : string;
  source : string;
  payload : list (string * Value)
}.

Record IdempotencyChecker : Type := mkChecker {
  store_name : string;
  base_url : string;
  ttl_seconds : Z
}.

Definition _key (event_id : string) : string := "audit-processed:" +++ event_id.

Definition state_url (self : IdempotencyChecker) (event_id : string) : string :=
  base_url self +++ "/v1.0/state/" +++ store_name self +++ "/" +++ _key event_id.

Definition is_processed (self : IdempotencyChecker) (event_id : string)
  : Prog Value :=
  r <- http_get (state_url self event_id) ;;
  match r with
  | Responded response =>
      if status_code response =? 200 then Ret (VStr (text response))
      else Ret (VBool false)
  | RequestError _ => Ret (VBool false)
  end.

Definition mark_processed (self : IdempotencyChecker)
    (event_id audit_log_id : string) : Prog bool :=
  let url := base_url self +++ "/v1.0/state/" +++ store_name self in
  now <- perform UtcNow ;;
  let state_entry :=
    VList [ VDict [ ("key", VStr (_key event_id));
                    ("value",
                      VDict [ ("event_id", VStr event_id);
                              ("audit_log_id", VStr audit_log_id);
                              ("processed_at", VStr (isoformat now +++ "Z")) ]);
                    ("metadata",
                      VDict [("ttlInSeconds",
                              VStr (PyStr.of_int (ttl_seconds self)))]) ] ] in
  r <- perform (HttpPost url state_entry []) ;;
  match r with
  | Responded response =>
      Ret ((status_code response =? 200) || (status_code response =? 201)
           || (status_code response =? 204))
  | RequestError _ => Ret false
  end.

Section WithConfig.
Variable cfg : Config.
(** Python's [str()] on a decoded JSON value (used for the task id). *)
Variable py_str : Value -> string.

Definition idempotency_checker : IdempotencyChecker :=
  mkChecker (DAPR_STATE_STORE cfg)
    ("http://localhost:" +++ DAPR_HTTP_PORT cfg) 86400.

(** The timestamp of the envelope; the clock when it does not parse. *)
Definition parse_timestamp (ts : string) : Prog datetime :=
  match
    (if PyStr.endswith ts "Z" then fromisoformat (PyStr.drop_last ts)
     else fromisoformat (PyStr.replace "+00:00" "" ts))
  with
  | Ok t => Ret t
  | Err (ValueError _) => perform UtcNow
  | Err e => Raise e
  end.

(** [session.add(entry); session.commit(); session.refresh(entry)] is the
    single effect [SessionAdd]; the entry's [id] and [received_at] come
    from the model's default factories. *)
Definition store_audit_entry (p : TaskEventPayload) : Prog AuditLogEntry :=
  ts <- parse_timestamp (timestamp p) ;;
  let task_id :=
    let a := get (payload p) "id" in
    if truthy a then a else get (payload p) "task_id" in
  new_id <- perform Uuid4 ;;
  received <- perform UtcNow ;;
  let entry :=
    mkAuditLogEntry new_id (event_id p) (event_type p) ts received
      (user_id p) (if truthy task_id then Some (py_str task_id) else None)
      (payload p) (source p) in
  perform (SessionAdd entry) ;;
  Ret entry.

Definition handle_audit_event (p : TaskEventPayload) : Prog Value :=
  let event_id := event_id p in
  processed <- is_processed idempotency_checker event_id ;;
  if truthy processed then
    Ret (VDict [ ("status", VStr "duplicate");
                 ("event_id", VStr event_id);
                 ("message", VStr "Event already audited") ])
  else
    entry <- store_audit_entry p ;;
    mark_processed idempotency_checker event_id (Py.id entry) ;;
    Ret (VDict [ ("status", VStr "success");
                 ("event_id", VStr event_id);
                 ("audit_log_id", VStr (Py.id entry));
                 ("message", VStr "Event audited successfully") ]).

End WithConfig.

End AuditService.

(* ================================================================== *)
(** ** services/recurring-task-service/app/handlers/task_completed.py *)

Module RecurringTaskService.
Import Datetime Py.
#[local] Open Scope prog_scope.

Record Config : Type := mkConfig {
  DAPR_HTTP_PORT : string;
  DAPR_STATE_STORE : string;
  CHAT_API_APP_ID : string
}.

Record TaskCompletedPayload : Type := mkPayload {
  event_id : string;
  event_type : string;
  timestamp : string;
  user_id : string;
  task_id : string;
  title : string;
  description : option string;
  status : string;
  priority : string;
  due_date : option string;
  tags : list string;
  reminder_offset_minutes : option Z;
  is_recurring : bool;
  recurrence_rule : option string;
  parent_task_id : option string
}.

Record IdempotencyChecker : Type := mkChecker {
  store_name : string;
  base_url : string;
  ttl_seconds : Z
}.

Definition _key (event_id : string) : string :=
  "recurring-processed:" +++ event_id.

Definition state_url (self : IdempotencyChecker) (event_id : string) : string :=
  base_url self +++ "/v1.0/state/" +++ store_name self +++ "/" +++ _key event_id.

Definition is_processed (self : IdempotencyChecker) (event_id : string)
  : Prog Value :=
  r <- http_get (state_url self event_id) ;;
  match r with
  | Responded response =>
      if status_code response =? 200 then Ret (VStr (text response))
      else Ret (VBool false)
  | RequestError _ => Ret (VBool false)
  end.

Definition mark_processed (self : IdempotencyChecker) (event_id : string)
    (metadata : option (list (string * Value))) : Prog bool :=
  let url := base_url self +++ "/v1.0/state/" +++ store_name self in
  let field (name : string) : Value :=
    match metadata with
    | Some m => if truthy (VDict m) then get m name else VNone
    | None => VNone
    end in
  let state_entry :=
    VList [ VDict [ ("key", VStr (_key event_id));
                    ("value",
                      VDict [ ("event_id", VStr event_id);
                              ("processed_at", field "processed_at");
                              ("next_task_id", field "next_task_id") ]);
                    ("metadata",
                      VDict [("ttlInSeconds",
                              VStr (PyStr.of_int (ttl_seconds self)))]) ] ] in
  r <- perform (HttpPost url state_entry []) ;;
  match r with
  | Responded response =>
      Ret ((status_code response =? 200) || (status_code response =? 201)
           || (status_code response =? 204))
  | RequestError _ => Ret false
  end.

(** [re.match(r"every_(\d+)_UNITs?", rule)]: the captured digits.  The
    match is anchored at the start only; the digits are the maximal run
    (a shorter run would be followed by a digit, not by the underscore). *)
Definition match_every (unit_name rule : string) : option string :=
  if PyStr.startswith rule "every_" then
    let '(digits, rest) := PyStr.span_digits (PyStr.drop 6 rule) in
    if PyStr.truthy digits && PyStr.startswith rest ("_" +++ unit_name)
    then Some digits else None
  else None.

Definition calculate_next_due_date
    (current_due_date recurrence_rule : option string)
  : Res (option datetime) :=
  match current_due_date, recurrence_rule with
  | Some due, Some rule_text =>
      if negb (PyStr.truthy due) || negb (PyStr.truthy rule_text) then Ok None
      else
        let due :=
          if PyStr.endswith due "Z" then PyStr.drop_last due +++ "+00:00"
          else due in
        match fromisoformat due with
        | Err (ValueError _) => Ok None
        | Err e => Err e
        | Ok current =>
            let rule := PyStr.strip (PyStr.lower rule_text) in
            let plus (delta : timedelta) : Res (option datetime) :=
              res_bind (add current delta) (fun next => Ok (Some next)) in
            if String.eqb rule "daily" then plus (timedelta_days 1)
            else if String.eqb rule "weekly" then plus (timedelta_weeks 1)
            else if String.eqb rule "monthly" then plus (timedelta_days 30)
            else
              match match_every "day" rule with
              | Some digits =>
                  match PyStr.int digits with
                  | Some days => plus (timedelta_days days)
                  | None => Err (ValueError "invalid literal for int()")
                  end
              | None =>
                  match match_every "week" rule with
                  | Some digits =>
                      match PyStr.int digits with
                      | Some weeks => plus (timedelta_weeks weeks)
                      | None => Err (ValueError "invalid literal for int()")
                      end
                  | None => Ok None
                  end
              end
        end
  | _, _ => Ok None
  end.

Section WithConfig.
Variable cfg : Config.

Definition idempotency_checker : IdempotencyChecker :=
  mkChecker (DAPR_STATE_STORE cfg)
    ("http://localhost:" +++ DAPR_HTTP_PORT cfg) 86400.

(** The created task as the chat-api returns it, [None] on failure.
    [response.json()] raises on a body that is not JSON, and
    [result.get] on a body that is not an object. *)
Definition create_task_via_dapr (user_id : string) (task_data : Value)
  : Prog (option (list (string * Value))) :=
  let url := "http://localhost:" +++ DAPR_HTTP_PORT cfg +++ "/v1.0/invoke/"
             +++ CHAT_API_APP_ID cfg +++ "/method/api/tasks" in
  let headers := [ ("Content-Type", "application/json");
                   ("X-User-Id", user_id) ] in
  r <- perform (HttpPost url task_data headers) ;;
  match r with
  | Responded response =>
      if (status_code response =? 200) || (status_code response =? 201) then
        match json response with
        | Some (VDict result) => Ret (Some result)
        | Some _ => Raise (AttributeError "object has no attribute 'get'")
        | None => Raise (JSONDecodeError "Expecting value")
        end
      else Ret None
  | RequestError _ => Ret None
  end.

Definition handle_task_completed_event (p : TaskCompletedPayload)
  : Prog Value :=
  let event_id := event_id p in
  processed <- is_processed idempotency_checker event_id ;;
  if truthy processed then
    Ret (VDict [ ("status", VStr "duplicate");
                 ("event_id", VStr event_id);
                 ("message", VStr "Event already processed") ])
  else if negb (is_recurring p) then
    now <- perform UtcNow ;;
    mark_processed idempotency_checker event_id
      (Some [("processed_at", VStr (isoformat now +++ "Z"))]) ;;
    Ret (VDict [ ("status", VStr "success");
                 ("event_id", VStr event_id);
                 ("task_id", VStr (task_id p));
                 ("message", VStr "Task is not recurring, no action needed");
                 ("next_task_created", VBool false) ])
  else
    next_due_date <- lift (calculate_next_due_date (due_date p)
                             (recurrence_rule p)) ;;
    match next_due_date with
    | None =>
        now <- perform UtcNow ;;
        mark_processed idempotency_checker event_id
          (Some [("processed_at", VStr (isoformat now +++ "Z"))]) ;;
        Ret (VDict [ ("status", VStr "success");
                     ("event_id", VStr event_id);
                     ("task_id", VStr (task_id p));
                     ("message", VStr "Could not calculate next due date");
                     ("next_task_created", VBool false) ])
    | Some next_due =>
        let next_task_data :=
          VDict [ ("title", VStr (title p));
                  ("description", of_option_str (description p));
                  ("priority", VStr (priority p));
                  ("due_date", VStr (isoformat next_due +++ "Z"));
                  ("tags", VList (List.map VStr (tags p)));
                  ("reminder_offset_minutes",
                    of_option_int (reminder_offset_minutes p));
                  ("is_recurring", VBool true);
                  ("recurrence_rule", of_option_str (recurrence_rule p)) ] in
        next_task <- create_task_via_dapr (user_id p) next_task_data ;;
        let created :=
          match next_task with
          | Some t => truthy (VDict t)
          | None => false
          end in
        let next_task_id :=
          match next_task with
          | Some t => if created then get t "id" else VNone
          | None => VNone
          end in
        now <- perform UtcNow ;;
        mark_processed idempotency_checker event_id
          (Some [ ("processed_at", VStr (isoformat now +++ "Z"));
                  ("next_task_id", next_task_id) ]) ;;
        if created then
          Ret (VDict [ ("status", VStr "success");
                       ("event_id", VStr event_id);
                       ("task_id", VStr (task_id p));
                       ("message", VStr "Next recurring task created");
                       ("next_task_created", VBool true);
                       ("next_task_id", next_task_id);
                       ("next_due_date", VStr (isoformat next_due +++ "Z")) ])
        else
          Ret (VDict [ ("status", VStr "error");
                       ("event_id", VStr event_id);
                       ("task_id", VStr (task_id p));
                       ("message", VStr "Failed to create next recurring task");
                       ("next_task_created", VBool false) ])
    end.

End WithConfig.

End RecurringTaskService.

(* ================================================================== *)
(** ** Vocabulary of the statements *)

Module Spec.
Import Datetime Py.



(** The three consumer checkers share one body: one GET, and the value of
    [status_code == 200 and text]. *)
Definition consumer_check (x : HttpResult) : Value :=
  match x with
  | Responded r => if status_code r =? 200 then VStr (text r) else VBool false
  | RequestError _ => VBool false
  end.

Definition duplicate_result (event_id message : string) : Value :=
  VDict [ ("status", VStr "duplicate");
          ("event_id", VStr event_id);
          ("message", VStr message) ].

(** What a run that only consulted the store looks like: one GET, nothing
    posted, nothing added to the database session. *)
Definition only_queried (url : string) (calls : list Call) : Prop :=
  (exists x, calls = [Called (HttpGet url) x])
  /\ posted calls = []
  /\ existsb is_session_add calls = false
  /\ existsb is_delete calls = false.

(** The deletion of the job succeeded, as [cancel_job] reads the answer. *)
Definition cancelled (x : HttpResult) : bool :=
  match x with
  | Responded r =>
      (status_code r =? 200) || (status_code r =? 204) || (status_code r =? 404)
  | RequestError _ => false
  end.

(** The day of month [dd] carried into month [m] of year [y]: kept, or
    clipped to the last day of that month. *)
Definition clip_day (y m dd : Z) : Z := Z.min (days_in_month y m) dd.

(** One calendar month after [d]. *)
Definition next_month (d : datetime) : datetime :=
  let y := if month d =? 12 then year d + 1 else year d in
  let m := if month d =? 12 then 1 else month d + 1 in
  mkdatetime y m (clip_day y m (day d))
    (hour d) (minute d) (second d) (microsecond d) (tzinfo d).

(** One calendar year after [d]. *)
Definition next_year (d : datetime) : datetime :=
  mkdatetime (year d + 1) (month d) (clip_day (year d + 1) (month d) (day d))
    (hour d) (minute d) (second d) (microsecond d) (tzinfo d).

(** The due-date text as the consumer hands it to [fromisoformat]. *)
Definition consumer_due_text (due : string) : string :=
  if PyStr.endswith due "Z" then PyStr.drop_last due +++ "+00:00" else due.

(** The rule grammar in the words of the specification: the four keywords,
    and [INTERVAL:N] for a positive integer [N] in decimal. *)
Inductive in_grammar : string -> Recurring.Parsed -> Prop :=
| rule_daily : in_grammar "DAILY" (Recurring.mkParsed "DAILY" 1 "days")
| rule_weekly : in_grammar "WEEKLY" (Recurring.mkParsed "WEEKLY" 7 "days")
| rule_monthly : in_grammar "MONTHLY" (Recurring.mkParsed "MONTHLY" 1 "months")
| rule_yearly : in_grammar "YEARLY" (Recurring.mkParsed "YEARLY" 1 "years")
| rule_interval (n : Z) :
    0 < n ->
    in_grammar ("INTERVAL:" +++ PyStr.of_int n) (Recurring.mkParsed "INTERVAL" n "days").

(** What the code reads of a normalised [INTERVAL:...] rule: the text
    between the first and the second colon, as [int()] reads it. *)
Definition interval_piece (rule : string) : option Z :=
  match nth_error (PyStr.split ":" rule) 1 with
  | Some piece => PyStr.int piece
  | None => None
  end.

(** The verdict of the code on a normalised rule: a keyword, or
    [INTERVAL:] with a readable integer of at least 1 after the colon. *)
Definition accepts (n : string) : bool :=
  existsb (String.eqb n) TaskSchema.valid_rules
  || (PyStr.startswith n "INTERVAL:"
      && match interval_piece n with
         | Some k => 1 <=? k
         | None => false
         end).

(** [current + timedelta(days=k)] as a next due date. *)
Definition shifted_by_days (d : datetime) (k : Z) : Res (option datetime) :=
  res_bind (add d (timedelta_days k)) (fun next => Ok (Some next)).

(** The timestamp text as [store_audit_entry] hands it to [fromisoformat]. *)
Definition audit_timestamp_text (ts : string) : string :=
  if PyStr.endswith ts "Z" then PyStr.drop_last ts
  else PyStr.replace "+00:00" "" ts.

(** The consumer finds no next due date: the due date or the rule is
    missing or empty, or the due text parses and the rule is not one that
    the consumer reads. *)
Definition without_next_due (due rule : option string) : bool :=
  match due, rule with
  | Some s, Some r =>
      negb (PyStr.truthy s) || negb (PyStr.truthy r)
      || match fromisoformat (consumer_due_text s),
               RecurringTaskService.calculate_next_due_date due rule with
         | Ok _, Ok None => true
         | _, _ => false
         end
  | _, _ => true
  end.

Definition success_without_next (event_id task_id message : string) : Value :=
  VDict [ ("status", VStr "success");
          ("event_id", VStr event_id);
          ("task_id", VStr task_id);
          ("message", VStr message);
          ("next_task_created", VBool false) ].

(** The answer to the task-creation request is not a created task: a
    transport error, a status other than 200 and 201, or an empty JSON
    object. *)
Definition not_created (x : HttpResult) : bool :=
  match x with
  | Responded r =>
      if (status_code r =? 200) || (status_code r =? 201) then
        match json r with
        | Some (VDict []) => true
        | _ => false
        end
      else true
  | RequestError _ => true
  end.

(** The answer carries a created task: 200 or 201 with a non-empty JSON
    object. *)
Definition created_task (x : HttpResult) : option (list (string * Value)) :=
  match x with
  | Responded r =>
      if (status_code r =? 200) || (status_code r =? 201) then
        match json r with
        | Some (VDict (item :: items)) => Some (item :: items)
        | _ => None
        end
      else None
  | RequestError _ => None
  end.

(** [n] zeros, the padding of [PyStr.pad]. *)
Fixpoint zeros (n : nat) : string :=
  match n with
  | O => EmptyString
  | S n' => String "0" (zeros n')
  end.

(** The readings of the clock in a run, in order. *)
Definition clock (calls : list Call) : list datetime :=
  flat_map (fun c =>
    match c with
    | Called e x =>
        match e in Eff T return T -> list datetime with
        | UtcNow => fun t => [t]
        | _ => fun _ => []
        end x
    end) calls.

(** The same calendar fields with another [tzinfo]. *)
Definition with_tz (d : datetime) (tz : option Z) : datetime :=
  mkdatetime (year d) (month d) (day d) (hour d) (minute d) (second d)
    (microsecond d) tz.

(** [event[name]] of an envelope. *)
Definition envelope_field (event : Value) (name : string) : Value :=
  match event with
  | VDict items => get items name
  | _ => VNone
  end.

(** The time spent waiting in a run: the sum of the durations slept. *)
Definition total_wait (calls : list Call) : Q :=
  fold_right Qplus 0%Q (slept calls).

(** A store address under which a key is read as it is written: the
    sidecar at [http://localhost:PORT] with a port of decimal digits, and a
    store name of letters, digits, [-] and [_]. *)
Definition store_address (base_url store_name : string) : bool :=
  PyStr.startswith base_url "http://localhost:"
  && PyStr.truthy (PyStr.drop 17 base_url)
  && PyStr.all PyStr.isdigit (PyStr.drop 17 base_url)
  && PyStr.truthy store_name && PyStr.plain store_name.

(** The keys a working store holds after the writes among [calls]. *)
Definition saved_by (state_url : string) (calls : list Call)
    (keys : list string) : list string :=
  fold_left (fun ks pb =>
    if String.eqb (fst pb) state_url then (saved_key (snd pb) ++ ks)%list
    else ks) (posted calls) keys.

(** The request [create_task_via_dapr] sends. *)
Definition create_call (cfg : RecurringTaskService.Config) (user_id : string)
    (task_data : Value) : Eff HttpResult :=
  HttpPost
    ("http://localhost:" +++ RecurringTaskService.DAPR_HTTP_PORT cfg
     +++ "/v1.0/invoke/" +++ RecurringTaskService.CHAT_API_APP_ID cfg
     +++ "/method/api/tasks")
    task_data
    [ ("Content-Type", "application/json"); ("X-User-Id", user_id) ].

(** The body [handle_task_completed_event] builds for the next occurrence
    of [p], due at [next]. *)
Definition next_task_data (p : RecurringTaskService.TaskCompletedPayload)
    (next : datetime) : Value :=
  VDict [ ("title", VStr (RecurringTaskService.title p));
          ("description", of_option_str (RecurringTaskService.description p));
          ("priority", VStr (RecurringTaskService.priority p));
          ("due_date", VStr (isoformat next +++ "Z"));
          ("tags", VList (List.map VStr (RecurringTaskService.tags p)));
          ("reminder_offset_minutes",
            of_option_int (RecurringTaskService.reminder_offset_minutes p));
          ("is_recurring", VBool true);
          ("recurrence_rule",
            of_option_str (RecurringTaskService.recurrence_rule p)) ].

(** The answer has status 200 or 201 and a body that is not a JSON
    object. *)
Definition unreadable (x : HttpResult) : bool :=
  match x with
  | Responded r =>
      ((status_code r =? 200) || (status_code r =? 201))
      && match json r with
         | Some (VDict _) => false
         | _ => true
         end
  | RequestError _ => false
  end.

End Spec.

(* ================================================================== *)
(** * Properties *)

(** ** The calendar *)

Module DatetimeFacts.
Import Datetime.

Lemma month_day_ok_all (leap : bool) :
  forallb (month_day_ok leap)
    (List.map Z.of_nat (seq 0 (if leap then 366 else 365))) = true.
Proof. destruct leap; vm_compute; reflexivity. Qed.

Lemma month_day_spec (leap : bool) (n : Z) :
  0 <= n < 365 + (if leap then 1 else 0) ->
  month_day_ok leap n = true.
Proof.
  intros Hn.
  pose proof (month_day_ok_all leap) as Hall.
  rewrite forallb_forall in Hall.
  apply Hall.
  apply in_map_iff. exists (Z.to_nat n). split.
  - apply Z2Nat.id. lia.
  - apply in_seq. destruct leap; lia.
Qed.


(** A year written on the 400/100/4/1-year cycles. *)
Lemma year_cycles (a b c e : Z) :
  0 <= a -> 0 <= b < 4 -> 0 <= c < 25 -> 0 <= e < 4 ->
  let y := 400 * a + 100 * b + 4 * c + e + 1 in
  days_before_year y = 146097 * a + 36524 * b + 1461 * c + 365 * e
  /\ is_leap y = (e =? 3) && (negb (c =? 24) || (b =? 3)).
Proof.
  intros Ha Hb Hc He y. subst y. split.
  - unfold days_before_year.
    replace (400 * a + 100 * b + 4 * c + e + 1 - 1)
      with (400 * a + 100 * b + 4 * c + e) by lia.
    Z.div_mod_to_equations. lia.
  - unfold is_leap.
    destruct (Z.eqb_spec e 3), (Z.eqb_spec c 24), (Z.eqb_spec b 3);
      cbn [negb andb orb];
      repeat match goal with
             | |- context [?x mod ?k =? 0] =>
                 destruct (Z.eqb_spec (x mod k) 0)
             end;
      cbn [negb andb orb]; try reflexivity;
      exfalso; Z.div_mod_to_equations; lia.
Qed.


Lemma days_in_month_alt (y m : Z) :
  days_in_month y m
  = DAYS_IN_MONTH m + (if (m =? 2) && is_leap y then 1 else 0).
Proof.
  unfold days_in_month.
  destruct (Z.eqb_spec m 2) as [-> | _]; cbn [andb]; [| lia].
  destruct (is_leap y); reflexivity.
Qed.

(** [fromordinal] inverts [toordinal] and yields a well-formed date. *)
Lemma ord2ymd_spec (n : Z) :
  1 <= n ->
  let '(y, m, d) := ord2ymd n in
  ymd2ord y m d = n /\ 1 <= y /\ 1 <= m <= 12 /\ 1 <= d <= days_in_month y m.
Proof.
  intros Hn. unfold ord2ymd, DI400Y, DI100Y, DI4Y.
  pose proof (Z.div_mod (n - 1) 146097 ltac:(lia)) as E1.
  pose proof (Z.mod_pos_bound (n - 1) 146097 ltac:(lia)) as B1.
  set (a := (n - 1) / 146097) in *. set (r1 := (n - 1) mod 146097) in *.
  pose proof (Z.div_mod r1 36524 ltac:(lia)) as E2.
  pose proof (Z.mod_pos_bound r1 36524 ltac:(lia)) as B2.
  set (b := r1 / 36524) in *. set (r2 := r1 mod 36524) in *.
  pose proof (Z.div_mod r2 1461 ltac:(lia)) as E3.
  pose proof (Z.mod_pos_bound r2 1461 ltac:(lia)) as B3.
  set (c := r2 / 1461) in *. set (r3 := r2 mod 1461) in *.
  pose proof (Z.div_mod r3 365 ltac:(lia)) as E4.
  pose proof (Z.mod_pos_bound r3 365 ltac:(lia)) as B4.
  set (e := r3 / 365) in *. set (r4 := r3 mod 365) in *.
  clearbody a r1 b r2 c r3 e r4.
  assert (Ha : 0 <= a) by lia.
  assert (Hb : 0 <= b <= 4) by lia.
  assert (Hc : 0 <= c <= 24) by lia.
  assert (He : 0 <= e <= 4) by lia.
  destruct (Z.eqb_spec e 4) as [He4 | He4];
    [| destruct (Z.eqb_spec b 4) as [Hb4 | Hb4]]; cbn [orb].
  - (* the last day of a 4-year cycle *)
    assert (Hc' : c < 24) by lia.
    assert (Hb' : b < 4) by lia.
    destruct (year_cycles a b c 3 Ha ltac:(lia) ltac:(lia) ltac:(lia))
      as [Hd Hl].
    replace (a * 400 + 1 + b * 100 + c * 4 + e - 1)
      with (400 * a + 100 * b + 4 * c + 3 + 1) by lia.
    unfold ymd2ord, days_before_month. rewrite days_in_month_alt, Hd, Hl.
    destruct (Z.eqb_spec c 24); [lia |].
    change (DAYS_BEFORE_MONTH 12) with 334.
    change (DAYS_IN_MONTH 12) with 31.
    change (2 <? 12) with true. change (12 =? 2) with false.
    change (3 =? 3) with true. cbn [andb orb negb]. lia.
  - (* the last day of a 400-year cycle *)
    destruct (year_cycles a 3 24 3 Ha ltac:(lia) ltac:(lia) ltac:(lia))
      as [Hd Hl].
    replace (a * 400 + 1 + b * 100 + c * 4 + e - 1)
      with (400 * a + 100 * 3 + 4 * 24 + 3 + 1) by lia.
    unfold ymd2ord, days_before_month. rewrite days_in_month_alt, Hd, Hl.
    change (DAYS_BEFORE_MONTH 12) with 334.
    change (DAYS_IN_MONTH 12) with 31.
    change (2 <? 12) with true. change (12 =? 2) with false.
    change (3 =? 3) with true. change (24 =? 24) with true.
    cbn [andb orb negb]. lia.
  - destruct (year_cycles a b c e Ha ltac:(lia) ltac:(lia) ltac:(lia))
      as [Hd Hl].
    replace (a * 400 + 1 + b * 100 + c * 4 + e)
      with (400 * a + 100 * b + 4 * c + e + 1) by lia.
    set (leap := (e =? 3) && (negb (c =? 24) || (b =? 3))) in *.
    pose proof (month_day_spec leap r4) as Hmd.
    unfold month_day_ok in Hmd.
    destruct (month_day leap r4) as [m d].
    specialize (Hmd ltac:(destruct leap; lia)).
    rewrite !andb_true_iff, !Z.leb_le, Z.eqb_eq in Hmd.
    unfold ymd2ord, days_before_month. rewrite days_in_month_alt, Hd, Hl.
    lia.
Qed.


Lemma days_before_year_from_10000 (y : Z) :
  10000 <= y -> MAXORDINAL <= days_before_year y.
Proof.
  intros Hy. unfold days_before_year, MAXORDINAL.
  Z.div_mod_to_equations. lia.
Qed.

Lemma days_before_month_nonneg (y m : Z) : 0 <= days_before_month y m.
Proof.
  unfold days_before_month.
  assert (0 <= DAYS_BEFORE_MONTH m).
  { unfold DAYS_BEFORE_MONTH.
    repeat (match goal with
            | |- context [match ?x with _ => _ end] => destruct x
            end; try lia). }
  destruct ((2 <? m) && is_leap y); lia.
Qed.

(** Inside the supported range, [of_micros] builds the well-formed value
    that stands at the given number of microseconds. *)
Lemma of_micros_ok (t : Z) (tz : option Z) :
  representable t ->
  exists r, of_micros t tz = Ok r
            /\ to_micros r = t /\ tzinfo r = tz /\ valid r = true.
Proof.
  unfold representable, of_micros, US_PER_DAY, US_PER_SECOND, MAXORDINAL.
  intros Ht.
  pose proof (Z.div_mod t (86400 * 1000000) ltac:(lia)) as E1.
  pose proof (Z.mod_pos_bound t (86400 * 1000000) ltac:(lia)) as B1.
  set (days := t / (86400 * 1000000)) in *.
  set (r := t mod (86400 * 1000000)) in *.
  clearbody days r.
  assert (Hd : 1 <= days <= 3652059) by lia.
  destruct (Z.leb_spec 1 days); [| lia].
  destruct (Z.leb_spec days 3652059); [| lia].
  cbn [andb].
  pose proof (ord2ymd_spec days ltac:(lia)) as Hord.
  destruct (ord2ymd days) as [[y m] d].
  destruct Hord as (Hord & Hy & Hm & Hdd).
  assert (Hy' : y <= 9999).
  { destruct (Z.le_gt_cases y 9999) as [|Hbig]; [assumption |].
    pose proof (days_before_year_from_10000 y ltac:(lia)).
    pose proof (days_before_month_nonneg y m).
    unfold ymd2ord, MAXORDINAL in *. lia. }
  eexists. split; [reflexivity |].
  unfold to_micros, toordinal, valid, MINYEAR, MAXYEAR, US_PER_SECOND.
  cbn [year month day hour minute second microsecond tzinfo].
  rewrite Hord.
  split; [| split; [reflexivity |]].
  - Z.div_mod_to_equations. lia.
  - rewrite !andb_true_iff, !Z.leb_le, !Z.ltb_lt.
    Z.div_mod_to_equations. lia.
Qed.

Lemma of_micros_overflow (t : Z) (tz : option Z) :
  ~ representable t ->
  of_micros t tz = Err (OverflowError "date value out of range").
Proof.
  unfold representable, of_micros, US_PER_DAY, US_PER_SECOND, MAXORDINAL.
  intros Ht.
  destruct (Z.leb_spec 1 (t / (86400 * 1000000)));
    destruct (Z.leb_spec (t / (86400 * 1000000)) 3652059);
    cbn [andb]; try reflexivity.
  exfalso. apply Ht. Z.div_mod_to_equations. lia.
Qed.

(** A well-formed value stands inside the supported range. *)
Lemma valid_representable (d : datetime) :
  valid d = true -> representable (to_micros d).
Proof.
  unfold valid, representable, to_micros, toordinal, ymd2ord.
  unfold MINYEAR, MAXYEAR, US_PER_DAY, US_PER_SECOND, MAXORDINAL.
  rewrite !andb_true_iff, !Z.leb_le, !Z.ltb_lt.
  intros Hv.
  assert (Hlo : 0 <= days_before_year (year d)).
  { unfold days_before_year. Z.div_mod_to_equations. lia. }
  assert (Hhi : days_before_year (year d) + days_before_month (year d) (month d)
                + day d <= 3652059).
  { assert (Hm : days_before_month (year d) (month d)
                 + days_in_month (year d) (month d)
                 <= 365 + (if is_leap (year d) then 1 else 0)).
    { unfold days_before_month, days_in_month.
      assert (Hcases : month d = 1 \/ month d = 2 \/ month d = 3
                       \/ month d = 4 \/ month d = 5 \/ month d = 6
                       \/ month d = 7 \/ month d = 8 \/ month d = 9
                       \/ month d = 10 \/ month d = 11 \/ month d = 12)
        by lia.
      destruct (is_leap (year d));
        repeat (destruct Hcases as [-> | Hcases]); try rewrite Hcases;
        cbn; lia. }
    assert (Hy : days_before_year (year d)
                 + 365 + (if is_leap (year d) then 1 else 0) <= 3652059).
    { unfold days_before_year, is_leap.
      repeat match goal with
             | |- context [?x mod ?k =? 0] =>
                 destruct (Z.eqb_spec (x mod k) 0)
             end; cbn [negb andb orb];
        Z.div_mod_to_equations; lia. }
    lia. }
  pose proof (days_before_month_nonneg (year d) (month d)).
  lia.
Qed.

End DatetimeFacts.

(** ** Running programs *)

Module ProgFacts.
Import Py.

Lemma run_bind (env : Env) {A B : Type} (p : Prog A) (f : A -> Prog B)
    (w : world env) :
  run env (bind p f) w =
  match run env p w with
  | (c1, Ok a, w1) =>
      let '(c2, r, w2) := run env (f a) w1 in ((c1 ++ c2)%list, r, w2)
  | (c1, Err e, w1) => (c1, Err e, w1)
  end.
Proof.
  revert w. induction p as [a | e | X e k IH]; intros w; cbn [bind run].
  - destruct (run env (f a) w) as [[c2 r] w2]. reflexivity.
  - reflexivity.
  - destruct (answer env X e w) as [x w1].
    rewrite IH.
    destruct (run env (k x) w1) as [[c1 [a | ex]] w2].
    + destruct (run env (f a) w2) as [[c2 r] w3]. reflexivity.
    + reflexivity.
Qed.

Lemma run_perform (env : Env) {X : Type} (e : Eff X) (w : world env) :
  run env (perform e) w =
  ([Called e (fst (answer env X e w))], Ok (fst (answer env X e w)),
   snd (answer env X e w)).
Proof.
  unfold perform. cbn [run]. destruct (answer env X e w). reflexivity.
Qed.

(** Running [x <- perform e ;; f x]. *)
Lemma run_perform_bind (env : Env) {X B : Type} (e : Eff X)
    (f : X -> Prog B) (w : world env) :
  run env (bind (perform e) f) w =
  let '(c2, r, w2) :=
    run env (f (fst (answer env X e w))) (snd (answer env X e w)) in
  (Called e (fst (answer env X e w)) :: c2, r, w2).
Proof.
  rewrite run_bind, run_perform. reflexivity.
Qed.

(** A checked request on a URL that [httpx] accepts is the request. *)
Lemma run_http_get_bind (env : Env) {B : Type} (url : string)
    (f : HttpResult -> Prog B) (w : world env) :
  url_ok url = true ->
  run env (bind (http_get url) f) w =
  let '(c2, r, w2) :=
    run env (f (fst (answer env _ (HttpGet url) w)))
      (snd (answer env _ (HttpGet url) w)) in
  (Called (HttpGet url) (fst (answer env _ (HttpGet url) w)) :: c2, r, w2).
Proof.
  intros Hok. unfold http_get. rewrite Hok. apply run_perform_bind.
Qed.

Lemma run_http_delete_bind (env : Env) {B : Type} (url : string)
    (f : HttpResult -> Prog B) (w : world env) :
  url_ok url = true ->
  run env (bind (http_delete url) f) w =
  let '(c2, r, w2) :=
    run env (f (fst (answer env _ (HttpDelete url) w)))
      (snd (answer env _ (HttpDelete url) w)) in
  (Called (HttpDelete url) (fst (answer env _ (HttpDelete url) w)) :: c2,
   r, w2).
Proof.
  intros Hok. unfold http_delete. rewrite Hok. apply run_perform_bind.
Qed.

(** On any other URL it raises before anything is sent. *)
Lemma run_http_get_invalid (env : Env) {B : Type} (url : string)
    (f : HttpResult -> Prog B) (w : world env) :
  url_ok url = false ->
  run env (bind (http_get url) f) w = ([], Err (invalid_url url), w).
Proof.
  intros Hok. unfold http_get. rewrite Hok. reflexivity.
Qed.

Lemma run_http_delete_invalid (env : Env) {B : Type} (url : string)
    (f : HttpResult -> Prog B) (w : world env) :
  url_ok url = false ->
  run env (bind (http_delete url) f) w = ([], Err (invalid_url url), w).
Proof.
  intros Hok. unfold http_delete. rewrite Hok. reflexivity.
Qed.

End ProgFacts.

(** ** The idempotency store client *)

Section IsProcessed.
Import Py ProgFacts Spec.





Lemma notification_is_processed_run (env : Env) (w : world env)
    (self : NotificationService.IdempotencyChecker) (event_id : string) :
  let e := HttpGet (NotificationService.state_url self event_id) in
  url_ok (NotificationService.state_url self event_id) = true ->
  run env (NotificationService.is_processed self event_id) w
  = ([Called e (fst (answer env _ e w))],
     Ok (consumer_check (fst (answer env _ e w))), snd (answer env _ e w)).
Proof.
  intros e Hok. unfold NotificationService.is_processed.
  rewrite run_http_get_bind by exact Hok. fold e.
  destruct (fst (answer env _ e w)) as [r | detail]; cbn;
    [destruct (status_code r =? 200) |]; reflexivity.
Qed.

Lemma notification_is_processed_invalid (env : Env) (w : world env)
    (self : NotificationService.IdempotencyChecker) (event_id : string) :
  url_ok (NotificationService.state_url self event_id) = false ->
  run env (NotificationService.is_processed self event_id) w
  = ([], Err (invalid_url (NotificationService.state_url self event_id)), w).
Proof.
  intros Hok. unfold NotificationService.is_processed.
  apply run_http_get_invalid. exact Hok.
Qed.

(** A lookup that returned made its one request. *)
Lemma notification_lookup_returned (env : Env) (w : world env)
    (self : NotificationService.IdempotencyChecker) (event_id : string)
    calls v w' :
  run env (NotificationService.is_processed self event_id) w = (calls, Ok v, w') ->
  let e := HttpGet (NotificationService.state_url self event_id) in
  url_ok (NotificationService.state_url self event_id) = true
  /\ calls = [Called e (fst (answer env _ e w))]
  /\ v = consumer_check (fst (answer env _ e w))
  /\ w' = snd (answer env _ e w).
Proof.
  intros Hrun e.
  destruct (url_ok (NotificationService.state_url self event_id)) eqn:Hok.
  - rewrite (notification_is_processed_run env w self event_id Hok) in Hrun.
    injection Hrun as <- <- <-. repeat split.
  - rewrite (notification_is_processed_invalid env w self event_id Hok) in Hrun.
    discriminate.
Qed.

Lemma audit_is_processed_run (env : Env) (w : world env)
    (self : AuditService.IdempotencyChecker) (event_id : string) :
  let e := HttpGet (AuditService.state_url self event_id) in
  url_ok (AuditService.state_url self event_id) = true ->
  run env (AuditService.is_processed self event_id) w
  = ([Called e (fst (answer env _ e w))],
     Ok (consumer_check (fst (answer env _ e w))), snd (answer env _ e w)).
Proof.
  intros e Hok. unfold AuditService.is_processed.
  rewrite run_http_get_bind by exact Hok. fold e.
  destruct (fst (answer env _ e w)) as [r | detail]; cbn;
    [destruct (status_code r =? 200) |]; reflexivity.
Qed.

Lemma audit_is_processed_invalid (env : Env) (w : world env)
    (self : AuditService.IdempotencyChecker) (event_id : string) :
  url_ok (AuditService.state_url self event_id) = false ->
  run env (AuditService.is_processed self event_id) w
  = ([], Err (invalid_url (AuditService.state_url self event_id)), w).
Proof.
  intros Hok. unfold AuditService.is_processed.
  apply run_http_get_invalid. exact Hok.
Qed.

(** A lookup that returned made its one request. *)
Lemma audit_lookup_returned (env : Env) (w : world env)
    (self : AuditService.IdempotencyChecker) (event_id : string)
    calls v w' :
  run env (AuditService.is_processed self event_id) w = (calls, Ok v, w') ->
  let e := HttpGet (AuditService.state_url self event_id) in
  url_ok (AuditService.state_url self event_id) = true
  /\ calls = [Called e (fst (answer env _ e w))]
  /\ v = consumer_check (fst (answer env _ e w))
  /\ w' = snd (answer env _ e w).
Proof.
  intros Hrun e.
  destruct (url_ok (AuditService.state_url self event_id)) eqn:Hok.
  - rewrite (audit_is_processed_run env w self event_id Hok) in Hrun.
    injection Hrun as <- <- <-. repeat split.
  - rewrite (audit_is_processed_invalid env w self event_id Hok) in Hrun.
    discriminate.
Qed.

Lemma recurring_is_processed_run (env : Env) (w : world env)
    (self : RecurringTaskService.IdempotencyChecker) (event_id : string) :
  let e := HttpGet (RecurringTaskService.state_url self event_id) in
  url_ok (RecurringTaskService.state_url self event_id) = true ->
  run env (RecurringTaskService.is_processed self event_id) w
  = ([Called e (fst (answer env _ e w))],
     Ok (consumer_check (fst (answer env _ e w))), snd (answer env _ e w)).
Proof.
  intros e Hok. unfold RecurringTaskService.is_processed.
  rewrite run_http_get_bind by exact Hok. fold e.
  destruct (fst (answer env _ e w)) as [r | detail]; cbn;
    [destruct (status_code r =? 200) |]; reflexivity.
Qed.

Lemma recurring_is_processed_invalid (env : Env) (w : world env)
    (self : RecurringTaskService.IdempotencyChecker) (event_id : string) :
  url_ok (RecurringTaskService.state_url self event_id) = false ->
  run env (RecurringTaskService.is_processed self event_id) w
  = ([], Err (invalid_url (RecurringTaskService.state_url self event_id)), w).
Proof.
  intros Hok. unfold RecurringTaskService.is_processed.
  apply run_http_get_invalid. exact Hok.
Qed.

(** A lookup that returned made its one request. *)
Lemma recurring_lookup_returned (env : Env) (w : world env)
    (self : RecurringTaskService.IdempotencyChecker) (event_id : string)
    calls v w' :
  run env (RecurringTaskService.is_processed self event_id) w = (calls, Ok v, w') ->
  let e := HttpGet (RecurringTaskService.state_url self event_id) in
  url_ok (RecurringTaskService.state_url self event_id) = true
  /\ calls = [Called e (fst (answer env _ e w))]
  /\ v = consumer_check (fst (answer env _ e w))
  /\ w' = snd (answer env _ e w).
Proof.
  intros Hrun e.
  destruct (url_ok (RecurringTaskService.state_url self event_id)) eqn:Hok.
  - rewrite (recurring_is_processed_run env w self event_id Hok) in Hrun.
    injection Hrun as <- <- <-. repeat split.
  - rewrite (recurring_is_processed_invalid env w self event_id Hok) in Hrun.
    discriminate.
Qed.




End IsProcessed.

(** ** The duplicate path of the consumers *)

Section DuplicatePath.
Import Py ProgFacts Spec.

Ltac duplicate_path lookup_returned :=
  intros calls v w' Hrun Hv;
  split;
  [ rewrite run_bind, Hrun; cbn beta iota; rewrite Hv; cbn [run];
    rewrite app_nil_r; reflexivity
  | destruct (lookup_returned _ _ _ _ _ _ _ Hrun) as (_ & -> & _);
    split; [eexists; reflexivity | repeat split] ].

(** C3.  When [is_processed] reports the event as processed, each of the
    three handlers returns the [duplicate] result having made exactly the
    calls of that one query (same calls, same final state of the world):
    no audit record is added, nothing is posted (no marker write, no task
    creation), no notification step runs. *)
Theorem duplicate_event_is_noop (env : Env) (w : world env) :
  (forall (cfg : NotificationService.Config)
          (p : NotificationService.ReminderEventPayload) calls v w',
      let chk := NotificationService.idempotency_checker cfg in
      let eid := NotificationService.event_id p in
      run env (NotificationService.is_processed chk eid) w
      = (calls, Ok v, w') ->
      truthy v = true ->
      run env (NotificationService.handle_reminder_event cfg p) w
      = (calls, Ok (duplicate_result eid "Event already processed"), w')
      /\ only_queried (NotificationService.state_url chk eid) calls)
  /\ (forall (cfg : AuditService.Config) (py_str : Value -> string)
             (p : AuditService.TaskEventPayload) calls v w',
      let chk := AuditService.idempotency_checker cfg in
      let eid := AuditService.event_id p in
      run env (AuditService.is_processed chk eid) w = (calls, Ok v, w') ->
      truthy v = true ->
      run env (AuditService.handle_audit_event cfg py_str p) w
      = (calls, Ok (duplicate_result eid "Event already audited"), w')
      /\ only_queried (AuditService.state_url chk eid) calls)
  /\ (forall (cfg : RecurringTaskService.Config)
             (p : RecurringTaskService.TaskCompletedPayload) calls v w',
      let chk := RecurringTaskService.idempotency_checker cfg in
      let eid := RecurringTaskService.event_id p in
      run env (RecurringTaskService.is_processed chk eid) w
      = (calls, Ok v, w') ->
      truthy v = true ->
      run env (RecurringTaskService.handle_task_completed_event cfg p) w
      = (calls, Ok (duplicate_result eid "Event already processed"), w')
      /\ only_queried (RecurringTaskService.state_url chk eid) calls).
Proof.
  split; [| split].
  - intros cfg p. unfold NotificationService.handle_reminder_event.
    duplicate_path notification_lookup_returned.
  - intros cfg py_str p. unfold AuditService.handle_audit_event.
    duplicate_path audit_lookup_returned.
  - intros cfg p. unfold RecurringTaskService.handle_task_completed_event.
    duplicate_path recurring_lookup_returned.
Qed.


(** A store that holds a marker for every key: the three handlers answer
    [duplicate] after their single query. *)
Lemma duplicate_event_is_noop_witness :
  let found := Responded (mkResponse 200 "marker" None) in
  let env := const_env found (status_only 204) (status_only 204)
               (Datetime.mkdatetime 2024 1 31 0 0 0 0 None) "u-1" in
  run env
    (NotificationService.handle_reminder_event
       (NotificationService.mkConfig "3500" "statestore")
       (NotificationService.mkPayload "evt-1" "reminder.triggered"
          "2024-01-31T00:00:00Z" "user-1" "task-1" "Pay rent" None
          "2024-01-31T00:00:00Z")) tt
  = ([Called (HttpGet "http://localhost:3500/v1.0/state/statestore/notification-processed:evt-1")
        found],
     Ok (duplicate_result "evt-1" "Event already processed"), tt)
  /\ run env
       (AuditService.handle_audit_event
          (AuditService.mkConfig "3500" "statestore") (fun _ => "task-1")
          (AuditService.mkPayload "evt-1" "task.created"
             "2024-01-31T00:00:00Z" "user-1" "chat-api"
             [("id", VStr "task-1")])) tt
     = ([Called (HttpGet "http://localhost:3500/v1.0/state/statestore/audit-processed:evt-1")
           found],
        Ok (duplicate_result "evt-1" "Event already audited"), tt)
  /\ run env
       (RecurringTaskService.handle_task_completed_event
          (RecurringTaskService.mkConfig "3500" "statestore" "chat-api")
          (RecurringTaskService.mkPayload "evt-1" "task.completed"
             "2024-01-31T00:00:00Z" "user-1" "task-1" "Pay rent" None
             "completed" "high" (Some "2024-01-31T00:00:00Z") [] None true
             (Some "monthly") None)) tt
     = ([Called (HttpGet "http://localhost:3500/v1.0/state/statestore/recurring-processed:evt-1")
           found],
        Ok (duplicate_result "evt-1" "Event already processed"), tt).
Proof.
  intros found env.
  destruct (duplicate_event_is_noop env tt) as (Hn & Ha & Hr).
  split; [| split].
  - eapply proj1. eapply Hn; reflexivity.
  - eapply proj1. eapply Ha; reflexivity.
  - eapply proj1. eapply Hr; reflexivity.
Defined.

(** With a working store, the first delivery of a reminder event is
    processed and marked; the redelivery of the same event finds the marker,
    answers [duplicate] and changes nothing. *)
Example redelivery_is_duplicate :
  let env := store_env "http://localhost:3500/v1.0/state/statestore"
               (Datetime.mkdatetime 2024 1 31 0 0 0 0 None) "u-1" in
  let handle :=
    NotificationService.handle_reminder_event
      (NotificationService.mkConfig "3500" "statestore")
      (NotificationService.mkPayload "evt-1" "reminder.triggered"
         "2024-01-31T00:00:00Z" "user-1" "task-1" "Pay rent" None
         "2024-01-31T00:00:00Z") in
  let first := run env handle [] in
  let second := run env handle (snd first) in
  snd (fst first)
  = Ok (VDict [ ("status", VStr "success"); ("event_id", VStr "evt-1");
                ("task_id", VStr "task-1");
                ("message", VStr "Notification logged (stubbed)") ])
  /\ snd first = ["notification-processed:evt-1"]
  /\ snd (fst second) = Ok (duplicate_result "evt-1" "Event already processed")
  /\ posted (fst (fst second)) = []
  /\ snd second = snd first.
Proof. repeat split. Qed.

End DuplicatePath.

(** ** The callback scheduler *)

Section Scheduler.
Import Datetime Py ProgFacts Spec.

Variable dapr_client : DaprClient.DaprClient.

Lemma is_reminder_in_past_run (env : Env) (w : world env) (t : datetime) :
  let now := fst (answer env _ UtcNow w) in
  run env (Reminder.is_reminder_in_past (Some t)) w
  = ([Called UtcNow now],
     match lt t now with Ok b => Ok b | Err e => Err e end,
     snd (answer env _ UtcNow w)).
Proof.
  intros now. unfold Reminder.is_reminder_in_past.
  rewrite run_perform_bind. fold now.
  destruct (lt t now); reflexivity.
Qed.

(** C8.  [schedule_reminder_job] reads the clock once; when
    [remind_at < now] holds (for naive UTC values: when the instant of
    [remind_at] is strictly earlier than that of the clock) it returns
    [False] and makes no other call, so no job is registered.  A
    timezone-aware [remind_at] cannot be compared with the naive reading of
    [datetime.utcnow()]: whatever its instant, the call raises [TypeError]
    after reading the clock, and registers nothing.  A run that posts to
    the scheduler is one where [remind_at < now] is false; and when it is
    false, the one request that follows creates the job named
    ["reminder-" + task_id]. *)
Theorem past_reminder_is_not_scheduled
    (env : Env) (w : world env) (task_id task_title user_id : string)
    (due_date : option datetime) (remind_at : datetime) :
  let now := fst (answer env _ UtcNow w) in
  let job :=
    Reminder.schedule_reminder_job dapr_client task_id task_title user_id
      due_date remind_at in
  (lt remind_at now = Ok true ->
   run env job w = ([Called UtcNow now], Ok false, snd (answer env _ UtcNow w)))
  /\ (tzinfo remind_at = None -> tzinfo now = None ->
      to_micros remind_at < to_micros now ->
      run env job w
      = ([Called UtcNow now], Ok false, snd (answer env _ UtcNow w)))
  /\ (tzinfo remind_at <> None -> tzinfo now = None ->
      run env job w
      = ([Called UtcNow now],
         Err (TypeError "can't compare offset-naive and offset-aware datetimes"),
         snd (answer env _ UtcNow w)))
  /\ (forall calls out w',
         run env job w = (calls, out, w') ->
         posted calls <> [] -> lt remind_at now = Ok false)
  /\ (lt remind_at now = Ok false ->
      exists body x b w',
        run env job w
        = ([ Called UtcNow now;
             Called (HttpPost (DaprClient.job_url dapr_client
                                 ("reminder-" +++ task_id)) body []) x ],
           Ok b, w')).
Proof.
  intros now job. subst job. unfold Reminder.schedule_reminder_job.
  assert (Hpast :
    lt remind_at now = Ok true ->
    run env
      (bind (Reminder.is_reminder_in_past (Some remind_at))
         (fun past =>
            if past then Ret false
            else
              DaprClient.schedule_job dapr_client
                (Reminder._build_job_name task_id) remind_at
                (VDict [ ("task_id", VStr task_id);
                         ("task_title", VStr task_title);
                         ("user_id", VStr user_id);
                         ("due_at", match due_date with
                                    | Some d => VStr (isoformat d +++ "Z")
                                    | None => VNone
                                    end);
                         ("remind_at", VStr (isoformat remind_at +++ "Z")) ])
                "/api/v1/jobs/reminder-callback")) w
    = ([Called UtcNow now], Ok false, snd (answer env _ UtcNow w))).
  { intros Hlt. rewrite run_bind, is_reminder_in_past_run.
    fold now. rewrite Hlt. reflexivity. }
  split; [exact Hpast |].
  split.
  { intros Hr Hn Hlt. apply Hpast. unfold lt. rewrite Hr, Hn.
    destruct (Z.ltb_spec (to_micros remind_at) (to_micros now));
      [reflexivity | lia]. }
  split.
  { intros Hr Hn. rewrite run_bind, is_reminder_in_past_run. fold now.
    unfold lt. rewrite Hn.
    destruct (tzinfo remind_at) as [off |]; [reflexivity | contradiction]. }
  split.
  - intros calls out w'. rewrite run_bind, is_reminder_in_past_run.
    fold now. destruct (lt remind_at now) as [[|] | e].
    + cbn. intros H. injection H as <- _ _. intros Hp. exfalso. apply Hp.
      reflexivity.
    + reflexivity.
    + intros H. injection H as <- _ _. intros Hp. exfalso. apply Hp.
      reflexivity.
  - intros Hlt. rewrite run_bind, is_reminder_in_past_run.
    fold now. rewrite Hlt. cbn iota.
    unfold DaprClient.schedule_job, Reminder._build_job_name.
    rewrite run_perform_bind.
    match goal with
    | |- context [run env ?p ?w1] =>
        destruct (run env p w1) as [[c2 r2] w2] eqn:Hk
    end.
    match type of Hk with
    | run env (match ?x with _ => _ end) _ = _ =>
        destruct x as [response | detail]
    end.
    + destruct ((status_code response =? 200) || (status_code response =? 201)
                || (status_code response =? 204));
        cbn in Hk; injection Hk as <- <- <-; do 4 eexists; reflexivity.
    + cbn in Hk. injection Hk as <- <- <-. do 4 eexists. reflexivity.
Qed.

Lemma cancel_reminder_job_run (env : Env) (w : world env) (task_id : string) :
  let e := HttpDelete (DaprClient.job_url dapr_client ("reminder-" +++ task_id)) in
  run env (Reminder.cancel_reminder_job dapr_client task_id) w
  = ([Called e (fst (answer env _ e w))],
     Ok (cancelled (fst (answer env _ e w))), snd (answer env _ e w)).
Proof.
  intros e.
  unfold Reminder.cancel_reminder_job, DaprClient.cancel_job,
    Reminder._build_job_name.
  rewrite run_perform_bind. fold e.
  destruct (fst (answer env _ e w)) as [r | detail]; cbn [cancelled];
    [destruct ((status_code r =? 200) || (status_code r =? 204)
               || (status_code r =? 404)) |]; reflexivity.
Qed.

(** C9, as the code has it.  With [remind_at = None],
    [reschedule_reminder_job] makes exactly the calls of
    [cancel_reminder_job]: one DELETE of the job named
    ["reminder-" + task_id], and no job creation; it leaves the world in the
    same state.  It returns [True] whatever the cancellation answered, so
    the two results agree exactly when the cancellation succeeded. *)
Theorem reschedule_without_time_is_cancel
    (env : Env) (w : world env) (task_id task_title user_id : string)
    (due_date : option datetime) :
  let e := HttpDelete (DaprClient.job_url dapr_client ("reminder-" +++ task_id)) in
  let x := fst (answer env _ e w) in
  run env (Reminder.cancel_reminder_job dapr_client task_id) w
  = ([Called e x], Ok (cancelled x), snd (answer env _ e w))
  /\ run env (Reminder.reschedule_reminder_job dapr_client task_id task_title
                user_id due_date None) w
     = ([Called e x], Ok true, snd (answer env _ e w))
  /\ posted [Called e x] = [].
Proof.
  intros e x. split; [apply cancel_reminder_job_run |].
  split; [| reflexivity].
  unfold Reminder.reschedule_reminder_job.
  rewrite run_bind, cancel_reminder_job_run. reflexivity.
Qed.

End Scheduler.

(** The clock reads 2024-01-31T00:00:00 and the reminder was due one second
    earlier: nothing is posted and the result is [False]. *)
Lemma past_reminder_is_not_scheduled_witness :
  let now := Datetime.mkdatetime 2024 1 31 0 0 0 0 None in
  let env := Py.const_env (Py.status_only 204) (Py.status_only 204)
               (Py.status_only 204) now "u-1" in
  Py.run env
    (Reminder.schedule_reminder_job (DaprClient.new "3500") "task-1" "Pay rent"
       "user-1" (Some now) (Datetime.mkdatetime 2024 1 30 23 59 59 0 None)) tt
  = ([Py.Called Py.UtcNow now], Ok false, tt)
  /\ Py.run env
       (Reminder.schedule_reminder_job (DaprClient.new "3500") "task-1"
          "Pay rent" "user-1" (Some now)
          (Datetime.mkdatetime 2024 1 30 23 59 59 0 (Some 0))) tt
     = ([Py.Called Py.UtcNow now],
        Err (TypeError "can't compare offset-naive and offset-aware datetimes"),
        tt).
Proof.
  intros now env. split.
  - apply (proj1 (past_reminder_is_not_scheduled (DaprClient.new "3500") env tt
                    "task-1" "Pay rent" "user-1" (Some now)
                    (Datetime.mkdatetime 2024 1 30 23 59 59 0 None))).
    reflexivity.
  - apply (proj1 (proj2 (proj2
             (past_reminder_is_not_scheduled (DaprClient.new "3500") env tt
                "task-1" "Pay rent" "user-1" (Some now)
                (Datetime.mkdatetime 2024 1 30 23 59 59 0 (Some 0)))))).
    + discriminate.
    + reflexivity.
Defined.

(** The two results can differ: when the scheduler answers the deletion with
    500, [cancel_reminder_job] returns [False] but
    [reschedule_reminder_job(..., remind_at=None)] returns [True]. *)
Lemma reschedule_result_differs_from_cancel :
  let env := Py.const_env (Py.status_only 204) (Py.status_only 204)
               (Py.status_only 500)
               (Datetime.mkdatetime 2024 1 31 0 0 0 0 None) "u-1" in
  snd (fst (Py.run env
              (Reminder.cancel_reminder_job (DaprClient.new "3500") "task-1") tt))
  = Ok false
  /\ snd (fst (Py.run env
                 (Reminder.reschedule_reminder_job (DaprClient.new "3500")
                    "task-1" "Pay rent" "user-1" None None) tt))
     = Ok true.
Proof. split; reflexivity. Qed.

(** ** The publisher *)

Section Publisher.
Import Datetime Py ProgFacts Events.

Variable cfg : Config.

Lemma posted_app (c1 c2 : list Call) :
  posted (c1 ++ c2) = (posted c1 ++ posted c2)%list.
Proof. apply flat_map_app. Qed.

Lemma slept_app (c1 c2 : list Call) :
  slept (c1 ++ c2) = (slept c1 ++ slept c2)%list.
Proof. apply flat_map_app. Qed.

Lemma steps_app (c1 c2 : list Call) :
  steps (c1 ++ c2) = (steps c1 ++ steps c2)%list.
Proof. apply flat_map_app. Qed.

Lemma uuids_app (c1 c2 : list Call) :
  uuids (c1 ++ c2) = (uuids c1 ++ uuids c2)%list.
Proof. apply flat_map_app. Qed.

Lemma backoff_run (env : Env) (w : world env) (attempt : Z) :
  overflows cfg attempt = false ->
  exists calls w',
    run env (backoff cfg attempt) w = (calls, Ok tt, w')
    /\ posted calls = [] /\ uuids calls = []
    /\ forallb post_failed calls = true
    /\ steps calls = (if attempt <? MAX_RETRIES cfg
                      then [Wait (backoff_delay cfg attempt)] else [])
    /\ slept calls = (if attempt <? MAX_RETRIES cfg
                      then [backoff_delay cfg attempt] else []).
Proof.
  unfold backoff, overflows. destruct (attempt <? MAX_RETRIES cfg).
  - cbn [andb]. intros ->. rewrite run_perform.
    destruct (answer env unit (Sleep (backoff_delay cfg attempt)) w)
      as [[] w1].
    do 2 eexists. repeat split.
  - intros _. do 2 eexists. repeat split.
Qed.

Lemma backoff_overflow (env : Env) (w : world env) (attempt : Z) :
  overflows cfg attempt = true ->
  run env (backoff cfg attempt) w
  = ([], Err (OverflowError "int too large to convert to float"), w).
Proof.
  unfold backoff, overflows. intros H.
  apply andb_true_iff in H. destruct H as [-> ->]. reflexivity.
Qed.

(** The loop: every attempt posts the same envelope to the same URL; when
    all answers are failures the loop raises, and unless the computation of
    a delay overflows every attempt is made, with its wait, before
    [EventPublishError]; otherwise the envelope is returned. *)
Lemma publish_attempts_run (env : Env) (topic : string) (event : Value) :
  forall (attempts : list Z) (last_error : option string) (w : world env)
         calls out w',
    run env (publish_attempts cfg topic event attempts last_error) w
    = (calls, out, w') ->
    Forall (fun pb => pb = (publish_url cfg topic, event)) (posted calls)
    /\ uuids calls = []
    /\ (forallb post_failed calls = true -> exists e, out = Err e)
    /\ (forallb post_failed calls = true ->
        forallb (fun a => negb (overflows cfg a)) attempts = true ->
        List.length (posted calls) = List.length attempts
        /\ steps calls = failing_steps cfg attempts
        /\ slept calls
           = List.map (backoff_delay cfg)
               (filter (fun a => a <? MAX_RETRIES cfg) attempts)
        /\ exists msg, out = Err (EventPublishError msg))
    /\ (forallb post_failed calls = false -> out = Ok event).
Proof.
  induction attempts as [| attempt rest IH];
    intros last_error w calls out w' Hrun.
  - cbn in Hrun. injection Hrun as <- <- _.
    repeat split; try constructor; try discriminate;
      eexists; reflexivity.
  - cbn [publish_attempts] in Hrun.
    rewrite run_perform_bind in Hrun.
    set (e := HttpPost (publish_url cfg topic) event
                [("Content-Type", "application/json")]) in *.
    set (x := fst (answer env _ e w)) in *.
    set (w1 := snd (answer env _ e w)) in *.
    clearbody x w1.
    assert (Hloop :
      forall last_error',
        failed x = true ->
        (let '(c2, r, w2) :=
           run env (bind (backoff cfg attempt)
                      (fun _ => publish_attempts cfg topic event rest
                                  last_error')) w1 in
         (Called e x :: c2, r, w2)) = (calls, out, w') ->
        Forall (fun pb => pb = (publish_url cfg topic, event)) (posted calls)
        /\ uuids calls = []
        /\ (forallb post_failed calls = true -> exists e, out = Err e)
        /\ (forallb post_failed calls = true ->
            forallb (fun a => negb (overflows cfg a)) (attempt :: rest)
            = true ->
            List.length (posted calls) = List.length (attempt :: rest)
            /\ steps calls = failing_steps cfg (attempt :: rest)
            /\ slept calls
               = List.map (backoff_delay cfg)
                   (filter (fun a => a <? MAX_RETRIES cfg) (attempt :: rest))
            /\ exists msg, out = Err (EventPublishError msg))
        /\ (forallb post_failed calls = false -> out = Ok event)).
    { intros last_error' Hfail H.
      rewrite run_bind in H.
      destruct (overflows cfg attempt) eqn:Hov.
      { rewrite (backoff_overflow env w1 attempt Hov) in H.
        injection H as <- <- _.
        cbn [posted uuids flat_map forallb post_failed e app andb].
        rewrite Hfail. cbn [andb negb].
        split; [constructor; [reflexivity | constructor] |].
        split; [reflexivity |].
        split; [intros _; eexists; reflexivity |].
        split; [| discriminate].
        intros _ Hno. cbn [forallb] in Hno. rewrite Hov in Hno.
        discriminate. }
      destruct (backoff_run env w1 attempt Hov)
        as (cb & wb & Hb & Hbp & Hbu & Hbf & Hbs & Hbz).
      rewrite Hb in H.
      destruct (run env (publish_attempts cfg topic event rest last_error') wb)
        as [[c2 r2] w2] eqn:Hrest.
      injection H as <- <- <-.
      destruct (IH _ _ _ _ _ Hrest)
        as (Hposted & Huuid & Herr & Hall & Hsome).
      change (Called e x :: (cb ++ c2)%list)
        with ([Called e x] ++ (cb ++ c2))%list.
      rewrite !posted_app, !uuids_app, !steps_app, !slept_app, !forallb_app.
      rewrite Hbp, Hbu, Hbf, Hbs, Hbz, Huuid.
      cbn [posted uuids steps slept flat_map forallb post_failed e app
             andb List.length negb].
      rewrite Hfail. cbn [andb negb].
      split; [constructor; [reflexivity | exact Hposted] |].
      split; [reflexivity |].
      split; [exact Herr |].
      split; [| exact Hsome].
      intros Hf Hno. rewrite Hov in Hno. cbn [negb andb] in Hno.
      destruct (Hall Hf Hno) as (Hlen & Hsteps & Hslept & Hout).
      rewrite Hlen, Hsteps, Hslept.
      split; [reflexivity |].
      split; [cbn [failing_steps flat_map];
              destruct (attempt <? MAX_RETRIES cfg); reflexivity |].
      split; [cbn [filter]; destruct (attempt <? MAX_RETRIES cfg);
              reflexivity |].
      exact Hout. }
    destruct x as [response | detail].
    + destruct (success_status (status_code response)) eqn:Hs.
      * cbn in Hrun. injection Hrun as <- <- _. subst e.
        cbn [posted uuids flat_map forallb post_failed failed app].
        rewrite Hs. cbn [negb andb].
        repeat split; try discriminate.
        constructor; [reflexivity | constructor].
      * eapply Hloop; [cbn; rewrite Hs; reflexivity | exact Hrun].
    + eapply Hloop; [reflexivity | exact Hrun].
Qed.

(** When the wait after attempt [a] overflows, and every attempt up to [a]
    fails, the loop ends in [OverflowError] right after attempt [a]. *)
Lemma publish_attempts_overflow (env : Env) (topic : string) (event : Value) :
  forall (pre : list Z) (a : Z) (rest : list Z) (last_error : option string)
         (w : world env) calls out w',
    forallb (fun k => (k <? MAX_RETRIES cfg) && negb (overflows cfg k)) pre
    = true ->
    overflows cfg a = true ->
    run env (publish_attempts cfg topic event (pre ++ a :: rest) last_error) w
    = (calls, out, w') ->
    forallb post_failed calls = true ->
    List.length (posted calls) = S (List.length pre)
    /\ steps calls
       = (flat_map (fun k => [Attempt; Wait (backoff_delay cfg k)]) pre
          ++ [Attempt])%list
    /\ slept calls = List.map (backoff_delay cfg) pre
    /\ exists msg, out = Err (OverflowError msg).
Proof.
  induction pre as [| k pre IH];
    intros a rest last_error w calls out w' Hpre Hov Hrun Hfail.
  - cbn [app publish_attempts] in Hrun.
    rewrite run_perform_bind in Hrun.
    set (e := HttpPost (publish_url cfg topic) event
                [("Content-Type", "application/json")]) in *.
    destruct (fst (answer env _ e w)) as [response | detail] eqn:Hx.
    + destruct (success_status (status_code response)) eqn:Hs.
      * cbn in Hrun. injection Hrun as <- _ _.
        cbn [forallb post_failed e failed] in Hfail.
        rewrite Hs in Hfail. discriminate.
      * rewrite run_bind, (backoff_overflow env _ a Hov) in Hrun.
        injection Hrun as <- <- _.
        repeat split. eexists. reflexivity.
    + rewrite run_bind, (backoff_overflow env _ a Hov) in Hrun.
      injection Hrun as <- <- _.
      repeat split. eexists. reflexivity.
  - cbn [forallb] in Hpre. apply andb_true_iff in Hpre.
    destruct Hpre as [Hk Hpre]. apply andb_true_iff in Hk.
    destruct Hk as [Hlt Hnov]. apply negb_true_iff in Hnov.
    cbn [app publish_attempts] in Hrun.
    rewrite run_perform_bind in Hrun.
    set (e := HttpPost (publish_url cfg topic) event
                [("Content-Type", "application/json")]) in *.
    set (x := fst (answer env _ e w)) in *.
    set (w1 := snd (answer env _ e w)) in *.
    clearbody x w1.
    assert (Hloop :
      forall last_error',
        (let '(c2, r, w2) :=
           run env (bind (backoff cfg k)
                      (fun _ => publish_attempts cfg topic event
                                  (pre ++ a :: rest) last_error')) w1 in
         (Called e x :: c2, r, w2)) = (calls, out, w') ->
        List.length (posted calls) = S (List.length (k :: pre))
        /\ steps calls
           = (flat_map (fun k => [Attempt; Wait (backoff_delay cfg k)])
                (k :: pre) ++ [Attempt])%list
        /\ slept calls = List.map (backoff_delay cfg) (k :: pre)
        /\ exists msg, out = Err (OverflowError msg)).
    { intros last_error' H.
      rewrite run_bind in H.
      destruct (backoff_run env w1 k Hnov)
        as (cb & wb & Hb & Hbp & _ & Hbf & Hbs & Hbz).
      rewrite Hb in H. rewrite Hlt in Hbs, Hbz.
      destruct (run env (publish_attempts cfg topic event (pre ++ a :: rest)
                           last_error') wb)
        as [[c2 r2] w2] eqn:Hrest.
      injection H as <- <- <-.
      change (Called e x :: (cb ++ c2)%list)
        with ([Called e x] ++ (cb ++ c2))%list in Hfail |- *.
      rewrite !forallb_app, Hbf in Hfail.
      apply andb_true_iff in Hfail. destruct Hfail as [_ Hfail].
      cbn [andb] in Hfail.
      destruct (IH _ _ _ _ _ _ _ Hpre Hov Hrest Hfail)
        as (Hlen & Hst & Hsl & Hout).
      rewrite !posted_app, !steps_app, !slept_app, Hbp, Hbs, Hbz, Hst, Hsl.
      rewrite !length_app, Hlen.
      cbn [posted steps slept flat_map e app List.length List.map].
      repeat split. exact Hout. }
    destruct x as [response | detail].
    + destruct (success_status (status_code response)) eqn:Hs.
      * cbn in Hrun. injection Hrun as <- _ _.
        cbn [forallb post_failed e failed] in Hfail. rewrite Hs in Hfail.
        discriminate.
      * eapply Hloop. exact Hrun.
    + eapply Hloop. exact Hrun.
Qed.


Lemma range_length (a b : Z) : List.length (range a b) = Z.to_nat (b - a).
Proof. unfold range. rewrite length_map, length_seq. reflexivity. Qed.

Lemma filter_below (m : Z) (k : nat) :
  Z.of_nat k < m ->
  filter (fun a => a <? m) (List.map (fun i => 1 + Z.of_nat i) (seq 0 k))
  = List.map (fun i => 1 + Z.of_nat i) (seq 0 k).
Proof.
  induction k as [| k IH]; intros Hk; [reflexivity |].
  rewrite seq_S, map_app, filter_app, IH by lia.
  cbn [List.map filter Nat.add].
  destruct (Z.ltb_spec (1 + Z.of_nat k) m); [reflexivity | lia].
Qed.

(** Of the attempts 1..MAX, those followed by a wait are 1..MAX-1. *)
Lemma range_waits (m : Z) :
  filter (fun a => a <? m) (range 1 (m + 1)) = range 1 m.
Proof.
  unfold range. replace (m + 1 - 1) with m by lia.
  destruct (Z.le_gt_cases m 0) as [Hm | Hm].
  - replace (Z.to_nat m) with O by lia.
    replace (Z.to_nat (m - 1)) with O by lia. reflexivity.
  - replace (Z.to_nat m) with (S (Z.to_nat (m - 1))) by lia.
    rewrite seq_S, map_app, filter_app, filter_below by lia.
    cbn [List.map filter Nat.add].
    destruct (Z.ltb_spec (1 + Z.of_nat (Z.to_nat (m - 1))) m); [lia |].
    apply app_nil_r.
Qed.

Lemma range_app (a b c : Z) :
  a <= b <= c -> range a c = (range a b ++ range b c)%list.
Proof.
  intros H. unfold range.
  replace (Z.to_nat (c - a)) with (Z.to_nat (b - a) + Z.to_nat (c - b))%nat
    by lia.
  rewrite seq_app, map_app. f_equal. cbn [Nat.add].
  assert (Hshift : forall m k,
            List.map (fun i => a + Z.of_nat i) (seq (Z.to_nat (b - a) + k) m)
            = List.map (fun i => b + Z.of_nat i) (seq k m)).
  { induction m as [| m IH]; intros k; [reflexivity |].
    cbn [seq List.map]. f_equal; [lia |].
    rewrite <- Nat.add_succ_r. apply IH. }
  rewrite <- (Nat.add_0_r (Z.to_nat (b - a))) at 1. apply Hshift.
Qed.

Lemma range_cons (b c : Z) : b < c -> range b c = b :: range (b + 1) c.
Proof.
  intros H. unfold range.
  replace (Z.to_nat (c - b)) with (S (Z.to_nat (c - (b + 1)))) by lia.
  cbn [seq List.map]. f_equal; [lia |].
  rewrite <- seq_shift, map_map. apply map_ext. intros i. lia.
Qed.

Lemma range_in (a b k : Z) : In k (range a b) -> a <= k < b.
Proof.
  unfold range. rewrite in_map_iff. intros (i & <- & Hi).
  apply in_seq in Hi. lia.
Qed.

(** No delay overflows when at most 1025 attempts are allowed. *)
Lemma range_no_overflow :
  MAX_RETRIES cfg <= 1025 ->
  forallb (fun a => negb (overflows cfg a)) (range 1 (MAX_RETRIES cfg + 1))
  = true.
Proof.
  intros Hmax. apply forallb_forall. intros k Hk.
  apply range_in in Hk. unfold overflows.
  destruct (Z.ltb_spec k (MAX_RETRIES cfg)); [| reflexivity].
  destruct (Z.leb_spec 1024 (k - 1)); [lia | reflexivity].
Qed.

(** Building the envelope: the identifier is the caller's when it is a
    non-empty string, else the one answer of the UUID source; then the
    clock is read.  Nothing is sent. *)
Lemma build_event_run (env : Env) (w : world env)
    (event_type user_id : string) (payload : Value)
    (event_id : option string) :
  exists event eid c0 w0,
    run env (_build_event event_type user_id payload event_id) w
    = (c0, Ok event, w0)
    /\ event_id_of event = VStr eid
    /\ posted c0 = [] /\ steps c0 = [] /\ slept c0 = []
    /\ forallb post_failed c0 = true
    /\ match event_id with
       | Some s => if PyStr.truthy s then eid = s /\ uuids c0 = []
                   else uuids c0 = [eid]
       | None => uuids c0 = [eid]
       end.
Proof.
  unfold _build_event, event_id_or_fresh.
  assert (Hfresh :
    exists event eid c0 w0,
      run env
        (bind (perform Uuid4) (fun eid =>
         bind (perform UtcNow) (fun now =>
         Ret (VDict [ ("event_id", VStr eid);
                      ("event_type", VStr event_type);
                      ("timestamp", VStr (isoformat now +++ "Z"));
                      ("user_id", VStr user_id);
                      ("payload", payload);
                      ("source", VStr "chat-api");
                      ("specversion", VStr "1.0") ])))) w
      = (c0, Ok event, w0)
      /\ event_id_of event = VStr eid
      /\ posted c0 = [] /\ steps c0 = [] /\ slept c0 = []
      /\ forallb post_failed c0 = true /\ uuids c0 = [eid]).
  { rewrite run_perform_bind, run_perform_bind. cbn [run].
    do 4 eexists. repeat split. }
  destruct event_id as [s |].
  - destruct (PyStr.truthy s) eqn:Hs.
    + cbn [bind]. rewrite run_perform_bind. cbn [run].
      do 4 eexists. repeat split.
    + exact Hfresh.
  - exact Hfresh.
Qed.

(** [publish_event] is the envelope construction followed, when Dapr is
    enabled, by the attempts 1..MAX_RETRIES. *)
Lemma publish_event_run (env : Env) (w : world env)
    (topic event_type user_id : string) (payload : Value)
    (event_id : option string) (c0 : list Call) (event : Value)
    (w0 : world env) :
  run env (_build_event event_type user_id payload event_id) w
  = (c0, Ok event, w0) ->
  run env (publish_event cfg topic event_type user_id payload event_id) w
  = if DAPR_ENABLED cfg then
      let '(c1, r, w1) :=
        run env (publish_attempts cfg topic event
                   (range 1 (MAX_RETRIES cfg + 1)) None) w0 in
      ((c0 ++ c1)%list, r, w1)
    else (c0, Ok event, w0).
Proof.
  intros Hb. unfold publish_event. rewrite run_bind, Hb.
  destruct (DAPR_ENABLED cfg); cbn [negb].
  - reflexivity.
  - cbn [run]. rewrite app_nil_r. reflexivity.
Qed.


(** C5, as the code has it.  The envelope is built once, before any
    attempt: its [event_id] is the caller's value when that is a non-empty
    string, and otherwise (none given, or the empty string) the single
    identifier drawn from the UUID source.  Every attempt of the call posts
    that same envelope, no further identifier is drawn, and a normal return
    gives that envelope back. *)
Theorem event_id_fixed_before_attempts
    (env : Env) (w : world env) (topic event_type user_id : string)
    (payload : Value) (event_id : option string) calls out w' :
  run env (publish_event cfg topic event_type user_id payload event_id) w
  = (calls, out, w') ->
  exists event eid c0 c1 w0,
    run env (_build_event event_type user_id payload event_id) w
    = (c0, Ok event, w0)
    /\ calls = (c0 ++ c1)%list /\ posted c0 = [] /\ uuids c1 = []
    /\ event_id_of event = VStr eid
    /\ Forall (fun pb => snd pb = event) (posted calls)
    /\ match event_id with
       | Some s => if PyStr.truthy s then eid = s /\ uuids calls = []
                   else uuids calls = [eid]
       | None => uuids calls = [eid]
       end
    /\ (forall ev, out = Ok ev -> ev = event).
Proof.
  intros Hrun.
  destruct (build_event_run env w event_type user_id payload event_id)
    as (event & eid & c0 & w0 & Hb & Hid & Hp0 & _ & _ & _ & Hu0).
  rewrite (publish_event_run env w topic _ _ _ _ c0 event w0 Hb) in Hrun.
  exists event, eid, c0.
  destruct (DAPR_ENABLED cfg).
  - destruct (run env (publish_attempts cfg topic event
                         (range 1 (MAX_RETRIES cfg + 1)) None) w0)
      as [[c1 r] w1] eqn:Hloop.
    injection Hrun as <- <- _.
    destruct (publish_attempts_run env topic event _ _ _ _ _ _ Hloop)
      as (Hposted & Hu1 & Herr & _ & Hsome).
    exists c1, w0.
    rewrite posted_app, uuids_app, Hp0, Hu1, app_nil_r. cbn [app].
    repeat split; try assumption; try reflexivity.
    + eapply Forall_impl; [| exact Hposted].
      intros pb ->. reflexivity.
    + intros ev ->.
      destruct (forallb post_failed c1) eqn:Hf.
      * destruct (Herr eq_refl) as (e & He). discriminate.
      * specialize (Hsome eq_refl). congruence.
  - injection Hrun as <- <- _.
    exists [], w0.
    rewrite app_nil_r, Hp0.
    repeat split; try assumption; try reflexivity.
    + constructor.
    + intros ev H. congruence.
Qed.

End Publisher.



(** The caller fixes the identifier and the broker is down: the three
    attempts carry the envelope with that identifier, none is drawn. *)
Lemma event_id_fixed_before_attempts_witness :
  let env := Py.const_env (Py.status_only 204) (Py.RequestError "connection refused")
               (Py.status_only 204)
               (Datetime.mkdatetime 2024 1 31 0 0 0 0 None) "u-1" in
  let r := Py.run env
             (Events.publish_event Events.default_config "task-events"
                "task.created" "user-1" (Py.VDict []) (Some "evt-1")) tt in
  exists event,
    Events.event_id_of event = Py.VStr "evt-1"
    /\ Forall (fun pb => snd pb = event) (Py.posted (fst (fst r)))
    /\ List.length (Py.posted (fst (fst r))) = 3%nat
    /\ Py.uuids (fst (fst r)) = [].
Proof.
  intros env r.
  destruct (event_id_fixed_before_attempts Events.default_config env tt
              "task-events" "task.created" "user-1" (Py.VDict []) (Some "evt-1")
              (fst (fst r)) (snd (fst r)) (snd r) eq_refl)
    as (event & eid & c0 & c1 & w0 & _ & _ & _ & _ & Hid & Hall & Hcase & _).
  cbn in Hcase. destruct Hcase as [-> Hu].
  exists event.
  split; [exact Hid |]. split; [exact Hall |]. split; [reflexivity | exact Hu].
Defined.

(** An empty identifier is not kept: the caller supplies the empty string,
    and the envelope carries the identifier drawn from the UUID source. *)
Lemma empty_event_id_is_replaced :
  let env := Py.const_env (Py.status_only 204) (Py.status_only 204)
               (Py.status_only 204)
               (Datetime.mkdatetime 2024 1 31 0 0 0 0 None) "u-1" in
  let r := Py.run env
             (Events.publish_event Events.default_config "task-events"
                "task.created" "user-1" (Py.VDict []) (Some "")) tt in
  exists event,
    snd (fst r) = Ok event
    /\ Events.event_id_of event = Py.VStr "u-1"
    /\ Py.uuids (fst (fst r)) = ["u-1"].
Proof. eexists. repeat split. Qed.

(** ** Reminder time *)

Section RemindAt.
Import Datetime DatetimeFacts.

Lemma add_ok (d : datetime) (delta : timedelta) :
  representable (to_micros d + delta) ->
  exists r, add d delta = Ok r
            /\ to_micros r = to_micros d + delta
            /\ tzinfo r = tzinfo d /\ valid r = true.
Proof. intros H. unfold add. apply of_micros_ok. exact H. Qed.

Lemma add_overflow (d : datetime) (delta : timedelta) :
  ~ representable (to_micros d + delta) ->
  add d delta = Err (OverflowError "date value out of range").
Proof. intros H. unfold add. apply of_micros_overflow. exact H. Qed.

(** C10.  [calculate_remind_at] (the backend's and the chat-api's are the
    same function) returns [None] when the due date or the offset is
    [None]; for a due date and a negative offset it raises [ValueError];
    for a non-negative offset it returns the instant [offset] minutes
    before the due date, in the same time zone and never after the due
    date, whenever that instant exists as a [datetime]
    (0001-01-01 or later). *)
Theorem calculate_remind_at_spec :
  BackendReminder.calculate_remind_at = Reminder.calculate_remind_at
  /\ (forall offset, Reminder.calculate_remind_at None offset = Ok None)
  /\ (forall due, Reminder.calculate_remind_at due None = Ok None)
  /\ (forall due offset,
         offset < 0 ->
         Reminder.calculate_remind_at (Some due) (Some offset)
         = Err (ValueError "reminder_offset_minutes must be non-negative"))
  /\ (forall due offset,
         0 <= offset ->
         representable (to_micros due - offset * 60 * US_PER_SECOND) ->
         exists r,
           Reminder.calculate_remind_at (Some due) (Some offset) = Ok (Some r)
           /\ to_micros r = to_micros due - offset * 60 * US_PER_SECOND
           /\ tzinfo r = tzinfo due
           /\ valid r = true
           /\ to_micros r <= to_micros due).
Proof.
  split; [reflexivity |].
  split; [reflexivity |].
  split; [intros [d |]; reflexivity |].
  split.
  - intros due offset Hneg. unfold Reminder.calculate_remind_at.
    destruct (Z.ltb_spec offset 0); [reflexivity | lia].
  - intros due offset Hpos Hrep. unfold Reminder.calculate_remind_at.
    destruct (Z.ltb_spec offset 0); [lia |].
    unfold sub, timedelta_minutes.
    destruct (add_ok due (- (offset * 60 * US_PER_SECOND)))
      as (r & Hr & Hm & Htz & Hv).
    { replace (to_micros due + - (offset * 60 * US_PER_SECOND))
        with (to_micros due - offset * 60 * US_PER_SECOND) by lia.
      exact Hrep. }
    exists r. rewrite Hr. cbn [res_bind].
    unfold US_PER_SECOND in *. repeat split; try assumption; lia.
Qed.

(** Due on 2024-01-31T09:00 with a 60-minute reminder: 08:00 that day. *)
Lemma calculate_remind_at_spec_witness :
  Reminder.calculate_remind_at
    (Some (mkdatetime 2024 1 31 9 0 0 0 None)) (Some 60)
  = Ok (Some (mkdatetime 2024 1 31 8 0 0 0 None))
  /\ Reminder.calculate_remind_at
       (Some (mkdatetime 2024 1 31 9 0 0 0 None)) (Some (-1))
     = Err (ValueError "reminder_offset_minutes must be non-negative").
Proof.
  destruct calculate_remind_at_spec as (_ & _ & _ & Hneg & Hpos).
  split.
  - destruct (Hpos (mkdatetime 2024 1 31 9 0 0 0 None) 60) as (r & Hr & _).
    + lia.
    + unfold representable. vm_compute. split; [discriminate | reflexivity].
    + reflexivity.
  - apply Hneg. lia.
Defined.

(** Outside the range of [datetime] the subtraction overflows. *)
Lemma calculate_remind_at_overflow (due : datetime) (offset : Z) :
  0 <= offset ->
  ~ representable (to_micros due - offset * 60 * US_PER_SECOND) ->
  Reminder.calculate_remind_at (Some due) (Some offset)
  = Err (OverflowError "date value out of range").
Proof.
  intros Hpos Hrep. unfold Reminder.calculate_remind_at.
  destruct (Z.ltb_spec offset 0); [lia |].
  unfold sub, timedelta_minutes. rewrite add_overflow; [reflexivity |].
  replace (to_micros due + - (offset * 60 * US_PER_SECOND))
    with (to_micros due - offset * 60 * US_PER_SECOND) by lia.
  exact Hrep.
Qed.

End RemindAt.

(** ** Recurrence: the next due date *)

Section NextDue.
Import Datetime DatetimeFacts Spec.

Lemma monthly_next_month (d : datetime) :
  1 <= month d <= 12 ->
  MINYEAR <= year (next_month d) <= MAXYEAR ->
  Recurring.calculate_next_due_date (Some d) "MONTHLY"
  = Ok (Some (next_month d)).
Proof.
  intros Hm Hy. unfold Recurring.calculate_next_due_date.
  change (Recurring.parse_recurrence_rule "MONTHLY")
    with (Ok (Recurring.mkParsed "MONTHLY" 1 "months")).
  cbn [res_bind Recurring.unit Recurring.interval].
  change (String.eqb "months" "days") with false.
  change (String.eqb "months" "months") with true.
  cbn iota. unfold add_relativedelta, next_month, clip_day in *.
  cbn [year] in Hy.
  change (1 =? 0) with false. cbn iota.
  replace (year d + 0) with (year d) by lia.
  destruct (Z.eqb_spec (month d) 12) as [H12 | H12].
  - destruct (Z.ltb_spec 12 (month d + 1)); [| lia].
    replace (month d + 1 - 12) with 1 by lia.
    destruct (Z.leb_spec MINYEAR (year d + 1)); [| lia].
    destruct (Z.leb_spec (year d + 1) MAXYEAR); [| lia].
    reflexivity.
  - destruct (Z.ltb_spec 12 (month d + 1)); [lia |].
    destruct (Z.ltb_spec (month d + 1) 1); [lia |].
    destruct (Z.leb_spec MINYEAR (year d)); [| lia].
    destruct (Z.leb_spec (year d) MAXYEAR); [| lia].
    reflexivity.
Qed.

Lemma yearly_next_year (d : datetime) :
  MINYEAR <= year d + 1 <= MAXYEAR ->
  Recurring.calculate_next_due_date (Some d) "YEARLY"
  = Ok (Some (next_year d)).
Proof.
  intros Hy. unfold Recurring.calculate_next_due_date.
  change (Recurring.parse_recurrence_rule "YEARLY")
    with (Ok (Recurring.mkParsed "YEARLY" 1 "years")).
  cbn [res_bind Recurring.unit Recurring.interval].
  change (String.eqb "years" "days") with false.
  change (String.eqb "years" "months") with false.
  change (String.eqb "years" "years") with true.
  cbn iota. unfold add_relativedelta, next_year, clip_day.
  change (0 =? 0) with true. cbn iota.
  destruct (Z.leb_spec MINYEAR (year d + 1)); [| lia].
  destruct (Z.leb_spec (year d + 1) MAXYEAR); [| lia].
  reflexivity.
Qed.

(** C2.  The canonical [calculate_next_due_date] returns [None] for a
    [None] due date whatever the rule string; MONTHLY and YEARLY advance
    the calendar month, respectively year, keeping the day of month or
    clipping it to the length of the target month, and keeping the time of
    day; in particular Jan 31 goes to Feb 29 in 2024 and to Feb 28 in 2023,
    and Feb 29 2024 goes to Feb 28 2025. *)
Theorem canonical_next_due_date :
  (forall rule, Recurring.calculate_next_due_date None rule = Ok None)
  /\ (forall d,
         1 <= month d <= 12 ->
         MINYEAR <= year (next_month d) <= MAXYEAR ->
         Recurring.calculate_next_due_date (Some d) "MONTHLY"
         = Ok (Some (next_month d)))
  /\ (forall d,
         MINYEAR <= year d + 1 <= MAXYEAR ->
         Recurring.calculate_next_due_date (Some d) "YEARLY"
         = Ok (Some (next_year d)))
  /\ (forall tz,
         Recurring.calculate_next_due_date
           (Some (mkdatetime 2024 1 31 0 0 0 0 tz)) "MONTHLY"
         = Ok (Some (mkdatetime 2024 2 29 0 0 0 0 tz))
         /\ Recurring.calculate_next_due_date
              (Some (mkdatetime 2023 1 31 0 0 0 0 tz)) "MONTHLY"
            = Ok (Some (mkdatetime 2023 2 28 0 0 0 0 tz))
         /\ Recurring.calculate_next_due_date
              (Some (mkdatetime 2024 2 29 0 0 0 0 tz)) "YEARLY"
            = Ok (Some (mkdatetime 2025 2 28 0 0 0 0 tz))).
Proof.
  split; [reflexivity |].
  split; [exact monthly_next_month |].
  split; [exact yearly_next_year |].
  intros tz. repeat split.
Qed.

(** A due date on December 31st, at 18:30: the next month is January of
    the following year, the next year keeps the date. *)
Lemma canonical_next_due_date_witness :
  Recurring.calculate_next_due_date
    (Some (mkdatetime 2024 12 31 18 30 0 0 None)) "MONTHLY"
  = Ok (Some (mkdatetime 2025 1 31 18 30 0 0 None))
  /\ Recurring.calculate_next_due_date
       (Some (mkdatetime 2024 12 31 18 30 0 0 None)) "YEARLY"
     = Ok (Some (mkdatetime 2025 12 31 18 30 0 0 None)).
Proof.
  destruct canonical_next_due_date as (_ & Hm & Hy & _).
  split.
  - apply (Hm (mkdatetime 2024 12 31 18 30 0 0 None));
      unfold MINYEAR, MAXYEAR; cbn; lia.
  - apply (Hy (mkdatetime 2024 12 31 18 30 0 0 None));
      unfold MINYEAR, MAXYEAR; cbn; lia.
Defined.


(** C1, against the code.  For the rule ["monthly"] the consumer of the
    recurring-task-service adds exactly 30 days to the parsed due instant.
    For a task due 2024-01-31T00:00:00Z it answers 2024-03-01, where one
    calendar month (what the canonical calculator returns for the same
    instant) is 2024-02-29. *)
Theorem consumer_monthly_adds_thirty_days :
  (forall due d,
      PyStr.truthy due = true ->
      fromisoformat (consumer_due_text due) = Ok d ->
      representable (to_micros d + 30 * US_PER_DAY) ->
      exists r,
        RecurringTaskService.calculate_next_due_date (Some due) (Some "monthly")
        = Ok (Some r)
        /\ to_micros r = to_micros d + 30 * US_PER_DAY
        /\ tzinfo r = tzinfo d)
  /\ RecurringTaskService.calculate_next_due_date
       (Some "2024-01-31T00:00:00Z") (Some "monthly")
     = Ok (Some (mkdatetime 2024 3 1 0 0 0 0 (Some 0)))
  /\ Recurring.calculate_next_due_date
       (Some (mkdatetime 2024 1 31 0 0 0 0 (Some 0))) "MONTHLY"
     = Ok (Some (mkdatetime 2024 2 29 0 0 0 0 (Some 0))).
Proof.
  split; [| split; reflexivity].
  intros due d Hdue Hparse Hrep.
  unfold RecurringTaskService.calculate_next_due_date.
  rewrite Hdue. change (PyStr.truthy "monthly") with true.
  cbn [negb orb]. fold (consumer_due_text due). rewrite Hparse.
  change (PyStr.strip (PyStr.lower "monthly")) with "monthly".
  change (String.eqb "monthly" "daily") with false.
  change (String.eqb "monthly" "weekly") with false.
  change (String.eqb "monthly" "monthly") with true.
  cbn iota.
  destruct (add_ok d (timedelta_days 30)) as (r & Hr & Hm & Htz & _).
  { exact Hrep. }
  exists r. rewrite Hr. cbn [res_bind]. auto.
Qed.

Lemma consumer_monthly_adds_thirty_days_witness :
  exists r,
    RecurringTaskService.calculate_next_due_date
      (Some "2024-01-31T00:00:00Z") (Some "monthly") = Ok (Some r)
    /\ to_micros r
       = to_micros (mkdatetime 2024 1 31 0 0 0 0 (Some 0)) + 30 * US_PER_DAY.
Proof.
  destruct (proj1 consumer_monthly_adds_thirty_days "2024-01-31T00:00:00Z"
              (mkdatetime 2024 1 31 0 0 0 0 (Some 0)))
    as (r & Hr & Hm & _).
  - reflexivity.
  - reflexivity.
  - unfold representable. vm_compute. split; [discriminate | reflexivity].
  - exists r. split; assumption.
Defined.

End NextDue.

(** ** Strings and decimal numerals *)

Module StrFacts.
Import PyStr.

Lemma all_impl (f g : ascii -> bool) (s : string) :
  (forall c, f c = true -> g c = true) -> all f s = true -> all g s = true.
Proof.
  intros Hfg. induction s as [| c r IH]; cbn [all]; [reflexivity |].
  rewrite !andb_true_iff. intros [Hc Hr]. split; auto.
Qed.

Lemma all_append (f : ascii -> bool) (a b : string) :
  all f (a +++ b) = all f a && all f b.
Proof.
  induction a as [| c r IH]; cbn [all String.append]; [reflexivity |].
  rewrite IH, andb_assoc. reflexivity.
Qed.

Lemma upper_fixed (s : string) :
  all (fun c => Ascii.eqb (upper_char c) c) s = true -> upper s = s.
Proof.
  unfold upper. induction s as [| c r IH]; cbn [all map]; [reflexivity |].
  rewrite andb_true_iff, Ascii.eqb_eq. intros [-> Hr].
  rewrite IH by assumption. reflexivity.
Qed.

Lemma strip_fixed (s : string) :
  all (fun c => negb (isspace c)) s = true -> strip s = s.
Proof.
  intros Hs. unfold strip.
  assert (Hl : lstrip s = s).
  { destruct s as [| c r]; [reflexivity |]. cbn [all lstrip] in *.
    apply andb_true_iff in Hs. destruct Hs as [Hc _].
    destruct (isspace c); [discriminate | reflexivity]. }
  rewrite Hl. clear Hl.
  induction s as [| c r IH]; [reflexivity |].
  cbn [all rstrip] in *. apply andb_true_iff in Hs. destruct Hs as [Hc Hr].
  rewrite IH by assumption.
  destruct r; [| reflexivity].
  destruct (isspace c); [discriminate | reflexivity].
Qed.

(** A digit is neither whitespace, nor a letter, nor a colon. *)
Lemma isdigit_plain (c : ascii) :
  isdigit c = true ->
  isspace c = false /\ upper_char c = c /\ Ascii.eqb c ":" = false.
Proof.
  destruct c as [[] [] [] [] [] [] [] []]; vm_compute;
    intros H; try discriminate H; repeat split.
Qed.

Lemma string_of_uint_digits (d : Decimal.uint) :
  all isdigit (NilEmpty.string_of_uint d) = true.
Proof.
  induction d; cbn [NilEmpty.string_of_uint all];
    [reflexivity | rewrite IHd; reflexivity ..].
Qed.

Lemma split_single (sep : ascii) (a : string) :
  all (fun c => negb (Ascii.eqb c sep)) a = true -> split sep a = [a].
Proof.
  induction a as [| c r IH]; cbn [all split]; [reflexivity |].
  rewrite andb_true_iff. intros [Hc Hr].
  destruct (Ascii.eqb c sep); [discriminate |].
  rewrite IH by assumption. reflexivity.
Qed.

Lemma split_first (sep : ascii) (a b : string) :
  all (fun c => negb (Ascii.eqb c sep)) a = true ->
  split sep (a +++ String sep b) = a :: split sep b.
Proof.
  induction a as [| c r IH]; cbn [all split String.append].
  - intros _. rewrite Ascii.eqb_refl. reflexivity.
  - rewrite andb_true_iff. intros [Hc Hr].
    destruct (Ascii.eqb c sep); [discriminate |].
    rewrite IH by assumption. reflexivity.
Qed.

Lemma int_digits_uint (d : Decimal.uint) :
  forall acc prev,
    d <> Decimal.Nil \/ prev = true ->
    int_digits (NilEmpty.string_of_uint d) acc prev = Some (uint_value d acc).
Proof.
  induction d; intros acc prev Hd;
    cbn [NilEmpty.string_of_uint int_digits uint_value];
    try (apply IHd; right; reflexivity).
  destruct Hd as [Hd | ->]; [contradiction | reflexivity].
Qed.

Lemma uint_value_acc (d : Decimal.uint) :
  forall acc : positive,
    uint_value d (Z.pos acc) = Z.pos (Pos.of_uint_acc d acc).
Proof.
  induction d; intros acc; cbn [uint_value Pos.of_uint_acc];
    try reflexivity;
    match goal with
    | |- uint_value _ ?z = Z.pos (Pos.of_uint_acc _ ?q) =>
        replace z with (Z.pos q) by lia
    end; apply IHd.
Qed.

Lemma uint_value_of_uint (d : Decimal.uint) :
  uint_value d 0 = Z.of_N (Pos.of_uint d).
Proof.
  induction d; cbn [uint_value Pos.of_uint]; try reflexivity;
    try assumption;
    match goal with
    | |- uint_value _ ?z = Z.of_N (N.pos (Pos.of_uint_acc _ ?q)) =>
        change z with (Z.pos q)
    end; apply uint_value_acc.
Qed.

Lemma of_int_pos (p : positive) :
  of_int (Z.pos p) = NilEmpty.string_of_uint (Pos.to_uint p).
Proof.
  unfold of_int. cbn [Z.to_int]. unfold Pos.to_int.
  cbn [NilZero.string_of_int]. unfold NilZero.string_of_uint.
  pose proof (Unsigned.to_uint_nonnil p) as Hn.
  destruct (Pos.to_uint p); [contradiction | reflexivity ..].
Qed.

Lemma string_of_uint_length (d : Decimal.uint) :
  String.length (NilEmpty.string_of_uint d) = Decimal.nb_digits d.
Proof.
  induction d; cbn [NilEmpty.string_of_uint String.length Decimal.nb_digits];
    [reflexivity | rewrite IHd; reflexivity ..].
Qed.

Lemma uint_value_lower (d : Decimal.uint) :
  forall acc, 0 <= acc ->
    acc * 10 ^ Z.of_nat (Decimal.nb_digits d) <= uint_value d acc.
Proof.
  induction d; intros acc Hacc;
    cbn [Decimal.nb_digits uint_value];
    [rewrite Z.pow_0_r; lia | ..];
    rewrite Nat2Z.inj_succ, Z.pow_succ_r by lia;
    match goal with
    | |- _ <= uint_value _ ?a =>
        specialize (IHd a ltac:(lia));
        pose proof (Z.pow_pos_nonneg 10 (Z.of_nat (Decimal.nb_digits d))
                      ltac:(lia) ltac:(lia))
    end; nia.
Qed.

(** A positive number below [10^w] has at most [w] digits. *)
Lemma to_uint_digits (p : positive) (w : nat) :
  Z.pos p < 10 ^ Z.of_nat w ->
  (Decimal.nb_digits (Pos.to_uint p) <= w)%nat.
Proof.
  intros Hp.
  pose proof (Unsigned.of_to p) as Hv.
  pose proof (uint_value_of_uint (Pos.to_uint p)) as Hu.
  rewrite Hv in Hu. cbn [Z.of_N] in Hu.
  pose proof (DecimalPos.Unsigned.to_of (Pos.to_uint p)) as Hn.
  rewrite Hv in Hn. cbn [N.to_uint] in Hn.
  pose proof (Unsigned.to_uint_nonzero p) as Hz.
  assert (Hhead : Decimal.nzhead (Pos.to_uint p) = Pos.to_uint p).
  { unfold Decimal.unorm in Hn.
    destruct (Decimal.nzhead (Pos.to_uint p)) eqn:Hh;
      [contradiction | symmetry; exact Hn ..]. }
  destruct (Pos.to_uint p) as [| d | d | d | d | d | d | d | d | d | d] eqn:Hd;
    [cbn; lia
    | exfalso; exact (DecimalFacts.nzhead_nonzero _ _ Hhead)
    | ..];
    cbn [uint_value Decimal.nb_digits] in Hu |- *;
    match type of Hu with
    | uint_value _ ?a = _ =>
        pose proof (uint_value_lower d a ltac:(lia)) as Hl
    end;
    destruct (Nat.le_gt_cases (S (Decimal.nb_digits d)) w) as [Hle | Hgt];
    try exact Hle; exfalso;
    assert (Hpow : 10 ^ Z.of_nat w <= 10 ^ Z.of_nat (Decimal.nb_digits d))
      by (apply Z.pow_le_mono_r; lia);
    nia.
Qed.

Lemma strip_by_fixed (f : ascii -> bool) (s : string) :
  all (fun c => negb (f c)) s = true -> rstrip_by f (lstrip_by f s) = s.
Proof.
  intros Hs.
  assert (Hl : lstrip_by f s = s).
  { destruct s as [| c r]; [reflexivity |]. cbn [all lstrip_by] in *.
    apply andb_true_iff in Hs. destruct Hs as [Hc _].
    destruct (f c); [discriminate | reflexivity]. }
  rewrite Hl. clear Hl.
  induction s as [| c r IH]; [reflexivity |].
  cbn [all rstrip_by] in *. apply andb_true_iff in Hs. destruct Hs as [Hc Hr].
  rewrite IH by assumption.
  destruct r; [| reflexivity].
  destruct (f c); [discriminate | reflexivity].
Qed.

Lemma isdigit_not_c_space (c : ascii) :
  isdigit c = true -> negb (c_isspace c) = true.
Proof.
  destruct c as [[] [] [] [] [] [] [] []]; vm_compute;
    intros H; try discriminate H; reflexivity.
Qed.

Lemma count_digits_uint (d : Decimal.uint) :
  count_digits (NilEmpty.string_of_uint d) = Z.of_nat (Decimal.nb_digits d).
Proof.
  induction d;
    cbn [NilEmpty.string_of_uint count_digits Decimal.nb_digits];
    [reflexivity | ..];
    rewrite IHd, Nat2Z.inj_succ;
    match goal with
    | |- (if isdigit ?c then 1 else 0) + _ = _ =>
        change (isdigit c) with true
    end; lia.
Qed.

(** The digits of a number below [10^4300] pass the limit of [int()]. *)
Lemma digits_within_limit (p : positive) :
  Z.pos p < 10 ^ MAX_STR_DIGITS ->
  (MAX_STR_DIGITS <? count_digits (NilEmpty.string_of_uint (Pos.to_uint p)))
  = false.
Proof.
  intros Hp. rewrite count_digits_uint.
  pose proof (to_uint_digits p (Z.to_nat MAX_STR_DIGITS)) as Hlen.
  rewrite Z2Nat.id in Hlen by (unfold MAX_STR_DIGITS; lia).
  specialize (Hlen Hp).
  apply Z.ltb_ge.
  rewrite <- (Z2Nat.id MAX_STR_DIGITS) by (unfold MAX_STR_DIGITS; lia).
  apply Nat2Z.inj_le. exact Hlen.
Qed.

(** [int(str(n)) == n] for a positive [n] of at most 4300 digits. *)
Lemma int_of_int (p : positive) :
  Z.pos p < 10 ^ MAX_STR_DIGITS -> int (of_int (Z.pos p)) = Some (Z.pos p).
Proof.
  intros Hp. rewrite of_int_pos. unfold int.
  pose proof (string_of_uint_digits (Pos.to_uint p)) as Hd.
  rewrite strip_by_fixed
    by (eapply all_impl; [| exact Hd]; exact isdigit_not_c_space).
  pose proof (Unsigned.to_uint_nonnil p) as Hn.
  pose proof (Unsigned.of_to p) as Hv.
  pose proof (int_digits_uint (Pos.to_uint p) 0 false (or_introl Hn)) as Hi.
  rewrite uint_value_of_uint, Hv in Hi. cbn [Z.of_N] in Hi.
  pose proof (digits_within_limit p Hp) as Hlim.
  destruct (Pos.to_uint p); [contradiction | ..];
    cbn [NilEmpty.string_of_uint] in *; rewrite Hlim; exact Hi.
Qed.

Lemma uint_value_upper (d : Decimal.uint) :
  forall acc, 0 <= acc ->
    uint_value d acc < (acc + 1) * 10 ^ Z.of_nat (Decimal.nb_digits d).
Proof.
  induction d; intros acc Hacc;
    cbn [Decimal.nb_digits uint_value];
    [rewrite Z.pow_0_r; lia | ..];
    rewrite Nat2Z.inj_succ, Z.pow_succ_r by lia;
    match goal with
    | |- uint_value _ ?a < _ =>
        specialize (IHd a ltac:(lia));
        pose proof (Z.pow_pos_nonneg 10 (Z.of_nat (Decimal.nb_digits d))
                      ltac:(lia) ltac:(lia))
    end; nia.
Qed.

(** [int(str(n))] raises for [n] of more than 4300 digits. *)
Lemma int_of_int_too_long (p : positive) :
  10 ^ MAX_STR_DIGITS <= Z.pos p -> int (of_int (Z.pos p)) = None.
Proof.
  intros Hp. rewrite of_int_pos. unfold int.
  pose proof (string_of_uint_digits (Pos.to_uint p)) as Hd.
  rewrite strip_by_fixed
    by (eapply all_impl; [| exact Hd]; exact isdigit_not_c_space).
  pose proof (Unsigned.to_uint_nonnil p) as Hn.
  pose proof (Unsigned.of_to p) as Hv.
  pose proof (uint_value_of_uint (Pos.to_uint p)) as Hu.
  rewrite Hv in Hu. cbn [Z.of_N] in Hu.
  pose proof (uint_value_upper (Pos.to_uint p) 0 ltac:(lia)) as Hup.
  rewrite Hu in Hup.
  assert (Hlim : (MAX_STR_DIGITS
                  <? count_digits (NilEmpty.string_of_uint (Pos.to_uint p)))
                 = true).
  { rewrite count_digits_uint. apply Z.ltb_lt.
    destruct (Z.lt_ge_cases MAX_STR_DIGITS
                (Z.of_nat (Decimal.nb_digits (Pos.to_uint p))))
      as [Hlt | Hge]; [exact Hlt | exfalso].
    assert (Hpow : 10 ^ Z.of_nat (Decimal.nb_digits (Pos.to_uint p))
                   <= 10 ^ MAX_STR_DIGITS)
      by (apply Z.pow_le_mono_r; lia).
    lia. }
  destruct (Pos.to_uint p); [contradiction | ..];
    cbn [NilEmpty.string_of_uint] in *; rewrite Hlim; reflexivity.
Qed.

End StrFacts.

(** ** Rule parsing *)

Section ParseRule.
Import Recurring StrFacts Spec.

Lemma of_int_pos_digits (n : Z) :
  0 < n -> PyStr.all PyStr.isdigit (PyStr.of_int n) = true.
Proof.
  intros Hn. destruct n as [| p | p]; try lia.
  rewrite of_int_pos. apply string_of_uint_digits.
Qed.

Lemma interval_piece_is_int (n : Z) :
  0 < n ->
  interval_piece ("INTERVAL:" +++ PyStr.of_int n)
  = PyStr.int (PyStr.of_int n).
Proof.
  intros Hn. unfold interval_piece.
  change ("INTERVAL:" +++ PyStr.of_int n)
    with ("INTERVAL" +++ String ":" (PyStr.of_int n)).
  rewrite split_first by reflexivity.
  rewrite split_single; [reflexivity |].
  eapply all_impl; [| apply of_int_pos_digits; exact Hn].
  intros c Hc. destruct (isdigit_plain c Hc) as (_ & _ & ->). reflexivity.
Qed.

Lemma interval_piece_of_int (n : Z) :
  0 < n < 10 ^ PyStr.MAX_STR_DIGITS ->
  interval_piece ("INTERVAL:" +++ PyStr.of_int n) = Some n.
Proof.
  intros [Hn Hlim]. rewrite interval_piece_is_int by exact Hn.
  destruct n as [| p | p]; try lia. apply int_of_int. exact Hlim.
Qed.

(** A string of the grammar is already in normal form. *)
Lemma grammar_normal (rule : string) (p : Parsed) :
  in_grammar rule p -> PyStr.strip (PyStr.upper rule) = rule.
Proof.
  intros H. destruct H as [| | | | n Hn]; try reflexivity.
  pose proof (of_int_pos_digits n Hn) as Hd.
  rewrite upper_fixed, strip_fixed; try reflexivity.
  - rewrite all_append. apply andb_true_iff. split; [reflexivity |].
    eapply all_impl; [| exact Hd].
    intros c Hc. destruct (isdigit_plain c Hc) as (-> & _). reflexivity.
  - rewrite all_append. apply andb_true_iff. split; [reflexivity |].
    eapply all_impl; [| exact Hd].
    intros c Hc. destruct (isdigit_plain c Hc) as (_ & -> & _).
    apply Ascii.eqb_refl.
Qed.

Lemma parse_normalised (rule : string) (p : Parsed) :
  in_grammar (PyStr.strip (PyStr.upper rule)) p ->
  interval p < 10 ^ PyStr.MAX_STR_DIGITS ->
  parse_recurrence_rule rule = Ok p.
Proof.
  intros H Hlim. unfold parse_recurrence_rule.
  assert (Hne : PyStr.truthy rule = true).
  { destruct rule; [inversion H | reflexivity]. }
  rewrite Hne. cbn [negb].
  remember (PyStr.strip (PyStr.upper rule)) as n eqn:En.
  destruct H as [| | | | k Hk]; try reflexivity.
  change (String.eqb ("INTERVAL:" +++ PyStr.of_int k) "DAILY") with false.
  change (String.eqb ("INTERVAL:" +++ PyStr.of_int k) "WEEKLY") with false.
  change (String.eqb ("INTERVAL:" +++ PyStr.of_int k) "MONTHLY") with false.
  change (String.eqb ("INTERVAL:" +++ PyStr.of_int k) "YEARLY") with false.
  change (PyStr.startswith ("INTERVAL:" +++ PyStr.of_int k) "INTERVAL:")
    with true.
  cbn iota.
  cbn [interval] in Hlim.
  pose proof (interval_piece_of_int k (conj Hk Hlim)) as Hp.
  unfold interval_piece in Hp.
  destruct (nth_error (PyStr.split ":" ("INTERVAL:" +++ PyStr.of_int k)) 1);
    [| discriminate].
  rewrite Hp. destruct (Z.ltb_spec k 1); [lia | reflexivity].
Qed.

(** An interval of more than 4300 digits is refused. *)
Lemma parse_too_long (n : Z) :
  10 ^ PyStr.MAX_STR_DIGITS <= n ->
  exists msg,
    parse_recurrence_rule ("INTERVAL:" +++ PyStr.of_int n)
    = Err (ValueError msg).
Proof.
  intros Hn.
  assert (Hpos : 0 < n).
  { pose proof (Z.pow_pos_nonneg 10 PyStr.MAX_STR_DIGITS ltac:(lia)
                  ltac:(unfold PyStr.MAX_STR_DIGITS; lia)). lia. }
  assert (Hnormal : PyStr.strip (PyStr.upper ("INTERVAL:" +++ PyStr.of_int n))
                    = "INTERVAL:" +++ PyStr.of_int n).
  { apply (grammar_normal _ (mkParsed "INTERVAL" n "days")).
    apply rule_interval. exact Hpos. }
  unfold parse_recurrence_rule. cbn [String.append PyStr.truthy negb].
  change (String "I" (String "N" (String "T" (String "E" (String "R"
            (String "V" (String "A" (String "L" (String ":"
               (PyStr.of_int n))))))))))
    with ("INTERVAL:" +++ PyStr.of_int n).
  rewrite Hnormal.
  change (String.eqb ("INTERVAL:" +++ PyStr.of_int n) "DAILY") with false.
  change (String.eqb ("INTERVAL:" +++ PyStr.of_int n) "WEEKLY") with false.
  change (String.eqb ("INTERVAL:" +++ PyStr.of_int n) "MONTHLY") with false.
  change (String.eqb ("INTERVAL:" +++ PyStr.of_int n) "YEARLY") with false.
  change (PyStr.startswith ("INTERVAL:" +++ PyStr.of_int n) "INTERVAL:")
    with true.
  cbn iota.
  pose proof (interval_piece_is_int n Hpos) as Hp.
  unfold interval_piece in Hp.
  destruct (nth_error (PyStr.split ":" ("INTERVAL:" +++ PyStr.of_int n)) 1)
    as [piece |].
  - rewrite Hp. destruct n as [| q | q]; try lia.
    rewrite (int_of_int_too_long q Hn). eexists. reflexivity.
  - eexists. reflexivity.
Qed.

Lemma parse_inversion (rule : string) (p : Parsed) :
  parse_recurrence_rule rule = Ok p ->
  let n := PyStr.strip (PyStr.upper rule) in
  n = "DAILY" /\ p = mkParsed "DAILY" 1 "days"
  \/ n = "WEEKLY" /\ p = mkParsed "WEEKLY" 7 "days"
  \/ n = "MONTHLY" /\ p = mkParsed "MONTHLY" 1 "months"
  \/ n = "YEARLY" /\ p = mkParsed "YEARLY" 1 "years"
  \/ PyStr.startswith n "INTERVAL:" = true
     /\ (exists k, interval_piece n = Some k /\ 1 <= k
                   /\ p = mkParsed "INTERVAL" k "days").
Proof.
  unfold parse_recurrence_rule, interval_piece.
  destruct (PyStr.truthy rule); cbn [negb]; [| discriminate].
  intros H. set (n := PyStr.strip (PyStr.upper rule)) in *.
  destruct (String.eqb_spec n "DAILY") as [E | _];
    [injection H as <-; auto |].
  destruct (String.eqb_spec n "WEEKLY") as [E | _];
    [injection H as <-; auto |].
  destruct (String.eqb_spec n "MONTHLY") as [E | _];
    [injection H as <-; auto 6 |].
  destruct (String.eqb_spec n "YEARLY") as [E | _];
    [injection H as <-; auto 6 |].
  destruct (PyStr.startswith n "INTERVAL:"); [| discriminate].
  destruct (nth_error (PyStr.split ":" n) 1) as [piece |]; [| discriminate].
  destruct (PyStr.int piece) as [k |]; [| discriminate].
  destruct (Z.ltb_spec k 1); [discriminate |].
  injection H as <-. do 4 right. split; [reflexivity |].
  exists k. repeat split. lia.
Qed.

Lemma parse_raises_value_error (rule : string) :
  (exists p, parse_recurrence_rule rule = Ok p)
  \/ (exists msg, parse_recurrence_rule rule = Err (ValueError msg)).
Proof.
  unfold parse_recurrence_rule, invalid_interval.
  destruct (PyStr.truthy rule); cbn [negb]; [| right; eexists; reflexivity].
  repeat match goal with
         | |- context [if ?b then _ else _] =>
             destruct b; [left; eexists; reflexivity |]
         end.
  destruct (PyStr.startswith _ _); [| right; eexists; reflexivity].
  destruct (nth_error _ _); [| right; eexists; reflexivity].
  destruct (PyStr.int _); [| right; eexists; reflexivity].
  destruct (_ <? 1); [right | left]; eexists; reflexivity.
Qed.

(** C7, as the code has it.  [parse_recurrence_rule] upper-cases its
    argument and trims surrounding whitespace; every string whose normal
    form is in the grammar (DAILY, WEEKLY, MONTHLY, YEARLY, INTERVAL:N with
    N a positive integer) and whose N has at most 4300 digits is accepted
    with the dict of the grammar, so ["INTERVAL:3"] yields INTERVAL / 3 /
    days; INTERVAL:N with an N of more than 4300 digits raises
    [ValueError], as do ["interval:0"] and ["FOO"]; every failure is a
    [ValueError]; and an accepted string has a normal form that is one of
    the four keywords or begins with [INTERVAL:] and carries, between its
    first and second colon, an integer literal of value at least 1, which
    is the interval. *)
Theorem parse_recurrence_rule_spec :
  (forall rule p,
      in_grammar (PyStr.strip (PyStr.upper rule)) p ->
      interval p < 10 ^ PyStr.MAX_STR_DIGITS ->
      parse_recurrence_rule rule = Ok p)
  /\ (forall rule p,
         in_grammar rule p ->
         interval p < 10 ^ PyStr.MAX_STR_DIGITS ->
         parse_recurrence_rule rule = Ok p)
  /\ (forall n,
         10 ^ PyStr.MAX_STR_DIGITS <= n ->
         exists msg,
           parse_recurrence_rule ("INTERVAL:" +++ PyStr.of_int n)
           = Err (ValueError msg))
  /\ parse_recurrence_rule "INTERVAL:3" = Ok (mkParsed "INTERVAL" 3 "days")
  /\ (exists msg, parse_recurrence_rule "interval:0" = Err (ValueError msg))
  /\ (exists msg, parse_recurrence_rule "FOO" = Err (ValueError msg))
  /\ (forall rule,
         (exists p, parse_recurrence_rule rule = Ok p)
         \/ (exists msg, parse_recurrence_rule rule = Err (ValueError msg)))
  /\ (forall rule p,
         parse_recurrence_rule rule = Ok p ->
         let n := PyStr.strip (PyStr.upper rule) in
         n = "DAILY" /\ p = mkParsed "DAILY" 1 "days"
         \/ n = "WEEKLY" /\ p = mkParsed "WEEKLY" 7 "days"
         \/ n = "MONTHLY" /\ p = mkParsed "MONTHLY" 1 "months"
         \/ n = "YEARLY" /\ p = mkParsed "YEARLY" 1 "years"
         \/ PyStr.startswith n "INTERVAL:" = true
            /\ (exists k, interval_piece n = Some k /\ 1 <= k
                          /\ p = mkParsed "INTERVAL" k "days")).
Proof.
  split; [exact parse_normalised |].
  split.
  { intros rule p H Hlim. apply parse_normalised; [| exact Hlim].
    rewrite (grammar_normal rule p H). exact H. }
  split; [exact parse_too_long |].
  split; [reflexivity |].
  split; [eexists; reflexivity |].
  split; [eexists; reflexivity |].
  split; [exact parse_raises_value_error | exact parse_inversion].
Qed.

(** [INTERVAL:14] written in mixed case between spaces. *)
Lemma parse_recurrence_rule_spec_witness :
  parse_recurrence_rule " Interval:14 " = Ok (mkParsed "INTERVAL" 14 "days").
Proof.
  apply (proj1 parse_recurrence_rule_spec).
  - change (PyStr.strip (PyStr.upper " Interval:14 "))
      with ("INTERVAL:" +++ PyStr.of_int 14).
    apply rule_interval. lia.
  - vm_compute. reflexivity.
Defined.

(** Strings outside the grammar are accepted: ["INTERVAL:3:4"] is not in
    the grammar, and neither is [" daily "], yet both parse. *)
Lemma parse_accepts_outside_grammar :
  (forall p, ~ in_grammar "INTERVAL:3:4" p)
  /\ parse_recurrence_rule "INTERVAL:3:4" = Ok (mkParsed "INTERVAL" 3 "days")
  /\ (forall p, ~ in_grammar " daily " p)
  /\ parse_recurrence_rule " daily " = Ok (mkParsed "DAILY" 1 "days").
Proof.
  split; [| split; [reflexivity | split; [| reflexivity]]].
  - intros p H.
    remember "INTERVAL:3:4" as s eqn:Es.
    destruct H as [| | | | n Hn]; try discriminate Es.
    cbn [String.append] in Es. injection Es as Es.
    pose proof (of_int_pos_digits n Hn) as Hd.
    rewrite Es in Hd. discriminate Hd.
  - intros p H.
    remember " daily " as s eqn:Es.
    destruct H as [| | | | n Hn]; discriminate Es.
Qed.

End ParseRule.


(* ================================================================== *)
(** * Further properties of the code *)

(** ** Normal forms of rule strings *)

Module NormalForm.
Import PyStr StrFacts.

Lemma upper_char_idem (c : ascii) : upper_char (upper_char c) = upper_char c.
Proof. destruct c as [[] [] [] [] [] [] [] []]; reflexivity. Qed.

Lemma isspace_upper_char (c : ascii) : isspace (upper_char c) = isspace c.
Proof. destruct c as [[] [] [] [] [] [] [] []]; reflexivity. Qed.

Lemma upper_idem (s : string) : upper (upper s) = upper s.
Proof.
  unfold upper. induction s as [| c r IH]; cbn [map]; [reflexivity |].
  rewrite upper_char_idem, IH. reflexivity.
Qed.

Lemma upper_lstrip (s : string) : upper (lstrip s) = lstrip (upper s).
Proof.
  unfold upper. induction s as [| c r IH]; cbn [map lstrip]; [reflexivity |].
  rewrite isspace_upper_char. destruct (isspace c); [exact IH | reflexivity].
Qed.

Lemma upper_rstrip (s : string) : upper (rstrip s) = rstrip (upper s).
Proof.
  unfold upper. induction s as [| c r IH]; cbn [map rstrip]; [reflexivity |].
  rewrite <- IH, isspace_upper_char.
  destruct (rstrip r) as [| a t]; cbn [map].
  - destruct (isspace c); reflexivity.
  - reflexivity.
Qed.

Lemma upper_strip (s : string) : upper (strip s) = strip (upper s).
Proof. unfold strip. rewrite upper_rstrip, upper_lstrip. reflexivity. Qed.

Lemma lstrip_no_lead (s : string) : no_lead (lstrip s).
Proof.
  induction s as [| c r IH]; cbn [lstrip]; [exact I |].
  destruct (isspace c) eqn:Hc; [exact IH | exact Hc].
Qed.

Lemma no_lead_lstrip (s : string) : no_lead s -> lstrip s = s.
Proof.
  destruct s as [| c r]; cbn; [reflexivity |]. intros ->. reflexivity.
Qed.

Lemma rstrip_no_lead (s : string) : no_lead s -> no_lead (rstrip s).
Proof.
  destruct s as [| c r]; cbn [rstrip no_lead]; [auto |].
  intros Hc. destruct (rstrip r); [rewrite Hc |]; exact Hc.
Qed.

Lemma rstrip_idem (s : string) : rstrip (rstrip s) = rstrip s.
Proof.
  induction s as [| c r IH]; cbn [rstrip]; [reflexivity |].
  destruct (rstrip r) as [| a t] eqn:Hr.
  - destruct (isspace c) eqn:Hc; cbn [rstrip]; [reflexivity |].
    rewrite Hc. reflexivity.
  - cbn [rstrip]. cbn [rstrip] in IH.
    destruct (rstrip t) as [| a' t'].
    + destruct (isspace a); [discriminate IH | rewrite IH; reflexivity].
    + rewrite IH. reflexivity.
Qed.

Lemma strip_idem (s : string) : strip (strip s) = strip s.
Proof.
  unfold strip.
  rewrite (no_lead_lstrip (rstrip (lstrip s)))
    by (apply rstrip_no_lead, lstrip_no_lead).
  apply rstrip_idem.
Qed.

(** Normalising twice is normalising once. *)
Lemma normal_idem (s : string) :
  strip (upper (strip (upper s))) = strip (upper s).
Proof. rewrite upper_strip, upper_idem. apply strip_idem. Qed.

End NormalForm.

(** ** Rule validation and display *)

Section RuleValidation.
Import PyStr StrFacts NormalForm Spec.

Lemma accepts_truthy (n : string) : accepts n = true -> truthy n = true.
Proof. destruct n; [discriminate | reflexivity]. Qed.

Lemma normal_truthy (v : string) :
  truthy (strip (upper v)) = true -> truthy v = true.
Proof. destruct v; [discriminate | reflexivity]. Qed.

Lemma validate_by_accepts (v : string) :
  let n := strip (upper v) in
  TaskSchema.validate_recurrence_rule (Some v)
  = if accepts n then Ok (Some n)
    else if startswith n "INTERVAL:" then Err TaskSchema.invalid_interval
    else Err (ValueError
                "Invalid recurrence rule. Valid: ['DAILY', 'WEEKLY', 'MONTHLY', 'YEARLY'] or INTERVAL:N").
Proof.
  intros n. unfold TaskSchema.validate_recurrence_rule, accepts, interval_piece.
  fold n.
  destruct (existsb (String.eqb n) TaskSchema.valid_rules); [reflexivity |].
  cbn [orb].
  destruct (startswith n "INTERVAL:"); [| reflexivity].
  cbn [andb].
  destruct (nth_error (split ":" n) 1) as [piece |]; [| reflexivity].
  destruct (int piece) as [k |]; [| reflexivity].
  destruct (Z.ltb_spec k 1); destruct (Z.leb_spec 1 k); try lia; reflexivity.
Qed.

Lemma parse_by_accepts (v : string) :
  let n := strip (upper v) in
  (accepts n = true -> exists p, Recurring.parse_recurrence_rule v = Ok p)
  /\ (accepts n = false ->
      exists msg, Recurring.parse_recurrence_rule v = Err (ValueError msg)).
Proof.
  intros n.
  destruct (parse_raises_value_error v) as [[p Hp] | [msg Hmsg]].
  - split; [eauto |]. intros Hacc. exfalso.
    pose proof (parse_inversion v p Hp) as Hinv. cbv zeta in Hinv. fold n in Hinv.
    unfold accepts in Hacc. apply orb_false_iff in Hacc.
    destruct Hacc as [Hkw Hint].
    destruct Hinv as [[E _] | [[E _] | [[E _] | [[E _] | (Hs & k & Hk & Hge & _)]]]];
      try (rewrite E in Hkw; discriminate Hkw).
    rewrite Hs, Hk in Hint. cbn [andb] in Hint.
    destruct (Z.leb_spec 1 k); [discriminate | lia].
  - split; [| eauto]. intros Hacc. exfalso.
    assert (Hv : truthy v = true)
      by (apply normal_truthy, accepts_truthy; exact Hacc).
    revert Hmsg. unfold Recurring.parse_recurrence_rule. rewrite Hv.
    cbn [negb]. cbv zeta. fold n.
    unfold accepts, interval_piece in Hacc. cbn [existsb TaskSchema.valid_rules] in Hacc.
    destruct (String.eqb n "DAILY"); [discriminate |].
    destruct (String.eqb n "WEEKLY"); [discriminate |].
    destruct (String.eqb n "MONTHLY"); [discriminate |].
    destruct (String.eqb n "YEARLY"); [discriminate |].
    cbn [orb] in Hacc.
    destruct (startswith n "INTERVAL:"); [| discriminate Hacc].
    cbn [andb] in Hacc.
    destruct (nth_error (split ":" n) 1) as [piece |]; [| discriminate Hacc].
    destruct (int piece) as [k |]; [| discriminate Hacc].
    destruct (Z.ltb_spec k 1); [| discriminate].
    destruct (Z.leb_spec 1 k); [lia | discriminate Hacc].
Qed.

Lemma parse_normal (v : string) :
  accepts (strip (upper v)) = true ->
  Recurring.parse_recurrence_rule (strip (upper v))
  = Recurring.parse_recurrence_rule v.
Proof.
  intros Hacc. unfold Recurring.parse_recurrence_rule.
  rewrite (accepts_truthy _ Hacc), (normal_truthy v (accepts_truthy _ Hacc)).
  cbn [negb]. cbv zeta. rewrite normal_idem. reflexivity.
Qed.

(** X1.  The field validator [validate_recurrence_rule] and the parser
    [parse_recurrence_rule] give the same verdict on every string; a rule
    that the validator accepts is returned upper-cased and trimmed, parses to
    the same result as the original, and passes validation unchanged when
    validated again. *)
Theorem validated_rule_parses (v : string) :
  ((exists r, TaskSchema.validate_recurrence_rule (Some v) = Ok r)
   <-> (exists p, Recurring.parse_recurrence_rule v = Ok p))
  /\ (forall r,
         TaskSchema.validate_recurrence_rule (Some v) = Ok r ->
         r = Some (strip (upper v))
         /\ Recurring.parse_recurrence_rule (strip (upper v))
            = Recurring.parse_recurrence_rule v
         /\ TaskSchema.validate_recurrence_rule (Some (strip (upper v)))
            = Ok r).
Proof.
  pose proof (validate_by_accepts v) as Hval. cbv zeta in Hval.
  pose proof (parse_by_accepts v) as [Hyes Hno]. 
  destruct (accepts (strip (upper v))) eqn:Hacc.
  - split.
    + split; intros _; [apply Hyes; reflexivity | eauto].
    + intros r Hr. rewrite Hval in Hr. injection Hr as <-.
      split; [reflexivity |]. split; [apply parse_normal; exact Hacc |].
      pose proof (validate_by_accepts (strip (upper v))) as Hval'.
      cbv zeta in Hval'. rewrite normal_idem, Hacc in Hval'. exact Hval'.
  - split.
    + split.
      * intros [r Hr]. rewrite Hval in Hr.
        destruct (startswith _ _); discriminate Hr.
      * intros [p Hp]. destruct (Hno eq_refl) as [msg Hmsg]. congruence.
    + intros r Hr. rewrite Hval in Hr.
      destruct (startswith _ _); discriminate Hr.
Qed.

Lemma validated_rule_parses_witness :
  TaskSchema.validate_recurrence_rule (Some " interval:14 ")
  = Ok (Some "INTERVAL:14")
  /\ Recurring.parse_recurrence_rule "INTERVAL:14"
     = Recurring.parse_recurrence_rule " interval:14 ".
Proof.
  destruct (proj2 (validated_rule_parses " interval:14 ")
              (Some "INTERVAL:14") eq_refl) as (_ & Hp & Hv).
  split; [exact Hv | exact Hp].
Defined.

(** X2.  [get_recurrence_display] never raises.  A rule that does not parse
    is shown unchanged; DAILY and INTERVAL:1 are both shown as "Every day",
    WEEKLY, MONTHLY and YEARLY as "Every week", "Every month" and "Every
    year", and INTERVAL:N for N >= 2 of at most 4300 digits as "Every N
    days", in any letter case and with surrounding whitespace; INTERVAL:N
    with a longer N does not parse and is shown unchanged. *)
Theorem recurrence_display_spec (rule : string) :
  (exists s, Recurring.get_recurrence_display rule = Ok s)
  /\ ((exists e, Recurring.parse_recurrence_rule rule = Err e) ->
      Recurring.get_recurrence_display rule = Ok rule)
  /\ (forall n,
         10 ^ MAX_STR_DIGITS <= n ->
         Recurring.get_recurrence_display ("INTERVAL:" +++ of_int n)
         = Ok ("INTERVAL:" +++ of_int n))
  /\ (forall p,
         in_grammar (strip (upper rule)) p ->
         Recurring.interval p < 10 ^ MAX_STR_DIGITS ->
         Recurring.get_recurrence_display rule
         = Ok (if String.eqb (Recurring.type p) "WEEKLY" then "Every week"
               else if String.eqb (Recurring.type p) "MONTHLY" then "Every month"
               else if String.eqb (Recurring.type p) "YEARLY" then "Every year"
               else if Recurring.interval p =? 1 then "Every day"
               else "Every " +++ of_int (Recurring.interval p) +++ " days")).
Proof.
  unfold Recurring.get_recurrence_display.
  split; [| split; [| split]].
  - destruct (parse_raises_value_error rule) as [[p Hp] | [msg Hmsg]].
    + rewrite Hp.
      repeat match goal with
             | |- context [if ?b then _ else _] => destruct b
             end; eexists; reflexivity.
    + rewrite Hmsg. eexists. reflexivity.
  - intros [e He].
    destruct (parse_raises_value_error rule) as [[p Hp] | [msg Hmsg]];
      [congruence |].
    rewrite Hmsg. reflexivity.
  - intros n Hn. destruct (parse_too_long n Hn) as [msg Hmsg].
    rewrite Hmsg. reflexivity.
  - intros p Hg Hlim. rewrite (parse_normalised rule p Hg Hlim).
    destruct Hg; cbn [Recurring.type Recurring.interval]; try reflexivity.
    change (String.eqb "INTERVAL" "DAILY") with false.
    change (String.eqb "INTERVAL" "WEEKLY") with false.
    change (String.eqb "INTERVAL" "MONTHLY") with false.
    change (String.eqb "INTERVAL" "YEARLY") with false.
    change (String.eqb "INTERVAL" "INTERVAL") with true.
    cbn iota. destruct (n =? 1); reflexivity.
Qed.

Lemma recurrence_display_spec_witness :
  Recurring.get_recurrence_display "interval:3" = Ok "Every 3 days"
  /\ Recurring.get_recurrence_display "every other day"
     = Ok "every other day".
Proof.
  split.
  - apply (proj2 (proj2 (proj2 (recurrence_display_spec "interval:3")))
             (Recurring.mkParsed "INTERVAL" 3 "days")).
    + change (strip (upper "interval:3")) with ("INTERVAL:" +++ of_int 3).
      apply rule_interval. lia.
    + vm_compute. reflexivity.
  - apply (proj1 (proj2 (recurrence_display_spec "every other day"))).
    eexists. reflexivity.
Defined.

End RuleValidation.

(** ** The next due date is later, and well-formed *)

Module CalendarOrder.
Import Datetime DatetimeFacts Spec.

Lemma month_cases (m : Z) :
  1 <= m <= 12 ->
  m = 1 \/ m = 2 \/ m = 3 \/ m = 4 \/ m = 5 \/ m = 6 \/ m = 7 \/ m = 8
  \/ m = 9 \/ m = 10 \/ m = 11 \/ m = 12.
Proof. lia. Qed.

Lemma days_in_month_bounds (y m : Z) :
  1 <= m <= 12 -> 28 <= days_in_month y m <= 31.
Proof.
  intros Hm. unfold days_in_month.
  destruct (month_cases m Hm) as [-> | [-> | [-> | [-> | [-> | [-> | [-> | [->
    | [-> | [-> | [-> | ->]]]]]]]]]]];
    destruct (is_leap y); cbn; lia.
Qed.

Lemma days_before_month_succ (y m : Z) :
  1 <= m < 12 ->
  days_before_month y (m + 1) = days_before_month y m + days_in_month y m.
Proof.
  intros Hm. unfold days_before_month, days_in_month.
  assert (Hc : 1 <= m <= 12) by lia.
  destruct (month_cases m Hc) as [-> | [-> | [-> | [-> | [-> | [-> | [-> | [->
    | [-> | [-> | [-> | ->]]]]]]]]]]];
    try lia; destruct (is_leap y); reflexivity.
Qed.

Lemma days_before_month_range (y m : Z) :
  DAYS_BEFORE_MONTH m <= days_before_month y m <= DAYS_BEFORE_MONTH m + 1.
Proof.
  unfold days_before_month. destruct ((2 <? m) && is_leap y); lia.
Qed.

Lemma days_in_month_range (y m : Z) :
  DAYS_IN_MONTH m <= days_in_month y m <= DAYS_IN_MONTH m + 1.
Proof.
  rewrite days_in_month_alt. destruct ((m =? 2) && is_leap y); lia.
Qed.

Lemma days_before_year_succ (y : Z) :
  days_before_year (y + 1)
  = days_before_year y + 365 + (if is_leap y then 1 else 0).
Proof.
  unfold days_before_year, is_leap.
  replace (y + 1 - 1) with y by lia.
  repeat match goal with
         | |- context [?x mod ?k =? 0] => destruct (Z.eqb_spec (x mod k) 0)
         end; cbn [negb andb orb]; Z.div_mod_to_equations; lia.
Qed.

Lemma december (y : Z) :
  days_before_month y 12 = 334 + (if is_leap y then 1 else 0)
  /\ days_before_month y 1 = 0 /\ days_in_month y 1 = 31.
Proof.
  unfold days_before_month, days_in_month.
  destruct (is_leap y); repeat split.
Qed.

(** The day one calendar month later has a larger ordinal. *)
Lemma ordinal_next_month (d : datetime) :
  valid d = true -> toordinal d < toordinal (next_month d).
Proof.
  unfold valid. rewrite !andb_true_iff, !Z.leb_le, !Z.ltb_lt. intros Hv.
  unfold toordinal, next_month, clip_day, ymd2ord.
  cbn [year month day].
  destruct (Z.eqb_spec (month d) 12) as [H12 | H12].
  - rewrite H12 in *. rewrite days_before_year_succ.
    destruct (december (year d)) as (-> & _ & _).
    destruct (december (year d + 1)) as (_ & -> & ->).
    pose proof (days_in_month_bounds (year d) 12 ltac:(lia)).
    destruct (is_leap (year d)); lia.
  - rewrite days_before_month_succ by lia.
    pose proof (days_in_month_bounds (year d) (month d + 1) ltac:(lia)).
    lia.
Qed.

(** The same date one year later has a larger ordinal. *)
Lemma ordinal_next_year (d : datetime) :
  valid d = true -> toordinal d < toordinal (next_year d).
Proof.
  unfold valid. rewrite !andb_true_iff, !Z.leb_le, !Z.ltb_lt. intros Hv.
  unfold toordinal, next_year, clip_day, ymd2ord.
  cbn [year month day].
  rewrite days_before_year_succ.
  pose proof (days_before_month_range (year d) (month d)).
  pose proof (days_before_month_range (year d + 1) (month d)).
  pose proof (days_in_month_range (year d) (month d)).
  pose proof (days_in_month_range (year d + 1) (month d)).
  destruct (is_leap (year d)); lia.
Qed.

Lemma to_micros_same_time (d r : datetime) :
  hour r = hour d -> minute r = minute d -> second r = second d ->
  microsecond r = microsecond d ->
  toordinal d < toordinal r -> to_micros d < to_micros r.
Proof.
  unfold to_micros, US_PER_SECOND. intros -> -> -> ->. lia.
Qed.

Lemma valid_next_month (d : datetime) :
  valid d = true -> year (next_month d) <= MAXYEAR ->
  valid (next_month d) = true.
Proof.
  unfold valid, next_month, clip_day. cbn [year month day hour minute second
    microsecond].
  rewrite !andb_true_iff, !Z.leb_le, !Z.ltb_lt. unfold MINYEAR, MAXYEAR.
  intros Hv Hy.
  destruct (Z.eqb_spec (month d) 12) as [H12 | H12].
  - pose proof (days_in_month_bounds (year d + 1) 1 ltac:(lia)). lia.
  - pose proof (days_in_month_bounds (year d) (month d + 1) ltac:(lia)). lia.
Qed.

Lemma valid_next_year (d : datetime) :
  valid d = true -> year d + 1 <= MAXYEAR -> valid (next_year d) = true.
Proof.
  unfold valid, next_year, clip_day. cbn [year month day hour minute second
    microsecond].
  rewrite !andb_true_iff, !Z.leb_le, !Z.ltb_lt. unfold MINYEAR, MAXYEAR.
  intros Hv Hy.
  pose proof (days_in_month_bounds (year d + 1) (month d) ltac:(lia)). lia.
Qed.

(** What [add] returns, when it returns. *)
Lemma add_inv (d r : datetime) (delta : timedelta) :
  add d delta = Ok r ->
  to_micros r = to_micros d + delta /\ tzinfo r = tzinfo d /\ valid r = true.
Proof.
  intros Hr.
  assert (Hdec : representable (to_micros d + delta)
                 \/ ~ representable (to_micros d + delta))
    by (unfold representable; lia).
  destruct Hdec as [Hrep | Hrep].
  - unfold add in Hr. destruct (of_micros_ok _ (tzinfo d) Hrep)
      as (r' & Hr' & Hm & Htz & Hv).
    rewrite Hr' in Hr. injection Hr as <-. auto.
  - unfold add in Hr. rewrite (of_micros_overflow _ _ Hrep) in Hr.
    discriminate Hr.
Qed.

Lemma add_relativedelta_month_inv (d r : datetime) :
  1 <= month d <= 12 ->
  add_relativedelta d 0 1 = Ok r ->
  r = next_month d /\ MINYEAR <= year r <= MAXYEAR.
Proof.
  intros Hm. unfold add_relativedelta, next_month, clip_day.
  change (1 =? 0) with false. cbn iota.
  replace (year d + 0) with (year d) by lia.
  destruct (Z.eqb_spec (month d) 12) as [H12 | H12].
  - destruct (Z.ltb_spec 12 (month d + 1)); [| lia].
    replace (month d + 1 - 12) with 1 by lia.
    destruct (Z.leb_spec MINYEAR (year d + 1));
      destruct (Z.leb_spec (year d + 1) MAXYEAR); cbn [andb];
      try discriminate.
    intros Heq. injection Heq as <-. cbn [year]. auto.
  - destruct (Z.ltb_spec 12 (month d + 1)); [lia |].
    destruct (Z.ltb_spec (month d + 1) 1); [lia |].
    destruct (Z.leb_spec MINYEAR (year d));
      destruct (Z.leb_spec (year d) MAXYEAR); cbn [andb];
      try discriminate.
    intros Heq. injection Heq as <-. cbn [year]. auto.
Qed.

Lemma add_relativedelta_year_inv (d r : datetime) :
  add_relativedelta d 1 0 = Ok r ->
  r = next_year d /\ MINYEAR <= year r <= MAXYEAR.
Proof.
  unfold add_relativedelta, next_year, clip_day.
  change (0 =? 0) with true. cbn iota.
  destruct (Z.leb_spec MINYEAR (year d + 1));
    destruct (Z.leb_spec (year d + 1) MAXYEAR); cbn [andb];
    try discriminate.
  intros Heq. injection Heq as <-. cbn [year]. auto.
Qed.

End CalendarOrder.

Section NextDueOrder.
Import Datetime DatetimeFacts Spec CalendarOrder.

Lemma valid_month (d : datetime) : valid d = true -> 1 <= month d <= 12.
Proof.
  unfold valid. rewrite !andb_true_iff, !Z.leb_le, !Z.ltb_lt. lia.
Qed.

Lemma next_due_days (d r : datetime) (k : Z) :
  1 <= k ->
  res_bind (add d (timedelta_days k)) (fun next => Ok (Some next))
  = Ok (Some r) ->
  valid r = true /\ tzinfo r = tzinfo d /\ to_micros d < to_micros r.
Proof.
  intros Hk Hr. destruct (add d (timedelta_days k)) as [r' |] eqn:Ha;
    [| discriminate Hr].
  injection Hr as <-. destruct (add_inv _ _ _ Ha) as (Hm & Htz & Hv).
  unfold timedelta_days, US_PER_DAY, US_PER_SECOND in Hm.
  repeat split; try assumption. lia.
Qed.

(** X3.  Whatever rule string the canonical [calculate_next_due_date] is
    given, a next due date that it returns for a well-formed due date is
    itself a well-formed [datetime] (month-end clipping never yields an
    impossible date), carries the same tzinfo, and is strictly later than
    the current due date. *)
Theorem next_due_date_is_later (d r : datetime) (rule : string) :
  valid d = true ->
  Recurring.calculate_next_due_date (Some d) rule = Ok (Some r) ->
  valid r = true /\ tzinfo r = tzinfo d /\ to_micros d < to_micros r.
Proof.
  intros Hv. unfold Recurring.calculate_next_due_date.
  destruct (Recurring.parse_recurrence_rule rule) as [p |] eqn:Hp;
    [| discriminate].
  cbn [res_bind].
  destruct (parse_inversion rule p Hp)
    as [[_ ->] | [[_ ->] | [[_ ->] | [[_ ->] | (_ & k & _ & Hk & ->)]]]];
    cbn [Recurring.unit Recurring.interval].
  - apply next_due_days. lia.
  - apply next_due_days. lia.
  - change (String.eqb "months" "days") with false.
    change (String.eqb "months" "months") with true. cbn iota.
    destruct (add_relativedelta d 0 1) as [r' |] eqn:Ha; [| discriminate].
    cbn [res_bind]. intros Hr. injection Hr as <-.
    destruct (add_relativedelta_month_inv d r' (valid_month d Hv) Ha)
      as [-> Hy].
    split; [apply valid_next_month; [exact Hv | lia] |].
    split; [reflexivity |].
    apply to_micros_same_time; try reflexivity.
    apply ordinal_next_month. exact Hv.
  - change (String.eqb "years" "days") with false.
    change (String.eqb "years" "months") with false.
    change (String.eqb "years" "years") with true. cbn iota.
    destruct (add_relativedelta d 1 0) as [r' |] eqn:Ha; [| discriminate].
    cbn [res_bind]. intros Hr. injection Hr as <-.
    destruct (add_relativedelta_year_inv d r' Ha) as [-> Hy].
    split; [apply valid_next_year; [exact Hv | cbn [year next_year] in Hy; lia] |].
    split; [reflexivity |].
    apply to_micros_same_time; try reflexivity.
    apply ordinal_next_year. exact Hv.
  - apply next_due_days. exact Hk.
Qed.

Lemma next_due_date_is_later_witness :
  let d := mkdatetime 2024 1 31 9 30 0 0 None in
  let r := mkdatetime 2024 2 29 9 30 0 0 None in
  valid r = true /\ tzinfo r = tzinfo d /\ to_micros d < to_micros r.
Proof.
  intros d r. apply (next_due_date_is_later d r " monthly "); reflexivity.
Defined.

(** X4.  For the rules counted in days (DAILY, WEEKLY, INTERVAL:N) the next
    due date stands exactly [interval] days after the current one, and the
    shift commutes with the reminder offset: the reminder time computed for
    the next occurrence is the next occurrence of the current reminder
    time. *)
Theorem day_rules_shift_reminder
    (d r m : datetime) (rule : string) (p : Recurring.Parsed) (offset : Z) :
  Recurring.parse_recurrence_rule rule = Ok p ->
  Recurring.unit p = "days" ->
  Recurring.calculate_next_due_date (Some d) rule = Ok (Some r) ->
  BackendReminder.calculate_remind_at (Some d) (Some offset) = Ok (Some m) ->
  to_micros r = to_micros d + Recurring.interval p * US_PER_DAY
  /\ BackendReminder.calculate_remind_at (Some r) (Some offset)
     = Recurring.calculate_next_due_date (Some m) rule.
Proof.
  intros Hp Hu. unfold Recurring.calculate_next_due_date.
  rewrite Hp. cbn [res_bind]. rewrite Hu.
  change (String.eqb "days" "days") with true. cbn iota.
  destruct (add d (timedelta_days (Recurring.interval p))) as [r' |] eqn:Ha;
    [| discriminate].
  cbn [res_bind]. intros Hr. injection Hr as <-.
  destruct (add_inv _ _ _ Ha) as (Hm & Htz & _).
  unfold BackendReminder.calculate_remind_at.
  destruct (offset <? 0); [discriminate |].
  unfold sub. destruct (add d (- timedelta_minutes offset)) as [m' |] eqn:Hs;
    [| discriminate].
  cbn [res_bind]. intros Hmm. injection Hmm as <-.
  destruct (add_inv _ _ _ Hs) as (Hm' & Htz' & _).
  split; [exact Hm |].
  unfold add. rewrite Hm, Hm', Htz, Htz'.
  replace (to_micros d + timedelta_days (Recurring.interval p)
           + - timedelta_minutes offset)
    with (to_micros d + - timedelta_minutes offset
          + timedelta_days (Recurring.interval p)) by lia.
  reflexivity.
Qed.

Lemma day_rules_shift_reminder_witness :
  let d := mkdatetime 2024 2 28 0 15 0 0 None in
  BackendReminder.calculate_remind_at
    (Some (mkdatetime 2024 3 6 0 15 0 0 None)) (Some 30)
  = Recurring.calculate_next_due_date
      (Some (mkdatetime 2024 2 27 23 45 0 0 None)) "weekly".
Proof.
  intros d.
  apply (day_rules_shift_reminder d (mkdatetime 2024 3 6 0 15 0 0 None)
           (mkdatetime 2024 2 27 23 45 0 0 None) "weekly"
           (Recurring.mkParsed "WEEKLY" 7 "days") 30); reflexivity.
Defined.

End NextDueOrder.

(** ** Reminder offsets *)

Section ReminderOffsets.
Import Datetime DatetimeFacts Spec CalendarOrder.

(** X5.  Every preset of [REMINDER_PRESETS] passes
    [validate_reminder_offset]; and for an offset that passes it,
    [calculate_remind_at] never raises [ValueError]: it returns an instant
    strictly before the due date, exactly [offset] minutes earlier, unless
    that instant lies before 0001-01-01, in which case the subtraction
    overflows.  The backend and the chat-api copies are the same. *)
Theorem valid_offset_reminds_before_due :
  BackendReminder.validate_reminder_offset = Reminder.validate_reminder_offset
  /\ BackendReminder.REMINDER_PRESETS = Reminder.REMINDER_PRESETS
  /\ Forall (fun kv => Reminder.validate_reminder_offset (snd kv) = true)
       Reminder.REMINDER_PRESETS
  /\ (forall offset due,
         Reminder.validate_reminder_offset offset = true ->
         (exists r,
             Reminder.calculate_remind_at (Some due) (Some offset) = Ok (Some r)
             /\ to_micros r < to_micros due
             /\ to_micros due - to_micros r = offset * 60 * US_PER_SECOND)
         \/ Reminder.calculate_remind_at (Some due) (Some offset)
            = Err (OverflowError "date value out of range")).
Proof.
  split; [reflexivity |]. split; [reflexivity |].
  split; [repeat constructor |].
  intros offset due. unfold Reminder.validate_reminder_offset.
  rewrite andb_true_iff, !Z.leb_le. intros [Hlo Hhi].
  unfold Reminder.calculate_remind_at.
  destruct (Z.ltb_spec offset 0); [lia |].
  unfold sub. destruct (add due (- timedelta_minutes offset)) as [r | e] eqn:Ha.
  - left. exists r. destruct (add_inv _ _ _ Ha) as (Hm & _).
    unfold timedelta_minutes, US_PER_SECOND in *.
    split; [reflexivity |]. lia.
  - right. cbn [res_bind]. revert Ha. unfold add, of_micros.
    destruct (_ && _); [destruct (ord2ymd _) as [[? ?] ?]; discriminate |].
    intros Ha. injection Ha as <-. reflexivity.
Qed.

Lemma valid_offset_reminds_before_due_witness :
  exists r,
    Reminder.calculate_remind_at
      (Some (mkdatetime 2024 3 1 0 30 0 0 None)) (Some 1440) = Ok (Some r)
    /\ to_micros r < to_micros (mkdatetime 2024 3 1 0 30 0 0 None).
Proof.
  destruct (proj2 (proj2 (proj2 valid_offset_reminds_before_due)) 1440
              (mkdatetime 2024 3 1 0 30 0 0 None) eq_refl)
    as [(r & Hr & Hlt & _) | Herr].
  - exists r. split; assumption.
  - discriminate Herr.
Defined.

(** X6.  [get_reminder_display] rounds down to whole hours from one hour on
    and to whole days from one day on, so every offset within the same hour
    (respectively day) is shown alike; and each preset of
    [REMINDER_PRESETS] is shown as its own key with the underscore replaced
    by a space, followed by " before". *)
Theorem reminder_display_rounds_down :
  BackendReminder.get_reminder_display = Reminder.get_reminder_display
  /\ (forall offset,
         60 <= offset < 1440 ->
         Reminder.get_reminder_display (Some offset)
         = Reminder.get_reminder_display (Some (60 * (offset / 60))))
  /\ (forall offset,
         1440 <= offset ->
         Reminder.get_reminder_display (Some offset)
         = Reminder.get_reminder_display (Some (1440 * (offset / 1440))))
  /\ List.map (fun kv => Reminder.get_reminder_display (Some (snd kv)))
       Reminder.REMINDER_PRESETS
     = List.map (fun kv => PyStr.replace "_" " " (fst kv) +++ " before")
         Reminder.REMINDER_PRESETS.
Proof.
  split; [reflexivity |].
  split; [| split; [| reflexivity]].
  - intros offset Ho. unfold Reminder.get_reminder_display.
    assert (Hq : 60 * (offset / 60) / 60 = offset / 60)
      by (rewrite Z.mul_comm; apply Z.div_mul; lia).
    assert (Hr : 60 <= 60 * (offset / 60) < 1440)
      by (Z.div_mod_to_equations; lia).
    rewrite Hq.
    destruct (Z.ltb_spec offset 60); [lia |].
    destruct (Z.ltb_spec offset 1440); [| lia].
    destruct (Z.ltb_spec (60 * (offset / 60)) 60); [lia |].
    destruct (Z.ltb_spec (60 * (offset / 60)) 1440); [| lia].
    reflexivity.
  - intros offset Ho. unfold Reminder.get_reminder_display.
    assert (Hq : 1440 * (offset / 1440) / 1440 = offset / 1440)
      by (rewrite Z.mul_comm; apply Z.div_mul; lia).
    assert (Hr : 1440 <= 1440 * (offset / 1440))
      by (Z.div_mod_to_equations; lia).
    rewrite Hq.
    destruct (Z.ltb_spec offset 60); [lia |].
    destruct (Z.ltb_spec offset 1440); [lia |].
    destruct (Z.ltb_spec (1440 * (offset / 1440)) 60); [lia |].
    destruct (Z.ltb_spec (1440 * (offset / 1440)) 1440); [lia |].
    reflexivity.
Qed.

Lemma reminder_display_rounds_down_witness :
  Reminder.get_reminder_display (Some 119) = "1 hour before"
  /\ Reminder.get_reminder_display (Some 11519) = "1 week before".
Proof.
  destruct reminder_display_rounds_down as (_ & Hh & Hd & _).
  split.
  - rewrite (Hh 119) by lia. reflexivity.
  - rewrite (Hd 11519) by lia. reflexivity.
Defined.

End ReminderOffsets.

(** ** The rules of the recurring-task consumer *)

Section ConsumerRules.
Import Datetime DatetimeFacts PyStr StrFacts Spec CalendarOrder.

Lemma lower_digit (c : ascii) : isdigit c = true -> lower_char c = c.
Proof.
  destruct c as [[] [] [] [] [] [] [] []]; vm_compute;
    intros H; try discriminate H; reflexivity.
Qed.

Lemma lower_digits (s : string) : all isdigit s = true -> lower s = s.
Proof.
  unfold lower. induction s as [| c r IH]; cbn [all map]; [reflexivity |].
  rewrite andb_true_iff. intros [Hc Hr].
  rewrite (lower_digit c Hc), IH by assumption. reflexivity.
Qed.

Lemma map_append (f : ascii -> ascii) (a b : string) :
  map f (a +++ b) = map f a +++ map f b.
Proof.
  induction a as [| c r IH]; cbn [map String.append]; [reflexivity |].
  rewrite IH. reflexivity.
Qed.

Lemma span_digits_append (a b : string) :
  all isdigit a = true ->
  match b with String c _ => isdigit c = false | EmptyString => True end ->
  span_digits (a +++ b) = (a, b).
Proof.
  intros Ha Hb. induction a as [| c r IH]; cbn [String.append span_digits].
  - destruct b as [| c r]; [reflexivity |]. cbn [span_digits].
    rewrite Hb. reflexivity.
  - cbn [all] in Ha. apply andb_true_iff in Ha. destruct Ha as [Hc Hr].
    rewrite Hc, (IH Hr). reflexivity.
Qed.

Lemma of_int_truthy (n : Z) : 0 < n -> truthy (of_int n) = true.
Proof.
  intros Hn. destruct n as [| p | p]; try lia. rewrite of_int_pos.
  pose proof (Unsigned.to_uint_nonnil p) as Hnil.
  destruct (Pos.to_uint p); [contradiction | reflexivity ..].
Qed.

Lemma int_of_int_pos (n : Z) :
  0 < n < 10 ^ MAX_STR_DIGITS -> int (of_int n) = Some n.
Proof.
  intros [Hn Hlim]. destruct n as [| p | p]; try lia.
  apply int_of_int. exact Hlim.
Qed.

Lemma match_every_days (n : Z) (tail : string) :
  0 < n ->
  RecurringTaskService.match_every "day"
    ("every_" +++ of_int n +++ "_day" +++ tail) = Some (of_int n).
Proof.
  intros Hn. unfold RecurringTaskService.match_every.
  change (startswith ("every_" +++ of_int n +++ "_day" +++ tail) "every_")
    with true. cbn iota.
  change (drop 6 ("every_" +++ of_int n +++ "_day" +++ tail))
    with (of_int n +++ "_day" +++ tail).
  rewrite span_digits_append;
    [| apply of_int_pos_digits; exact Hn | reflexivity].
  rewrite (of_int_truthy n Hn). reflexivity.
Qed.

Lemma match_every_weeks (n : Z) (tail : string) :
  0 < n ->
  RecurringTaskService.match_every "day"
    ("every_" +++ of_int n +++ "_week" +++ tail) = None
  /\ RecurringTaskService.match_every "week"
       ("every_" +++ of_int n +++ "_week" +++ tail) = Some (of_int n).
Proof.
  intros Hn. unfold RecurringTaskService.match_every.
  change (startswith ("every_" +++ of_int n +++ "_week" +++ tail) "every_")
    with true. cbn iota.
  change (drop 6 ("every_" +++ of_int n +++ "_week" +++ tail))
    with (of_int n +++ "_week" +++ tail).
  rewrite span_digits_append;
    [| apply of_int_pos_digits; exact Hn | reflexivity].
  rewrite (of_int_truthy n Hn). split; reflexivity.
Qed.

(** The consumer's function once the due text has parsed, as a function of
    the normalised rule. *)
Lemma consumer_after_parse (due rule : string) (d : datetime) :
  truthy due = true -> truthy rule = true ->
  fromisoformat (consumer_due_text due) = Ok d ->
  RecurringTaskService.calculate_next_due_date (Some due) (Some rule)
  = let n := strip (lower rule) in
    if String.eqb n "daily" then shifted_by_days d 1
    else if String.eqb n "weekly" then shifted_by_days d 7
    else if String.eqb n "monthly" then shifted_by_days d 30
    else
      match RecurringTaskService.match_every "day" n with
      | Some digits =>
          match int digits with
          | Some days => shifted_by_days d days
          | None => Err (ValueError "invalid literal for int()")
          end
      | None =>
          match RecurringTaskService.match_every "week" n with
          | Some digits =>
              match int digits with
              | Some weeks => shifted_by_days d (7 * weeks)
              | None => Err (ValueError "invalid literal for int()")
              end
          | None => Ok None
          end
      end.
Proof.
  intros Hdue Hrule Hparse.
  unfold RecurringTaskService.calculate_next_due_date.
  rewrite Hdue, Hrule. cbn [negb orb]. fold (consumer_due_text due).
  rewrite Hparse. cbv zeta. unfold shifted_by_days, timedelta_weeks, timedelta_days.
  replace (1 * 7 * US_PER_DAY) with (7 * US_PER_DAY) by lia.
  destruct (String.eqb _ "daily"); [reflexivity |].
  destruct (String.eqb _ "weekly"); [reflexivity |].
  destruct (String.eqb _ "monthly"); [reflexivity |].
  destruct (RecurringTaskService.match_every "day" _) as [digits |].
  - destruct (int digits); reflexivity.
  - destruct (RecurringTaskService.match_every "week" _) as [digits |];
      [| reflexivity].
    destruct (int digits) as [weeks |]; [| reflexivity].
    replace (weeks * 7 * US_PER_DAY) with (7 * weeks * US_PER_DAY) by lia.
    reflexivity.
Qed.

(** X7.  The consumer's [calculate_next_due_date] returns [None], without
    raising, when the due date or the rule is missing or empty.  When the
    due text is one that parses, the rule is read in lower case and
    trimmed: "daily" adds 1 day, "weekly" 7 days, "every_N_days..." N days
    and "every_N_weeks..." 7 N days to the parsed instant (N positive, of
    at most 4300 digits, anything may follow the unit); with an N of more
    digits the conversion of N raises [ValueError], which the function does
    not catch. *)
Theorem consumer_rule_table :
  (forall rule, RecurringTaskService.calculate_next_due_date None rule = Ok None)
  /\ (forall due, RecurringTaskService.calculate_next_due_date due None = Ok None)
  /\ (forall rule,
         RecurringTaskService.calculate_next_due_date (Some "") rule = Ok None)
  /\ (forall due,
         RecurringTaskService.calculate_next_due_date due (Some "") = Ok None)
  /\ (forall due rule d,
         truthy due = true -> truthy rule = true ->
         fromisoformat (consumer_due_text due) = Ok d ->
         let n := strip (lower rule) in
         let next :=
           RecurringTaskService.calculate_next_due_date (Some due) (Some rule) in
         (n = "daily" -> next = shifted_by_days d 1)
         /\ (n = "weekly" -> next = shifted_by_days d 7)
         /\ (forall k tail,
                0 < k < 10 ^ MAX_STR_DIGITS ->
                n = "every_" +++ of_int k +++ "_day" +++ tail ->
                next = shifted_by_days d k)
         /\ (forall k tail,
                0 < k < 10 ^ MAX_STR_DIGITS ->
                n = "every_" +++ of_int k +++ "_week" +++ tail ->
                next = shifted_by_days d (7 * k))
         /\ (forall k tail,
                10 ^ MAX_STR_DIGITS <= k ->
                n = "every_" +++ of_int k +++ "_day" +++ tail ->
                exists msg, next = Err (ValueError msg)))
  /\ (forall d k r,
         shifted_by_days d k = Ok (Some r) ->
         to_micros r = to_micros d + k * US_PER_DAY /\ tzinfo r = tzinfo d).
Proof.
  split; [reflexivity |].
  split; [intros [due |]; reflexivity |].
  split; [intros [rule |]; reflexivity |].
  split.
  { intros [due |]; [| reflexivity].
    unfold RecurringTaskService.calculate_next_due_date. cbn [truthy negb].
    rewrite orb_true_r. reflexivity. }
  split.
  - intros due rule d Hdue Hrule Hparse n next. subst next.
    rewrite (consumer_after_parse due rule d Hdue Hrule Hparse).
    cbv zeta. fold n.
    split; [intros ->; reflexivity |].
    split; [intros ->; reflexivity |].
    split; [| split].
    + intros k tail Hk ->.
      change (String.eqb ("every_" +++ of_int k +++ "_day" +++ tail) "daily")
        with false.
      change (String.eqb ("every_" +++ of_int k +++ "_day" +++ tail) "weekly")
        with false.
      change (String.eqb ("every_" +++ of_int k +++ "_day" +++ tail) "monthly")
        with false.
      cbn iota.
      rewrite (match_every_days k tail (proj1 Hk)), (int_of_int_pos k Hk).
      reflexivity.
    + intros k tail Hk ->.
      change (String.eqb ("every_" +++ of_int k +++ "_week" +++ tail) "daily")
        with false.
      change (String.eqb ("every_" +++ of_int k +++ "_week" +++ tail) "weekly")
        with false.
      change (String.eqb ("every_" +++ of_int k +++ "_week" +++ tail) "monthly")
        with false.
      cbn iota. destruct (match_every_weeks k tail (proj1 Hk)) as [-> ->].
      rewrite (int_of_int_pos k Hk). reflexivity.
    + intros k tail Hk ->.
      assert (Hpos : 0 < k).
      { pose proof (Z.pow_pos_nonneg 10 MAX_STR_DIGITS ltac:(lia)
                      ltac:(unfold MAX_STR_DIGITS; lia)). lia. }
      change (String.eqb ("every_" +++ of_int k +++ "_day" +++ tail) "daily")
        with false.
      change (String.eqb ("every_" +++ of_int k +++ "_day" +++ tail) "weekly")
        with false.
      change (String.eqb ("every_" +++ of_int k +++ "_day" +++ tail) "monthly")
        with false.
      cbn iota. rewrite (match_every_days k tail Hpos).
      destruct k as [| q | q]; try lia.
      rewrite (int_of_int_too_long q Hk). eexists. reflexivity.
  - intros d k r. unfold shifted_by_days.
    destruct (add d (timedelta_days k)) as [r' |] eqn:Ha; [| discriminate].
    cbn [res_bind]. intros Hr. injection Hr as <-.
    destruct (add_inv _ _ _ Ha) as (Hm & Htz & _).
    unfold timedelta_days in Hm. auto.
Qed.

Lemma consumer_rule_table_witness :
  RecurringTaskService.calculate_next_due_date
    (Some "2024-02-27T08:00:00") (Some " Every_2_Weeks ")
  = Ok (Some (mkdatetime 2024 3 12 8 0 0 0 None)).
Proof.
  destruct consumer_rule_table as (_ & _ & _ & _ & Hrules & _).
  destruct (Hrules "2024-02-27T08:00:00" " Every_2_Weeks "
              (mkdatetime 2024 2 27 8 0 0 0 None) eq_refl eq_refl eq_refl)
    as (_ & _ & _ & Hw & _).
  assert (Hk : 0 < 2 < 10 ^ MAX_STR_DIGITS)
    by (split; [lia | vm_compute; reflexivity]).
  rewrite (Hw 2 "s" Hk eq_refl). reflexivity.
Defined.

(** X8.  The two calculators do not read the same rules: for every rule of
    the canonical grammar of type INTERVAL or YEARLY (in any letter case),
    which the canonical calculator accepts when the interval has at most
    4300 digits, the consumer's [calculate_next_due_date] returns [None]
    for every due text that parses. *)
Theorem consumer_ignores_interval_and_yearly
    (due rule : string) (d : datetime) (p : Recurring.Parsed) :
  truthy due = true ->
  fromisoformat (consumer_due_text due) = Ok d ->
  in_grammar (strip (upper rule)) p ->
  Recurring.type p = "INTERVAL" \/ Recurring.type p = "YEARLY" ->
  (Recurring.interval p < 10 ^ MAX_STR_DIGITS ->
   Recurring.parse_recurrence_rule rule = Ok p)
  /\ RecurringTaskService.calculate_next_due_date (Some due) (Some rule)
     = Ok None.
Proof.
  intros Hdue Hparse Hg Hty.
  split; [intros Hlim; apply parse_normalised; assumption |].
  assert (Hrule : truthy rule = true).
  { destruct rule; [inversion Hg | reflexivity]. }
  rewrite (consumer_after_parse due rule d Hdue Hrule Hparse). cbv zeta.
  assert (Hn : exists rest,
             lower (strip (upper rule)) = "interval:" +++ rest
             \/ lower (strip (upper rule)) = "yearly").
  { remember (strip (upper rule)) as n eqn:En.
    destruct Hg as [| | | | k Hk]; cbn [Recurring.type] in Hty;
      try (destruct Hty; discriminate).
    - exists "". right. reflexivity.
    - exists (of_int k). left. unfold lower. rewrite map_append.
      fold (lower (of_int k)).
      rewrite (lower_digits _ (of_int_pos_digits k Hk)). reflexivity. }
  assert (Hsame : strip (lower rule) = lower (strip (upper rule))).
  { clear. unfold strip.
    assert (Hl : forall s, lower (upper s) = lower s).
    { unfold lower, upper. induction s as [| c r IH]; cbn [map];
        [reflexivity |]. rewrite IH. f_equal.
      destruct c as [[] [] [] [] [] [] [] []]; reflexivity. }
    assert (Hsp : forall c, isspace (lower_char c) = isspace c).
    { intros c. destruct c as [[] [] [] [] [] [] [] []]; reflexivity. }
    assert (Hls : forall s, lower (lstrip s) = lstrip (lower s)).
    { unfold lower. induction s as [| c r IH]; cbn [map lstrip];
        [reflexivity |]. rewrite Hsp.
      destruct (isspace c); [exact IH | reflexivity]. }
    assert (Hrs : forall s, lower (rstrip s) = rstrip (lower s)).
    { unfold lower. induction s as [| c r IH]; cbn [map rstrip];
        [reflexivity |]. rewrite <- IH, Hsp.
      destruct (rstrip r); cbn [map]; [destruct (isspace c) |]; reflexivity. }
    rewrite Hrs, Hls, Hl. reflexivity. }
  rewrite Hsame. destruct Hn as [rest [-> | ->]]; reflexivity.
Qed.

Lemma consumer_ignores_interval_and_yearly_witness :
  Recurring.parse_recurrence_rule "interval:3"
  = Ok (Recurring.mkParsed "INTERVAL" 3 "days")
  /\ RecurringTaskService.calculate_next_due_date
       (Some "2024-02-27T08:00:00Z") (Some "interval:3") = Ok None.
Proof.
  assert (Hg : in_grammar (strip (upper "interval:3"))
                 (Recurring.mkParsed "INTERVAL" 3 "days")).
  { change (strip (upper "interval:3")) with ("INTERVAL:" +++ of_int 3).
    apply rule_interval. lia. }
  destruct (consumer_ignores_interval_and_yearly "2024-02-27T08:00:00Z"
              "interval:3" (mkdatetime 2024 2 27 8 0 0 0 (Some 0))
              (Recurring.mkParsed "INTERVAL" 3 "days")
              eq_refl eq_refl Hg (or_introl eq_refl)) as [Hp Hc].
  split; [apply Hp; vm_compute; reflexivity | exact Hc].
Defined.

End ConsumerRules.

(** ** The first delivery of an event *)

Section FirstDelivery.
Import Datetime Py ProgFacts Spec.

(** Posting a body and reading the answer as [status in (200, 201, 204)]. *)
Lemma post_then_accept (env : Env) (w : world env) (url : string)
    (body : Value) :
  let e := HttpPost url body [] in
  run env
    (bind (perform e) (fun r =>
       match r with
       | Responded response =>
           Ret ((status_code response =? 200) || (status_code response =? 201)
                || (status_code response =? 204))
       | RequestError _ => Ret false
       end)) w
  = ([Called e (fst (answer env _ e w))],
     Ok (accepted (fst (answer env _ e w))), snd (answer env _ e w)).
Proof.
  intros e. rewrite run_perform_bind.
  destruct (fst (answer env _ e w)) as [r | detail]; reflexivity.
Qed.

Lemma notification_mark_processed_run (env : Env) (w : world env)
    (self : NotificationService.IdempotencyChecker) (event_id : string)
    (metadata : option (list (string * Value))) :
  exists body,
    (let e := HttpPost (NotificationService.base_url self +++ "/v1.0/state/"
                        +++ NotificationService.store_name self) body [] in
     run env (NotificationService.mark_processed self event_id metadata) w
     = ([Called e (fst (answer env _ e w))],
        Ok (accepted (fst (answer env _ e w))), snd (answer env _ e w)))
    /\ saved_key body = [NotificationService._key event_id].
Proof.
  unfold NotificationService.mark_processed. eexists. split.
  - cbv zeta. apply post_then_accept.
  - reflexivity.
Qed.

(** The run of [handle_reminder_event] on an event that is not marked. *)
Lemma notification_new_event_run
    (env : Env) (w : world env) (cfg : NotificationService.Config)
    (p : NotificationService.ReminderEventPayload) :
  let chk := NotificationService.idempotency_checker cfg in
  let eid := NotificationService.event_id p in
  let get := HttpGet (NotificationService.state_url chk eid) in
  url_ok (NotificationService.state_url chk eid) = true ->
  truthy (consumer_check (fst (answer env _ get w))) = false ->
  exists now body y w',
    run env (NotificationService.handle_reminder_event cfg p) w
    = ([ Called get (fst (answer env _ get w)); Called UtcNow now;
         Called (HttpPost (NotificationService.base_url chk +++ "/v1.0/state/"
                           +++ NotificationService.store_name chk) body []) y ],
       Ok (VDict [ ("status", VStr "success"); ("event_id", VStr eid);
                   ("task_id", VStr (NotificationService.task_id p));
                   ("message", VStr "Notification logged (stubbed)") ]),
       w')
    /\ saved_key body = [NotificationService._key eid].
Proof.
  intros chk eid get Hok Hnew.
  unfold NotificationService.handle_reminder_event.
  rewrite run_bind, notification_is_processed_run by exact Hok.
    fold chk eid get.
  cbv zeta. rewrite Hnew.
  rewrite run_perform_bind, run_bind.
  match goal with
  | |- context [run env (NotificationService.mark_processed ?c ?e ?m) ?w1] =>
      destruct (notification_mark_processed_run env w1 c e m)
        as (body & Hrun & Hkey)
  end.
  cbv zeta in Hrun. rewrite Hrun. cbn [run app].
  do 4 eexists. split; [reflexivity | exact Hkey].
Qed.

(** X9.  For an event id whose lookup address the HTTP client accepts,
    when the store does not report the event as processed,
    [handle_reminder_event] reads the clock, writes one marker under the key
    ["notification-processed:" + event_id], and returns the [success] result
    whatever the store answers to that write: a failed marker write is not
    reported. *)
Theorem notification_first_delivery
    (env : Env) (w : world env) (cfg : NotificationService.Config)
    (p : NotificationService.ReminderEventPayload) :
  let chk := NotificationService.idempotency_checker cfg in
  let eid := NotificationService.event_id p in
  let get := HttpGet (NotificationService.state_url chk eid) in
  url_ok (NotificationService.state_url chk eid) = true ->
  truthy (consumer_check (fst (answer env _ get w))) = false ->
  exists now body y w',
    run env (NotificationService.handle_reminder_event cfg p) w
    = ([ Called get (fst (answer env _ get w)); Called UtcNow now;
         Called (HttpPost (NotificationService.base_url chk +++ "/v1.0/state/"
                           +++ NotificationService.store_name chk) body []) y ],
       Ok (VDict [ ("status", VStr "success"); ("event_id", VStr eid);
                   ("task_id", VStr (NotificationService.task_id p));
                   ("message", VStr "Notification logged (stubbed)") ]),
       w')
    /\ saved_key body = [NotificationService._key eid].
Proof.
  intros chk eid get Hok Hnew.
  exact (notification_new_event_run env w cfg p Hok Hnew).
Qed.

Lemma notification_first_delivery_witness :
  let env := const_env (status_only 204) (RequestError "connection refused")
               (status_only 204) (mkdatetime 2024 1 31 0 0 0 0 None) "u-1" in
  exists calls,
    run env
      (NotificationService.handle_reminder_event
         (NotificationService.mkConfig "3500" "statestore")
         (NotificationService.mkPayload "evt-1" "reminder.triggered"
            "2024-01-31T00:00:00Z" "user-1" "task-1" "Pay rent" None
            "2024-01-31T00:00:00Z")) tt
    = (calls,
       Ok (VDict [ ("status", VStr "success"); ("event_id", VStr "evt-1");
                   ("task_id", VStr "task-1");
                   ("message", VStr "Notification logged (stubbed)") ]), tt).
Proof.
  intros env.
  destruct (notification_first_delivery env tt
              (NotificationService.mkConfig "3500" "statestore")
              (NotificationService.mkPayload "evt-1" "reminder.triggered"
                 "2024-01-31T00:00:00Z" "user-1" "task-1" "Pay rent" None
                 "2024-01-31T00:00:00Z") eq_refl eq_refl)
    as (now & body & y & w' & Hrun & _).
  destruct w'. eexists. exact Hrun.
Defined.


Lemma audit_mark_processed_run (env : Env) (w : world env)
    (self : AuditService.IdempotencyChecker) (event_id audit_log_id : string) :
  let now := fst (answer env _ UtcNow w) in
  exists body,
    (let e := HttpPost (AuditService.base_url self +++ "/v1.0/state/"
                        +++ AuditService.store_name self) body [] in
     let w1 := snd (answer env _ UtcNow w) in
     run env (AuditService.mark_processed self event_id audit_log_id) w
     = ([Called UtcNow now; Called e (fst (answer env _ e w1))],
        Ok (accepted (fst (answer env _ e w1))), snd (answer env _ e w1)))
    /\ saved_key body = [AuditService._key event_id].
Proof.
  intros now. unfold AuditService.mark_processed. eexists. split.
  - cbv zeta. rewrite run_perform_bind. cbv zeta.
    rewrite post_then_accept. reflexivity.
  - reflexivity.
Qed.

Lemma take_digits_length (n : nat) :
  forall s acc v r,
    take_digits n s acc = Some (v, r) ->
    String.length s = (n + String.length r)%nat.
Proof.
  induction n as [| n IH]; intros s acc v r H; cbn [take_digits] in H.
  - injection H as _ <-. reflexivity.
  - destruct s as [| c s]; [discriminate |].
    destruct (PyStr.isdigit c); [| discriminate].
    cbn [String.length]. rewrite (IH _ _ _ _ H). reflexivity.
Qed.

Lemma expect_length (c : ascii) (s r : string) :
  expect c s = Some r -> String.length s = S (String.length r).
Proof.
  destruct s as [| c' s]; cbn [expect]; [discriminate |].
  destruct (Ascii.eqb c c'); [| discriminate].
  intros H. injection H as <-. reflexivity.
Qed.

(** A text of fewer than ten characters holds no [YYYY-MM-DD]. *)
Lemma short_text_invalid (s : string) :
  (String.length s < 10)%nat -> exists msg, fromisoformat s = Err (ValueError msg).
Proof.
  intros Hlen. unfold fromisoformat, parse_iso, parse_date.
  destruct (take_digits 4 s 0) as [[y s1] |] eqn:H1; cbn [obind]; [| eauto].
  destruct (expect "-" s1) as [s2 |] eqn:H2; cbn [obind]; [| eauto].
  destruct (take_digits 2 s2 0) as [[m s3] |] eqn:H3; cbn [obind]; [| eauto].
  destruct (expect "-" s3) as [s4 |] eqn:H4; cbn [obind]; [| eauto].
  destruct (take_digits 2 s4 0) as [[d s5] |] eqn:H5; cbn [obind]; [| eauto].
  apply take_digits_length in H1, H3, H5. apply expect_length in H2, H4. lia.
Qed.

Lemma parse_timestamp_run (env : Env) (w : world env) (ts : string) :
  exists pre t w1,
    run env (AuditService.parse_timestamp ts) w = (pre, Ok t, w1)
    /\ (forall t0, fromisoformat (audit_timestamp_text ts) = Ok t0 ->
        pre = [] /\ t = t0)
    /\ ((String.length (audit_timestamp_text ts) < 7)%nat ->
        pre = [Called UtcNow t])
    /\ (pre = [] \/ pre = [Called UtcNow t])
    /\ added pre = [] /\ posted pre = [] /\ uuids pre = [].
Proof.
  unfold AuditService.parse_timestamp.
  replace (if PyStr.endswith ts "Z" then fromisoformat (PyStr.drop_last ts)
           else fromisoformat (PyStr.replace "+00:00" "" ts))
    with (fromisoformat (audit_timestamp_text ts))
    by (unfold audit_timestamp_text; destruct (PyStr.endswith ts "Z");
        reflexivity).
  assert (Hv : (exists t, fromisoformat (audit_timestamp_text ts) = Ok t)
               \/ (exists msg, fromisoformat (audit_timestamp_text ts)
                               = Err (ValueError msg))).
  { unfold fromisoformat.
    destruct (parse_iso (audit_timestamp_text ts)) as [d |];
      [destruct (valid d) |]; eauto. }
  destruct Hv as [[t Ht] | [msg Ht]]; rewrite Ht.
  - exists [], t, w. cbn [run]. split; [reflexivity |].
    split; [intros t0 H0; split; [reflexivity | congruence] |].
    split.
    { intros Hlen.
      destruct (short_text_invalid (audit_timestamp_text ts)) as [m Hm];
        [lia | congruence]. }
    auto 6.
  - rewrite run_perform. do 3 eexists. split; [reflexivity |].
    split; [intros t0 H0; discriminate |].
    split; [intros _; reflexivity |]. auto 6.
Qed.

(** The run of [handle_audit_event] on an event that is not marked. *)
Lemma audit_new_event_run
    (env : Env) (w : world env) (cfg : AuditService.Config)
    (py_str : Value -> string) (p : AuditService.TaskEventPayload) :
  let chk := AuditService.idempotency_checker cfg in
  let eid := AuditService.event_id p in
  let get := HttpGet (AuditService.state_url chk eid) in
  url_ok (AuditService.state_url chk eid) = true ->
  truthy (consumer_check (fst (answer env _ get w))) = false ->
  exists pre entry received now body y w',
    run env (AuditService.handle_audit_event cfg py_str p) w
    = ((Called get (fst (answer env _ get w)) :: pre)
         ++ [ Called Uuid4 (id entry); Called UtcNow received;
              Called (SessionAdd entry) tt; Called UtcNow now;
              Called (HttpPost (AuditService.base_url chk +++ "/v1.0/state/"
                                +++ AuditService.store_name chk) body []) y ],
       Ok (VDict [ ("status", VStr "success"); ("event_id", VStr eid);
                   ("audit_log_id", VStr (id entry));
                   ("message", VStr "Event audited successfully") ]),
       w')%list
    /\ (forall t, fromisoformat (audit_timestamp_text (AuditService.timestamp p))
                   = Ok t -> pre = [] /\ timestamp entry = t)
    /\ ((String.length (audit_timestamp_text (AuditService.timestamp p)) < 7)%nat
        -> pre = [Called UtcNow (timestamp entry)])
    /\ (pre = [] \/ pre = [Called UtcNow (timestamp entry)])
    /\ posted pre = [] /\ added pre = [] /\ uuids pre = []
    /\ entry_event_id entry = eid
    /\ entry_event_type entry = AuditService.event_type p
    /\ entry_user_id entry = AuditService.user_id p
    /\ entry_payload entry = AuditService.payload p
    /\ entry_source entry = AuditService.source p
    /\ received_at entry = received
    /\ saved_key body = [AuditService._key eid].
Proof.
  intros chk eid get Hok Hnew.
  unfold AuditService.handle_audit_event.
  rewrite run_bind, audit_is_processed_run by exact Hok.
    fold chk eid get.
  cbv zeta. rewrite Hnew.
  rewrite run_bind. unfold AuditService.store_audit_entry.
  rewrite run_bind.
  match goal with
  | |- context [run env (AuditService.parse_timestamp ?ts) ?w1] =>
      destruct (parse_timestamp_run env w1 ts)
        as (pre & t & w2 & Hts & Hparsed & Hshort & Hpre & Hadd & Hpost
            & Huuid)
  end.
  rewrite Hts. cbv zeta.
  rewrite run_perform_bind, run_perform_bind, run_bind, run_perform.
  cbn [run app fst snd].
  set (uid := fst (answer env _ Uuid4 w2)).
  set (w3 := snd (answer env _ Uuid4 w2)).
  set (received := fst (answer env _ UtcNow w3)).
  set (w4 := snd (answer env _ UtcNow w3)).
  match goal with
  | |- context [SessionAdd ?e] => set (entry := e)
  end.
  set (w5 := snd (answer env _ (SessionAdd entry) w4)).
  destruct (fst (answer env unit (SessionAdd entry) w4)).
  rewrite run_bind.
  destruct (audit_mark_processed_run env w5 chk eid (id entry))
    as (body & Hrun & Hkey).
  cbv zeta in Hrun. rewrite Hrun. cbn [run app].
  exists pre, entry, received. do 4 eexists.
  split.
  - rewrite <- app_assoc. reflexivity.
  - split; [exact Hparsed |]. split; [exact Hshort |].
    split; [exact Hpre |].
    split; [exact Hpost |]. split; [exact Hadd |]. split; [exact Huuid |].
    repeat split. exact Hkey.
Qed.



(** X10.  For an event id whose lookup address the HTTP client accepts,
    when the store does not report the event as processed,
    [handle_audit_event] adds exactly one row to the session, carrying the
    envelope's event id, type, user, payload and source and a freshly drawn
    id, before it writes the marker under ["audit-processed:" + event_id].
    When the envelope's timestamp (without a final ["Z"], or else without
    ["+00:00"]) is a text that parses, the row's timestamp is the parsed
    instant and the clock is not read for it; when that text has fewer than
    7 characters it cannot be parsed, and the row's timestamp is a reading
    of the clock.  In every case at most that one clock reading precedes
    the drawing of the id.  The result is [success] with the row's id,
    whatever the store answers to the marker write. *)
Theorem audit_first_delivery
    (env : Env) (w : world env) (cfg : AuditService.Config)
    (py_str : Value -> string) (p : AuditService.TaskEventPayload) :
  let chk := AuditService.idempotency_checker cfg in
  let eid := AuditService.event_id p in
  let get := HttpGet (AuditService.state_url chk eid) in
  let text := audit_timestamp_text (AuditService.timestamp p) in
  url_ok (AuditService.state_url chk eid) = true ->
  truthy (consumer_check (fst (answer env _ get w))) = false ->
  exists pre entry received now body y w',
    run env (AuditService.handle_audit_event cfg py_str p) w
    = ((Called get (fst (answer env _ get w)) :: pre)
         ++ [ Called Uuid4 (id entry); Called UtcNow received;
              Called (SessionAdd entry) tt; Called UtcNow now;
              Called (HttpPost (AuditService.base_url chk +++ "/v1.0/state/"
                                +++ AuditService.store_name chk) body []) y ],
       Ok (VDict [ ("status", VStr "success"); ("event_id", VStr eid);
                   ("audit_log_id", VStr (id entry));
                   ("message", VStr "Event audited successfully") ]),
       w')%list
    /\ (forall t, fromisoformat text = Ok t -> pre = [] /\ timestamp entry = t)
    /\ ((String.length text < 7)%nat -> pre = [Called UtcNow (timestamp entry)])
    /\ (pre = [] \/ pre = [Called UtcNow (timestamp entry)])
    /\ entry_event_id entry = eid
    /\ entry_event_type entry = AuditService.event_type p
    /\ entry_user_id entry = AuditService.user_id p
    /\ entry_payload entry = AuditService.payload p
    /\ entry_source entry = AuditService.source p
    /\ received_at entry = received
    /\ saved_key body = [AuditService._key eid].
Proof.
  intros chk eid get text Hok Hnew.
  destruct (audit_new_event_run env w cfg py_str p Hok Hnew)
    as (pre & entry & received & now & body & y & w' & Hrun & Hparsed & Hshort
        & Hpre & _ & _ & _ & Hrest).
  exists pre, entry, received, now, body, y, w'. auto 6.
Qed.

Lemma audit_first_delivery_witness :
  let env := const_env (status_only 404) (status_only 500) (status_only 204)
               (mkdatetime 2024 1 31 0 0 0 0 None) "row-1" in
  exists entry calls,
    run env
      (AuditService.handle_audit_event
         (AuditService.mkConfig "3500" "statestore")
         (fun _ => "task-1")
         (AuditService.mkPayload "evt-1" "task.created" "2024-01-30T09:15:00Z"
            "user-1" "chat-api" [("id", VStr "task-1")])) tt
    = (calls,
       Ok (VDict [ ("status", VStr "success"); ("event_id", VStr "evt-1");
                   ("audit_log_id", VStr (id entry));
                   ("message", VStr "Event audited successfully") ]), tt)
    /\ timestamp entry = mkdatetime 2024 1 30 9 15 0 0 None
    /\ entry_event_id entry = "evt-1".
Proof.
  intros env.
  destruct (audit_first_delivery env tt
              (AuditService.mkConfig "3500" "statestore")
              (fun _ => "task-1")
              (AuditService.mkPayload "evt-1" "task.created"
                 "2024-01-30T09:15:00Z"
                 "user-1" "chat-api" [("id", VStr "task-1")]) eq_refl eq_refl)
    as (pre & entry & received & now & body & y & w' & Hrun & Hts & _ & _ & He
        & _).
  destruct w'. exists entry. eexists.
  split; [exact Hrun |].
  split; [exact (proj2 (Hts _ eq_refl)) | exact He].
Defined.

Lemma recurring_mark_processed_run (env : Env) (w : world env)
    (self : RecurringTaskService.IdempotencyChecker) (event_id : string)
    (metadata : option (list (string * Value))) :
  exists body,
    (let e := HttpPost (RecurringTaskService.base_url self +++ "/v1.0/state/"
                        +++ RecurringTaskService.store_name self) body [] in
     run env (RecurringTaskService.mark_processed self event_id metadata) w
     = ([Called e (fst (answer env _ e w))],
        Ok (accepted (fst (answer env _ e w))), snd (answer env _ e w)))
    /\ saved_key body = [RecurringTaskService._key event_id].
Proof.
  unfold RecurringTaskService.mark_processed. eexists. split.
  - cbv zeta. apply post_then_accept.
  - reflexivity.
Qed.

Lemma without_next_due_none (due rule : option string) :
  without_next_due due rule = true ->
  RecurringTaskService.calculate_next_due_date due rule = Ok None.
Proof.
  unfold without_next_due.
  destruct due as [s |]; [| reflexivity].
  destruct rule as [r |]; [| reflexivity].
  destruct (negb (PyStr.truthy s) || negb (PyStr.truthy r)) eqn:Hempty.
  - intros _. unfold RecurringTaskService.calculate_next_due_date.
    rewrite Hempty. reflexivity.
  - cbn [orb].
    destruct (fromisoformat (consumer_due_text s)); [| discriminate].
    destruct (RecurringTaskService.calculate_next_due_date (Some s) (Some r))
      as [[next |] | e]; [discriminate | reflexivity | discriminate].
Qed.

(** The run of the handler once the marker is to be written: the clock,
    one marker write, and the prepared result. *)
Lemma recurring_mark_then_return (env : Env) (w : world env)
    (self : RecurringTaskService.IdempotencyChecker) (event_id : string)
    (meta : datetime -> list (string * Value)) (result : Value) :
  exists now body y w',
    run env
      (bind (perform UtcNow) (fun now =>
         bind (RecurringTaskService.mark_processed self event_id
                 (Some (meta now)))
           (fun _ => Ret result))) w
    = ([ Called UtcNow now;
         Called (HttpPost (RecurringTaskService.base_url self +++ "/v1.0/state/"
                           +++ RecurringTaskService.store_name self) body []) y ],
       Ok result, w')
    /\ saved_key body = [RecurringTaskService._key event_id].
Proof.
  rewrite run_perform_bind, run_bind.
  match goal with
  | |- context [run env (RecurringTaskService.mark_processed ?c ?e ?m) ?w1] =>
      destruct (recurring_mark_processed_run env w1 c e m)
        as (body & Hrun & Hkey)
  end.
  cbv zeta in Hrun. rewrite Hrun. cbn [run app].
  do 4 eexists. split; [reflexivity | exact Hkey].
Qed.

(** X11.  For an event id whose lookup address the HTTP client accepts, a
    completion event that is not yet marked, for a task that is not
    recurring, or whose due date or rule is missing or empty, or whose due
    text parses while the rule is not one that the consumer reads, makes no
    task-creation request: the handler reads the clock, writes the marker
    under ["recurring-processed:" + event_id] and returns [success] with
    [next_task_created] false. *)
Theorem recurring_without_next_occurrence
    (env : Env) (w : world env) (cfg : RecurringTaskService.Config)
    (p : RecurringTaskService.TaskCompletedPayload) :
  let chk := RecurringTaskService.idempotency_checker cfg in
  let eid := RecurringTaskService.event_id p in
  let get := HttpGet (RecurringTaskService.state_url chk eid) in
  url_ok (RecurringTaskService.state_url chk eid) = true ->
  truthy (consumer_check (fst (answer env _ get w))) = false ->
  RecurringTaskService.is_recurring p = false
  \/ without_next_due (RecurringTaskService.due_date p)
       (RecurringTaskService.recurrence_rule p) = true ->
  exists now body y w',
    run env (RecurringTaskService.handle_task_completed_event cfg p) w
    = ([ Called get (fst (answer env _ get w)); Called UtcNow now;
         Called (HttpPost (RecurringTaskService.base_url chk +++ "/v1.0/state/"
                           +++ RecurringTaskService.store_name chk) body []) y ],
       Ok (success_without_next eid (RecurringTaskService.task_id p)
             (if RecurringTaskService.is_recurring p
              then "Could not calculate next due date"
              else "Task is not recurring, no action needed")),
       w')
    /\ saved_key body = [RecurringTaskService._key eid].
Proof.
  intros chk eid get Hok Hnew Hcase.
  unfold RecurringTaskService.handle_task_completed_event.
  rewrite run_bind, recurring_is_processed_run by exact Hok.
    fold chk eid get.
  cbv zeta. rewrite Hnew.
  destruct (RecurringTaskService.is_recurring p) eqn:Hrec; cbn [negb].
  - destruct Hcase as [Hcase | Hcase]; [discriminate |].
    rewrite (without_next_due_none _ _ Hcase). cbn [lift bind].
    match goal with
    | |- context [run env (bind (perform UtcNow) ?k) ?w1] =>
        destruct (recurring_mark_then_return env w1 chk eid
                    (fun now => [("processed_at", VStr (isoformat now +++ "Z"))])
                    (success_without_next eid (RecurringTaskService.task_id p)
                       "Could not calculate next due date"))
          as (now & body & y & w' & Hrun & Hkey)
    end.
    unfold success_without_next in Hrun |- *. rewrite Hrun. cbn [app].
    do 4 eexists. split; [reflexivity | exact Hkey].
  - match goal with
    | |- context [run env (bind (perform UtcNow) ?k) ?w1] =>
        destruct (recurring_mark_then_return env w1 chk eid
                    (fun now => [("processed_at", VStr (isoformat now +++ "Z"))])
                    (success_without_next eid (RecurringTaskService.task_id p)
                       "Task is not recurring, no action needed"))
          as (now & body & y & w' & Hrun & Hkey)
    end.
    unfold success_without_next in Hrun |- *. rewrite Hrun. cbn [app].
    do 4 eexists. split; [reflexivity | exact Hkey].
Qed.


Lemma recurring_without_next_occurrence_witness :
  let env := const_env (status_only 404) (status_only 204) (status_only 204)
               (mkdatetime 2024 1 31 0 0 0 0 None) "u-1" in
  exists calls,
    run env
      (RecurringTaskService.handle_task_completed_event
         (RecurringTaskService.mkConfig "3500" "statestore" "chat-api")
         (RecurringTaskService.mkPayload "evt-1" "task.completed"
            "2024-01-31T00:00:00Z" "user-1" "task-1" "Pay rent" None
            "completed" "medium" (Some "2024-01-31T00:00:00Z") [] None
            true (Some "INTERVAL:3") None)) tt
    = (calls,
       Ok (success_without_next "evt-1" "task-1"
             "Could not calculate next due date"), tt)
    /\ List.length (posted calls) = 1%nat.
Proof.
  intros env.
  destruct (recurring_without_next_occurrence env tt
              (RecurringTaskService.mkConfig "3500" "statestore" "chat-api")
              (RecurringTaskService.mkPayload "evt-1" "task.completed"
                 "2024-01-31T00:00:00Z" "user-1" "task-1" "Pay rent" None
                 "completed" "medium" (Some "2024-01-31T00:00:00Z") [] None
                 true (Some "INTERVAL:3") None) eq_refl eq_refl
              (or_intror eq_refl))
    as (now & body & y & w' & Hrun & _).
  destruct w'. eexists. split; [exact Hrun | reflexivity].
Defined.

(** [create_task_via_dapr] makes one request and reads its answer: the
    decoded object on 200 or 201, [None] on any other status and on a
    transport error, and an exception when a 200 or 201 body is not a JSON
    object. *)
Lemma create_task_via_dapr_run (env : Env) (w : world env)
    (cfg : RecurringTaskService.Config) (user_id : string) (data : Value) :
  let e := create_call cfg user_id data in
  let x := fst (answer env _ e w) in
  exists r,
    run env (RecurringTaskService.create_task_via_dapr cfg user_id data) w
    = ([Called e x], r, snd (answer env _ e w))
    /\ (not_created x = true -> r = Ok None \/ r = Ok (Some []))
    /\ (forall t, created_task x = Some t -> r = Ok (Some t))
    /\ (unreadable x = true -> exists ex, r = Err ex).
Proof.
  intros e x. unfold RecurringTaskService.create_task_via_dapr. cbv zeta.
  fold (create_call cfg user_id data). fold e.
  rewrite run_perform_bind. fold x.
  destruct x as [response | detail]; cbn [not_created created_task unreadable].
  - destruct ((status_code response =? 200) || (status_code response =? 201)).
    + destruct (json response) as [[| | | | | [| item items]] |]; cbn [run];
        eexists; (split; [reflexivity |]);
        repeat split; intros; try discriminate; eauto; congruence.
    + cbn [run]. eexists. split; [reflexivity |].
      repeat split; intros; try discriminate; eauto.
  - cbn [run]. eexists. split; [reflexivity |].
    repeat split; intros; try discriminate; eauto.
Qed.


(** The handler up to the answer of the creation request. *)
Lemma recurring_until_creation (env : Env) (w : world env)
    (cfg : RecurringTaskService.Config)
    (p : RecurringTaskService.TaskCompletedPayload) (next : datetime) :
  let chk := RecurringTaskService.idempotency_checker cfg in
  let eid := RecurringTaskService.event_id p in
  let get := HttpGet (RecurringTaskService.state_url chk eid) in
  url_ok (RecurringTaskService.state_url chk eid) = true ->
  truthy (consumer_check (fst (answer env _ get w))) = false ->
  RecurringTaskService.is_recurring p = true ->
  RecurringTaskService.calculate_next_due_date
    (RecurringTaskService.due_date p)
    (RecurringTaskService.recurrence_rule p) = Ok (Some next) ->
  exists k,
    run env (RecurringTaskService.handle_task_completed_event cfg p) w
    = (let '(c2, r, w2) :=
         run env
           (bind (RecurringTaskService.create_task_via_dapr cfg
                    (RecurringTaskService.user_id p) (next_task_data p next)) k)
           (snd (answer env _ get w)) in
       (Called get (fst (answer env _ get w)) :: c2, r, w2))
    /\ (forall t w2,
          match t with Some (_ :: _) => False | _ => True end ->
          exists now body y w',
            run env (k t) w2
            = ([ Called UtcNow now;
                 Called (HttpPost (RecurringTaskService.base_url chk
                                   +++ "/v1.0/state/"
                                   +++ RecurringTaskService.store_name chk)
                           body []) y ],
               Ok (VDict [ ("status", VStr "error");
                           ("event_id", VStr eid);
                           ("task_id", VStr (RecurringTaskService.task_id p));
                           ("message",
                             VStr "Failed to create next recurring task");
                           ("next_task_created", VBool false) ]), w')
            /\ saved_key body = [RecurringTaskService._key eid])
    /\ (forall item items w2,
          exists now body y w',
            run env (k (Some (item :: items))) w2
            = ([ Called UtcNow now;
                 Called (HttpPost (RecurringTaskService.base_url chk
                                   +++ "/v1.0/state/"
                                   +++ RecurringTaskService.store_name chk)
                           body []) y ],
               Ok (VDict [ ("status", VStr "success");
                           ("event_id", VStr eid);
                           ("task_id", VStr (RecurringTaskService.task_id p));
                           ("message", VStr "Next recurring task created");
                           ("next_task_created", VBool true);
                           ("next_task_id", Py.get (item :: items) "id");
                           ("next_due_date", VStr (isoformat next +++ "Z")) ]),
               w')
            /\ saved_key body = [RecurringTaskService._key eid]).
Proof.
  intros chk eid get Hok Hnew Hrec Hnext.
  unfold RecurringTaskService.handle_task_completed_event.
  eexists. split.
  - rewrite run_bind, recurring_is_processed_run by exact Hok.
    fold chk eid get.
    cbv zeta. rewrite Hnew, Hrec. cbn [negb]. rewrite Hnext. cbn [lift bind].
    fold (next_task_data p next). cbn [app]. reflexivity.
  - split.
    + intros t w2 Ht. cbv beta.
      destruct t as [[| item items] |]; [| destruct Ht |]; cbn [truthy];
        cbv beta iota;
        apply (recurring_mark_then_return env w2 chk eid
                 (fun now => [ ("processed_at", VStr (isoformat now +++ "Z"));
                               ("next_task_id", VNone) ])).
    + intros item items w2. cbv beta. cbn [truthy]. cbv beta iota.
      apply (recurring_mark_then_return env w2 chk eid
               (fun now => [ ("processed_at", VStr (isoformat now +++ "Z"));
                             ("next_task_id", Py.get (item :: items) "id") ])).
Qed.


(** X12.  For an event id whose lookup address the HTTP client accepts
    and an event that is not yet marked: when the request that creates the
    next occurrence fails (a transport error, a status other than 200 and 201, or an empty object as
    answer), [handle_task_completed_event] still writes the marker for the
    event, after the failed request, and returns the [error] result: a
    redelivery of the event then finds the marker. *)
Theorem recurring_creation_failure_is_marked
    (env : Env) (w : world env) (cfg : RecurringTaskService.Config)
    (p : RecurringTaskService.TaskCompletedPayload) (next : datetime) :
  let chk := RecurringTaskService.idempotency_checker cfg in
  let eid := RecurringTaskService.event_id p in
  let get := HttpGet (RecurringTaskService.state_url chk eid) in
  let create :=
    create_call cfg (RecurringTaskService.user_id p) (next_task_data p next) in
  let c := fst (answer env _ create (snd (answer env _ get w))) in
  url_ok (RecurringTaskService.state_url chk eid) = true ->
  truthy (consumer_check (fst (answer env _ get w))) = false ->
  RecurringTaskService.is_recurring p = true ->
  RecurringTaskService.calculate_next_due_date
    (RecurringTaskService.due_date p)
    (RecurringTaskService.recurrence_rule p) = Ok (Some next) ->
  not_created c = true ->
  exists now body y w',
    run env (RecurringTaskService.handle_task_completed_event cfg p) w
    = ([ Called get (fst (answer env _ get w)); Called create c;
         Called UtcNow now;
         Called (HttpPost (RecurringTaskService.base_url chk +++ "/v1.0/state/"
                           +++ RecurringTaskService.store_name chk) body []) y ],
       Ok (VDict [ ("status", VStr "error");
                   ("event_id", VStr eid);
                   ("task_id", VStr (RecurringTaskService.task_id p));
                   ("message", VStr "Failed to create next recurring task");
                   ("next_task_created", VBool false) ]),
       w')
    /\ saved_key body = [RecurringTaskService._key eid].
Proof.
  intros chk eid get create c Hok Hnew Hrec Hnext Hfail.
  destruct (recurring_until_creation env w cfg p next Hok Hnew Hrec Hnext)
    as (k & Hrun & Hk & _).
  rewrite Hrun, run_bind.
  destruct (create_task_via_dapr_run env (snd (answer env _ get w)) cfg
              (RecurringTaskService.user_id p) (next_task_data p next))
    as (r & Hc & Hn & _).
  cbv zeta in Hc, Hn. subst c create get eid chk.
  rewrite Hc.
  destruct (Hn Hfail) as [-> | ->];
    match goal with
    | |- context [run env (k ?t) ?w2] =>
        destruct (Hk t w2 I) as (now & body & y & w' & Hm & Hkey)
    end;
    rewrite Hm; cbn [app]; do 4 eexists;
    (split; [reflexivity | exact Hkey]).
Qed.

Lemma recurring_creation_failure_is_marked_witness :
  let env := const_env (status_only 404) (status_only 500) (status_only 204)
               (mkdatetime 2024 1 31 0 0 0 0 None) "u-1" in
  exists calls,
    run env
      (RecurringTaskService.handle_task_completed_event
         (RecurringTaskService.mkConfig "3500" "statestore" "chat-api")
         (RecurringTaskService.mkPayload "evt-1" "task.completed"
            "2024-01-31T00:00:00" "user-1" "task-1" "Pay rent" None
            "completed" "medium" (Some "2024-01-31T00:00:00") [] None
            true (Some "daily") None)) tt
    = (calls,
       Ok (VDict [ ("status", VStr "error");
                   ("event_id", VStr "evt-1");
                   ("task_id", VStr "task-1");
                   ("message", VStr "Failed to create next recurring task");
                   ("next_task_created", VBool false) ]), tt)
    /\ List.length (posted calls) = 2%nat.
Proof.
  intros env.
  destruct (recurring_creation_failure_is_marked env tt
              (RecurringTaskService.mkConfig "3500" "statestore" "chat-api")
              (RecurringTaskService.mkPayload "evt-1" "task.completed"
                 "2024-01-31T00:00:00" "user-1" "task-1" "Pay rent" None
                 "completed" "medium" (Some "2024-01-31T00:00:00") [] None
                 true (Some "daily") None)
              (mkdatetime 2024 2 1 0 0 0 0 None)
              eq_refl eq_refl eq_refl eq_refl eq_refl)
    as (now & body & y & w' & Hrun & _).
  destruct w'. eexists. split; [exact Hrun | reflexivity].
Defined.

(** X13.  For an event id whose lookup address the HTTP client accepts
    and an event that is not yet marked: when the creation request is
    answered with 200 or 201 and a non-empty JSON object, the handler writes the marker after it and
    returns [success] with the [id] field of that object as [next_task_id]
    and the calculated date, in ISO format followed by ["Z"], as
    [next_due_date]. *)
Theorem recurring_next_task_created
    (env : Env) (w : world env) (cfg : RecurringTaskService.Config)
    (p : RecurringTaskService.TaskCompletedPayload) (next : datetime)
    (t : list (string * Value)) :
  let chk := RecurringTaskService.idempotency_checker cfg in
  let eid := RecurringTaskService.event_id p in
  let get := HttpGet (RecurringTaskService.state_url chk eid) in
  let create :=
    create_call cfg (RecurringTaskService.user_id p) (next_task_data p next) in
  let c := fst (answer env _ create (snd (answer env _ get w))) in
  url_ok (RecurringTaskService.state_url chk eid) = true ->
  truthy (consumer_check (fst (answer env _ get w))) = false ->
  RecurringTaskService.is_recurring p = true ->
  RecurringTaskService.calculate_next_due_date
    (RecurringTaskService.due_date p)
    (RecurringTaskService.recurrence_rule p) = Ok (Some next) ->
  created_task c = Some t ->
  exists now body y w',
    run env (RecurringTaskService.handle_task_completed_event cfg p) w
    = ([ Called get (fst (answer env _ get w)); Called create c;
         Called UtcNow now;
         Called (HttpPost (RecurringTaskService.base_url chk +++ "/v1.0/state/"
                           +++ RecurringTaskService.store_name chk) body []) y ],
       Ok (VDict [ ("status", VStr "success");
                   ("event_id", VStr eid);
                   ("task_id", VStr (RecurringTaskService.task_id p));
                   ("message", VStr "Next recurring task created");
                   ("next_task_created", VBool true);
                   ("next_task_id", Py.get t "id");
                   ("next_due_date", VStr (isoformat next +++ "Z")) ]),
       w')
    /\ saved_key body = [RecurringTaskService._key eid].
Proof.
  intros chk eid get create c Hok Hnew Hrec Hnext Hmade.
  assert (Hne : exists item items, t = item :: items).
  { unfold created_task in Hmade. destruct c as [response | detail];
      [| discriminate].
    destruct ((status_code response =? 200) || (status_code response =? 201));
      [| discriminate].
    destruct (json response) as [[| | | | | [| item items]] |];
      try discriminate.
    injection Hmade as <-. eauto. }
  destruct (recurring_until_creation env w cfg p next Hok Hnew Hrec Hnext)
    as (k & Hrun & _ & Hk).
  rewrite Hrun, run_bind.
  destruct (create_task_via_dapr_run env (snd (answer env _ get w)) cfg
              (RecurringTaskService.user_id p) (next_task_data p next))
    as (r & Hc & _ & Hcr & _).
  cbv zeta in Hc, Hcr. subst c create get eid chk.
  rewrite Hc, (Hcr t Hmade).
  destruct Hne as (item & items & ->).
  match goal with
  | |- context [run env (k _) ?w2] =>
      destruct (Hk item items w2) as (now & body & y & w' & Hm & Hkey)
  end.
  rewrite Hm. cbn [app]. do 4 eexists. split; [reflexivity | exact Hkey].
Qed.

Lemma recurring_next_task_created_witness :
  let env := const_env (status_only 404)
               (Responded (mkResponse 201 "{id: task-2}"
                             (Some (VDict [("id", VStr "task-2")]))))
               (status_only 204)
               (mkdatetime 2024 1 31 0 0 0 0 None) "u-1" in
  exists calls,
    run env
      (RecurringTaskService.handle_task_completed_event
         (RecurringTaskService.mkConfig "3500" "statestore" "chat-api")
         (RecurringTaskService.mkPayload "evt-1" "task.completed"
            "2024-01-31T00:00:00" "user-1" "task-1" "Pay rent" None
            "completed" "medium" (Some "2024-01-31T00:00:00") [] None
            true (Some "daily") None)) tt
    = (calls,
       Ok (VDict [ ("status", VStr "success");
                   ("event_id", VStr "evt-1");
                   ("task_id", VStr "task-1");
                   ("message", VStr "Next recurring task created");
                   ("next_task_created", VBool true);
                   ("next_task_id", VStr "task-2");
                   ("next_due_date", VStr "2024-02-01T00:00:00Z") ]), tt).
Proof.
  intros env.
  destruct (recurring_next_task_created env tt
              (RecurringTaskService.mkConfig "3500" "statestore" "chat-api")
              (RecurringTaskService.mkPayload "evt-1" "task.completed"
                 "2024-01-31T00:00:00" "user-1" "task-1" "Pay rent" None
                 "completed" "medium" (Some "2024-01-31T00:00:00") [] None
                 true (Some "daily") None)
              (mkdatetime 2024 2 1 0 0 0 0 None)
              [("id", VStr "task-2")]
              eq_refl eq_refl eq_refl eq_refl eq_refl)
    as (now & body & y & w' & Hrun & _).
  destruct w'. eexists. exact Hrun.
Defined.

(** X14.  For an event id whose lookup address the HTTP client accepts
    and an event that is not yet marked: when the creation request is
    answered with 200 or 201 but the body is not a JSON object, the handler raises right after that request:
    the task may exist, and no marker is written for the event. *)
Theorem recurring_unreadable_creation_raises
    (env : Env) (w : world env) (cfg : RecurringTaskService.Config)
    (p : RecurringTaskService.TaskCompletedPayload) (next : datetime) :
  let chk := RecurringTaskService.idempotency_checker cfg in
  let eid := RecurringTaskService.event_id p in
  let get := HttpGet (RecurringTaskService.state_url chk eid) in
  let create :=
    create_call cfg (RecurringTaskService.user_id p) (next_task_data p next) in
  let w1 := snd (answer env _ get w) in
  let c := fst (answer env _ create w1) in
  url_ok (RecurringTaskService.state_url chk eid) = true ->
  truthy (consumer_check (fst (answer env _ get w))) = false ->
  RecurringTaskService.is_recurring p = true ->
  RecurringTaskService.calculate_next_due_date
    (RecurringTaskService.due_date p)
    (RecurringTaskService.recurrence_rule p) = Ok (Some next) ->
  unreadable c = true ->
  exists ex,
    run env (RecurringTaskService.handle_task_completed_event cfg p) w
    = ([ Called get (fst (answer env _ get w)); Called create c ],
       Err ex, snd (answer env _ create w1)).
Proof.
  intros chk eid get create w1 c Hok Hnew Hrec Hnext Hbad.
  destruct (recurring_until_creation env w cfg p next Hok Hnew Hrec Hnext)
    as (k & Hrun & _).
  rewrite Hrun, run_bind.
  destruct (create_task_via_dapr_run env w1 cfg
              (RecurringTaskService.user_id p) (next_task_data p next))
    as (r & Hc & _ & _ & Hun).
  cbv zeta in Hc, Hun. subst c create w1 get eid chk.
  rewrite Hc.
  destruct (Hun Hbad) as [ex ->]. exists ex. reflexivity.
Qed.

Lemma recurring_unreadable_creation_raises_witness :
  let env := const_env (status_only 404)
               (Responded (mkResponse 201 "created" None))
               (status_only 204)
               (mkdatetime 2024 1 31 0 0 0 0 None) "u-1" in
  exists calls ex,
    run env
      (RecurringTaskService.handle_task_completed_event
         (RecurringTaskService.mkConfig "3500" "statestore" "chat-api")
         (RecurringTaskService.mkPayload "evt-1" "task.completed"
            "2024-01-31T00:00:00" "user-1" "task-1" "Pay rent" None
            "completed" "medium" (Some "2024-01-31T00:00:00") [] None
            true (Some "daily") None)) tt
    = (calls, Err ex, tt)
    /\ List.length (posted calls) = 1%nat.
Proof.
  intros env.
  destruct (recurring_unreadable_creation_raises env tt
              (RecurringTaskService.mkConfig "3500" "statestore" "chat-api")
              (RecurringTaskService.mkPayload "evt-1" "task.completed"
                 "2024-01-31T00:00:00" "user-1" "task-1" "Pay rent" None
                 "completed" "medium" (Some "2024-01-31T00:00:00") [] None
                 true (Some "daily") None)
              (mkdatetime 2024 2 1 0 0 0 0 None)
              eq_refl eq_refl eq_refl eq_refl eq_refl)
    as (ex & Hrun).
  eexists. exists ex. split; [exact Hrun | reflexivity].
Defined.

End FirstDelivery.

(** ** Markers written and read back *)

Section MarkerRoundTrip.
Import Datetime Py ProgFacts Spec.

Lemma append_assoc (a b c : string) : (a +++ b) +++ c = a +++ b +++ c.
Proof. induction a as [| x a IH]; cbn; [reflexivity | rewrite IH; reflexivity]. Qed.

Lemma eqb_append_l (a b c : string) :
  String.eqb (a +++ b) (a +++ c) = String.eqb b c.
Proof.
  induction a as [| x a IH]; cbn; [reflexivity |].
  rewrite Ascii.eqb_refl. exact IH.
Qed.

(** Looking a key up under the URL of the store. *)
Lemma lookup_under (st key : string) (keys : list string) :
  existsb (fun k => String.eqb (st +++ "/" +++ key) (st +++ "/" +++ k)) keys
  = existsb (String.eqb key) keys.
Proof.
  induction keys as [| k keys IH]; cbn [existsb]; [reflexivity |].
  rewrite IH, !eqb_append_l. reflexivity.
Qed.

Lemma existsb_removed (st key : string) (keys : list string) :
  existsb (String.eqb key)
    (filter (fun k => negb (String.eqb (st +++ "/" +++ key)
                              (st +++ "/" +++ k))) keys) = false.
Proof.
  induction keys as [| k keys IH]; cbn [filter existsb]; [reflexivity |].
  rewrite !eqb_append_l.
  destruct (String.eqb key k) eqn:Hk; cbn [negb existsb]; [exact IH |].
  rewrite Hk, IH. reflexivity.
Qed.

Lemma existsb_kept (st key other : string) (keys : list string) :
  String.eqb other key = false ->
  existsb (String.eqb other)
    (filter (fun k => negb (String.eqb (st +++ "/" +++ key)
                              (st +++ "/" +++ k))) keys)
  = existsb (String.eqb other) keys.
Proof.
  intros Hne.
  induction keys as [| k keys IH]; cbn [filter existsb]; [reflexivity |].
  rewrite !eqb_append_l.
  destruct (String.eqb key k) eqn:Hk; cbn [negb existsb].
  - apply String.eqb_eq in Hk. subst k. rewrite Hne, IH. reflexivity.
  - rewrite IH. reflexivity.
Qed.

(** The final state of a working store is its initial state and the keys
    written during the run. *)
Lemma store_env_world (st : string) (now : datetime) (uuid : string)
    {R : Type} (p : Prog R) (keys : list string) :
  snd (run (store_env st now uuid) p keys)
  = saved_by st (fst (fst (run (store_env st now uuid) p keys))) keys.
Proof.
  revert keys. induction p as [r | e | X e k IH]; intros keys;
    [reflexivity | reflexivity |].
  cbn [run].
  destruct (answer (store_env st now uuid) X e keys) as [x keys1] eqn:Ha.
  specialize (IH x keys1).
  destruct (run (store_env st now uuid) (k x) keys1) as [[calls r] w2].
  cbn [fst snd] in IH |- *. rewrite IH. unfold saved_by.
  destruct e; cbn in Ha; injection Ha as _ <-; reflexivity.
Qed.

Section ChatApi.
Variable cfg : Idempotency.Config.
Variable self : Idempotency.IdempotencyChecker.
Variable now : datetime.
Variable uuid : string.

Let st := Idempotency.base_url self +++ "/v1.0/state/"
          +++ Idempotency.state_store self.
Let env := kv_env st now uuid.

Lemma chat_api_state_url (event_id : string) :
  Idempotency.state_url self event_id
  = st +++ "/" +++ Idempotency._get_key event_id.
Proof.
  unfold Idempotency.state_url, st. rewrite !append_assoc. reflexivity.
Qed.

Lemma chat_api_is_processed_kv (event_id : string) (keys : list string) :
  snd (fst (run env (Idempotency.is_processed self event_id) keys))
  = if url_ok (Idempotency.state_url self event_id)
    then Ok (existsb (String.eqb (Idempotency._get_key event_id)) keys)
    else Err (invalid_url (Idempotency.state_url self event_id)).
Proof.
  unfold Idempotency.is_processed.
  destruct (url_ok (Idempotency.state_url self event_id)) eqn:Hok.
  - rewrite run_http_get_bind by exact Hok.
    cbn [env kv_env answer fst snd].
    rewrite chat_api_state_url, lookup_under.
    destruct (existsb (String.eqb (Idempotency._get_key event_id)) keys);
      reflexivity.
  - rewrite run_http_get_invalid by exact Hok. reflexivity.
Qed.

Lemma chat_api_mark_kv (event_id : string)
    (metadata : option (list (string * Value))) (keys : list string) :
  run env (Idempotency.mark_processed cfg self event_id metadata) keys
  = (fst (fst (run env (Idempotency.mark_processed cfg self event_id
                          metadata) keys)),
     Ok true, Idempotency._get_key event_id :: keys).
Proof.
  unfold Idempotency.mark_processed. cbv zeta. rewrite run_perform_bind.
  cbn [env kv_env answer fst snd]. fold st. rewrite String.eqb_refl.
  reflexivity.
Qed.

Lemma chat_api_delete_kv (event_id : string) (keys : list string) :
  url_ok (Idempotency.state_url self event_id) = true ->
  run env (Idempotency.delete_processed self event_id) keys
  = (fst (fst (run env (Idempotency.delete_processed self event_id) keys)),
     Ok true,
     filter (fun k => negb (String.eqb
                              (st +++ "/" +++ Idempotency._get_key event_id)
                              (st +++ "/" +++ k))) keys).
Proof.
  intros Hok.
  unfold Idempotency.delete_processed.
  rewrite run_http_delete_bind by exact Hok.
  cbn [env kv_env answer fst snd]. rewrite chat_api_state_url.
  reflexivity.
Qed.

Lemma get_key_differs (a b : string) :
  a <> b ->
  String.eqb (Idempotency._get_key a) (Idempotency._get_key b) = false.
Proof.
  intros Hne. unfold Idempotency._get_key. rewrite eqb_append_l.
  apply String.eqb_neq. exact Hne.
Qed.

(** X15.  Against a working state store at a plain address, and for an
    event id made of letters, digits, [-] and [_] whose lookup address the
    HTTP client accepts, the chat-api checker reads back what it writes:
    after [mark_processed] the event is reported as processed, after
    [delete_processed] it no longer is, both calls report success, and
    neither changes the answer for any other such event id. *)
Theorem marker_round_trip (event_id : string)
    (metadata : option (list (string * Value))) (keys : list string) :
  let mark := run env (Idempotency.mark_processed cfg self event_id metadata)
                keys in
  let delete := run env (Idempotency.delete_processed self event_id)
                  (snd mark) in
  let processed (e : string) (ks : list string) :=
    snd (fst (run env (Idempotency.is_processed self e) ks)) in
  store_address (Idempotency.base_url self) (Idempotency.state_store self)
  = true ->
  PyStr.plain event_id = true ->
  url_ok (Idempotency.state_url self event_id) = true ->
  snd (fst mark) = Ok true
  /\ processed event_id (snd mark) = Ok true
  /\ snd (fst delete) = Ok true
  /\ processed event_id (snd delete) = Ok false
  /\ forall other,
       other <> event_id ->
       PyStr.plain other = true ->
       processed other (snd mark) = processed other keys
       /\ processed other (snd delete) = processed other keys.
Proof.
  intros mark delete processed _ _ Hok. subst mark delete processed. cbv beta.
  rewrite chat_api_mark_kv. cbn [fst snd].
  rewrite chat_api_delete_kv by exact Hok. cbn [fst snd].
  split; [reflexivity |].
  split.
  { rewrite chat_api_is_processed_kv, Hok. cbn [existsb].
    rewrite String.eqb_refl. reflexivity. }
  split; [reflexivity |].
  split.
  { rewrite chat_api_is_processed_kv, Hok. cbn [filter].
    rewrite eqb_append_l, eqb_append_l, String.eqb_refl. cbn [negb].
    rewrite existsb_removed. reflexivity. }
  intros other Hne _.
  rewrite !chat_api_is_processed_kv.
  destruct (url_ok (Idempotency.state_url self other));
    [| split; reflexivity].
  pose proof (get_key_differs other event_id Hne) as Hk.
  cbn [filter existsb].
  rewrite eqb_append_l, eqb_append_l, String.eqb_refl. cbn [negb].
  rewrite Hk, existsb_kept by exact Hk. cbn [orb]. split; reflexivity.
Qed.

End ChatApi.

Lemma marker_round_trip_witness :
  let cfg := Idempotency.mkConfig "3500" "statestore" 86400 in
  let self := Idempotency.new cfg in
  let env := kv_env "http://localhost:3500/v1.0/state/statestore"
               (mkdatetime 2024 1 31 0 0 0 0 None) "u-1" in
  let marked :=
    snd (run env (Idempotency.mark_processed cfg self "evt-1" None)
           ["processed:evt-2"]) in
  "evt-2" <> "evt-1"
  /\ snd (fst (run env (Idempotency.is_processed self "evt-1") marked))
     = Ok true
  /\ snd (fst (run env (Idempotency.is_processed self "evt-2") marked))
     = snd (fst (run env (Idempotency.is_processed self "evt-2")
                   ["processed:evt-2"])).
Proof.
  intros cfg self env marked.
  assert (Hne : "evt-2" <> "evt-1") by discriminate.
  destruct (marker_round_trip cfg self (mkdatetime 2024 1 31 0 0 0 0 None)
              "u-1" "evt-1" None ["processed:evt-2"] eq_refl eq_refl eq_refl)
    as (_ & Hread & _ & _ & Hother).
  split; [exact Hne |].
  split; [exact Hread | exact (proj1 (Hother "evt-2" Hne eq_refl))].
Defined.

Section Consumers.
Variable now : datetime.
Variable uuid : string.

Lemma consumer_get_store (st key : string) (keys : list string) :
  answer (store_env st now uuid) _ (HttpGet (st +++ "/" +++ key)) keys
  = (if existsb (String.eqb key) keys
     then Responded (mkResponse 200 "saved" None)
     else status_only 204, keys).
Proof. cbn [store_env answer]. rewrite lookup_under. reflexivity. Qed.

Lemma notification_state_url (chk : NotificationService.IdempotencyChecker)
    (event_id : string) :
  NotificationService.state_url chk event_id
  = (NotificationService.base_url chk +++ "/v1.0/state/"
     +++ NotificationService.store_name chk)
    +++ "/" +++ NotificationService._key event_id.
Proof.
  unfold NotificationService.state_url. rewrite !append_assoc. reflexivity.
Qed.

Lemma audit_state_url (chk : AuditService.IdempotencyChecker)
    (event_id : string) :
  AuditService.state_url chk event_id
  = (AuditService.base_url chk +++ "/v1.0/state/"
     +++ AuditService.store_name chk)
    +++ "/" +++ AuditService._key event_id.
Proof.
  unfold AuditService.state_url. rewrite !append_assoc. reflexivity.
Qed.

(** The run of [handle_reminder_event] on a marked event. *)
Lemma notification_duplicate_run (env : Env) (w : world env)
    (cfg : NotificationService.Config)
    (p : NotificationService.ReminderEventPayload) :
  let chk := NotificationService.idempotency_checker cfg in
  let eid := NotificationService.event_id p in
  let get := HttpGet (NotificationService.state_url chk eid) in
  url_ok (NotificationService.state_url chk eid) = true ->
  truthy (consumer_check (fst (answer env _ get w))) = true ->
  run env (NotificationService.handle_reminder_event cfg p) w
  = ([Called get (fst (answer env _ get w))],
     Ok (duplicate_result eid "Event already processed"),
     snd (answer env _ get w)).
Proof.
  intros chk eid get Hok Hdup.
  unfold NotificationService.handle_reminder_event.
  rewrite run_bind, notification_is_processed_run by exact Hok.
  fold chk eid get.
  cbv zeta. rewrite Hdup. reflexivity.
Qed.

(** The run of [handle_audit_event] on a marked event. *)
Lemma audit_duplicate_run (env : Env) (w : world env)
    (cfg : AuditService.Config) (py_str : Value -> string)
    (p : AuditService.TaskEventPayload) :
  let chk := AuditService.idempotency_checker cfg in
  let eid := AuditService.event_id p in
  let get := HttpGet (AuditService.state_url chk eid) in
  url_ok (AuditService.state_url chk eid) = true ->
  truthy (consumer_check (fst (answer env _ get w))) = true ->
  run env (AuditService.handle_audit_event cfg py_str p) w
  = ([Called get (fst (answer env _ get w))],
     Ok (duplicate_result eid "Event already audited"),
     snd (answer env _ get w)).
Proof.
  intros chk eid get Hok Hdup.
  unfold AuditService.handle_audit_event.
  rewrite run_bind, audit_is_processed_run by exact Hok.
  fold chk eid get.
  cbv zeta. rewrite Hdup. reflexivity.
Qed.

(** X16.  Against a working state store at a plain address, whatever the
    store held before, and for an event id made of letters, digits, [-] and
    [_] whose lookup address the HTTP client accepts: once
    [handle_reminder_event] has run for the event, a second delivery of it
    is answered [duplicate], posts nothing and leaves the store as it is;
    and the first run leaves the key of the event in the store. *)
Theorem notification_redelivery_is_duplicate
    (cfg : NotificationService.Config)
    (p : NotificationService.ReminderEventPayload) (keys : list string) :
  let chk := NotificationService.idempotency_checker cfg in
  let eid := NotificationService.event_id p in
  let env := store_env (NotificationService.base_url chk +++ "/v1.0/state/"
                        +++ NotificationService.store_name chk) now uuid in
  let first := run env (NotificationService.handle_reminder_event cfg p) keys in
  let second :=
    run env (NotificationService.handle_reminder_event cfg p) (snd first) in
  store_address (NotificationService.base_url chk)
    (NotificationService.store_name chk) = true ->
  PyStr.plain eid = true ->
  url_ok (NotificationService.state_url chk eid) = true ->
  existsb (String.eqb (NotificationService._key eid)) (snd first) = true
  /\ snd (fst second) = Ok (duplicate_result eid "Event already processed")
  /\ posted (fst (fst second)) = []
  /\ snd second = snd first.
Proof.
  intros chk eid env first second _ _ Hok.
  set (st := NotificationService.base_url chk +++ "/v1.0/state/"
             +++ NotificationService.store_name chk) in *.
  set (key := NotificationService._key eid).
  assert (Hget : forall ks,
            answer env _ (HttpGet (NotificationService.state_url chk eid)) ks
            = (if existsb (String.eqb key) ks
               then Responded (mkResponse 200 "saved" None)
               else status_only 204, ks)).
  { intros ks. unfold eid. rewrite notification_state_url.
    apply consumer_get_store. }
  assert (Hdup : forall ks,
            existsb (String.eqb key) ks = true ->
            run env (NotificationService.handle_reminder_event cfg p) ks
            = ([Called (HttpGet (NotificationService.state_url chk eid))
                  (Responded (mkResponse 200 "saved" None))],
               Ok (duplicate_result eid "Event already processed"), ks)).
  { intros ks Hin.
    pose proof (notification_duplicate_run env ks cfg p) as H.
    cbv zeta in H. fold chk eid in H. rewrite Hget, Hin in H.
    exact (H Hok eq_refl). }
  assert (Hfirst : existsb (String.eqb key) (snd first) = true).
  { subst first. destruct (existsb (String.eqb key) keys) eqn:Hin.
    - rewrite (Hdup keys Hin). exact Hin.
    - pose proof (store_env_world st now uuid
                    (NotificationService.handle_reminder_event cfg p) keys)
        as Hw.
      fold env in Hw. rewrite Hw. clear Hw.
      pose proof (notification_new_event_run env keys cfg p) as H.
      cbv zeta in H. fold chk eid in H. rewrite Hget, Hin in H.
      destruct (H Hok eq_refl) as (t & body & y & w' & Hrun & Hkey).
      rewrite Hrun. fold st. unfold saved_by.
      cbn [fst snd posted flat_map app fold_left].
      rewrite String.eqb_refl, Hkey. cbn [app existsb].
      fold key. rewrite String.eqb_refl. reflexivity. }
  split; [exact Hfirst |].
  subst second. rewrite (Hdup _ Hfirst). repeat split.
Qed.

(** [handle_audit_event] against a working store: a duplicate when the
    store holds the key, and otherwise one row and the key saved. *)
Lemma audit_store_run
    (cfg : AuditService.Config) (py_str : Value -> string)
    (p : AuditService.TaskEventPayload) (keys : list string) :
  let chk := AuditService.idempotency_checker cfg in
  let eid := AuditService.event_id p in
  let env := store_env (AuditService.base_url chk +++ "/v1.0/state/"
                        +++ AuditService.store_name chk) now uuid in
  let key := AuditService._key eid in
  url_ok (AuditService.state_url chk eid) = true ->
  (existsb (String.eqb key) keys = true ->
   run env (AuditService.handle_audit_event cfg py_str p) keys
   = ([Called (HttpGet (AuditService.state_url chk eid))
         (Responded (mkResponse 200 "saved" None))],
      Ok (duplicate_result eid "Event already audited"), keys))
  /\ (existsb (String.eqb key) keys = false ->
      exists calls r,
        run env (AuditService.handle_audit_event cfg py_str p) keys
        = (calls, r, key :: keys)
        /\ List.length (added calls) = 1%nat).
Proof.
  intros chk eid env key Hok.
  set (st := AuditService.base_url chk +++ "/v1.0/state/"
             +++ AuditService.store_name chk) in *.
  assert (Hget :
            answer env _ (HttpGet (AuditService.state_url chk eid)) keys
            = (if existsb (String.eqb key) keys
               then Responded (mkResponse 200 "saved" None)
               else status_only 204, keys)).
  { unfold eid. rewrite audit_state_url. apply consumer_get_store. }
  split; intros Hin.
  - pose proof (audit_duplicate_run env keys cfg py_str p) as H.
    cbv zeta in H. fold chk eid in H. rewrite Hget, Hin in H.
    exact (H Hok eq_refl).
  - pose proof (store_env_world st now uuid
                  (AuditService.handle_audit_event cfg py_str p) keys) as Hw.
    fold env in Hw.
    pose proof (audit_new_event_run env keys cfg py_str p) as H.
    cbv zeta in H. fold chk eid in H. rewrite Hget, Hin in H.
    destruct (H Hok eq_refl)
      as (pre & entry & received & t & body & y & w' & Hrun & _ & _ & _
          & Hpost & Hadd & _ & Hrest).
    rewrite Hrun in Hw |- *. fold st in Hw |- *. cbn [fst snd] in Hw.
    do 2 eexists. split.
    + f_equal. rewrite Hw. unfold saved_by.
      change (Called ?c ?x :: pre)%list with ([Called c x] ++ pre)%list.
      unfold posted. rewrite !flat_map_app. fold (posted pre). rewrite Hpost.
      cbn [flat_map app fold_left fst snd].
      rewrite String.eqb_refl.
      replace (saved_key body) with [key] by (symmetry; apply Hrest).
      reflexivity.
    + change (Called ?c ?x :: pre)%list with ([Called c x] ++ pre)%list.
      unfold added. rewrite !flat_map_app. fold (added pre). rewrite Hadd.
      reflexivity.
Qed.

(** X17.  Against a working state store at a plain address, and for an
    event id made of letters, digits, [-] and [_] whose lookup address the
    HTTP client accepts, two deliveries of one event to
    [handle_audit_event] add at most one row: the second delivery is
    answered [duplicate], adds no row and posts nothing; the first adds one
    row exactly when the store did not hold the key of the event. *)
Theorem audit_redelivery_adds_no_row
    (cfg : AuditService.Config) (py_str : Value -> string)
    (p : AuditService.TaskEventPayload) (keys : list string) :
  let chk := AuditService.idempotency_checker cfg in
  let eid := AuditService.event_id p in
  let env := store_env (AuditService.base_url chk +++ "/v1.0/state/"
                        +++ AuditService.store_name chk) now uuid in
  let first := run env (AuditService.handle_audit_event cfg py_str p) keys in
  let second :=
    run env (AuditService.handle_audit_event cfg py_str p) (snd first) in
  store_address (AuditService.base_url chk) (AuditService.store_name chk)
  = true ->
  PyStr.plain eid = true ->
  url_ok (AuditService.state_url chk eid) = true ->
  List.length (added (fst (fst first)))
  = (if existsb (String.eqb (AuditService._key eid)) keys then 0 else 1)%nat
  /\ snd (fst second) = Ok (duplicate_result eid "Event already audited")
  /\ added (fst (fst second)) = []
  /\ posted (fst (fst second)) = []
  /\ snd second = snd first.
Proof.
  intros chk eid env first second _ _ Hok.
  set (key := AuditService._key eid).
  assert (Hfirst :
            List.length (added (fst (fst first)))
            = (if existsb (String.eqb key) keys then 0 else 1)%nat
            /\ existsb (String.eqb key) (snd first) = true).
  { subst first.
    destruct (audit_store_run cfg py_str p keys Hok) as [Hdup Hnew].
    cbv zeta in Hdup, Hnew. fold chk eid key env in Hdup, Hnew.
    destruct (existsb (String.eqb key) keys) eqn:Hin.
    - rewrite (Hdup eq_refl). split; [reflexivity | exact Hin].
    - destruct (Hnew eq_refl) as (calls & r & -> & Hrows).
      cbn [fst snd existsb]. rewrite String.eqb_refl.
      split; [exact Hrows | reflexivity]. }
  destruct Hfirst as [Hrows Hin].
  split; [exact Hrows |].
  subst second.
  destruct (audit_store_run cfg py_str p (snd first) Hok) as [Hdup _].
  cbv zeta in Hdup. fold chk eid key env in Hdup.
  rewrite (Hdup Hin). repeat split.
Qed.

Lemma recurring_state_url (chk : RecurringTaskService.IdempotencyChecker)
    (event_id : string) :
  RecurringTaskService.state_url chk event_id
  = (RecurringTaskService.base_url chk +++ "/v1.0/state/"
     +++ RecurringTaskService.store_name chk)
    +++ "/" +++ RecurringTaskService._key event_id.
Proof.
  unfold RecurringTaskService.state_url. rewrite !append_assoc. reflexivity.
Qed.

(** X18.  The audit service and the recurring-task service receive the
    same events and may share one state store, at a plain address: for
    event ids made of letters, digits, [-] and [_], the marker that
    [handle_audit_event] writes for an event does not change what the
    recurring-task service's [is_processed] answers, for any event. *)
Theorem audit_marker_is_not_read_by_recurring
    (cfg : AuditService.Config) (py_str : Value -> string)
    (p : AuditService.TaskEventPayload)
    (rcfg : RecurringTaskService.Config) (keys : list string)
    (event_id : string) :
  let chk := AuditService.idempotency_checker cfg in
  let rchk := RecurringTaskService.idempotency_checker rcfg in
  let env := store_env (AuditService.base_url chk +++ "/v1.0/state/"
                        +++ AuditService.store_name chk) now uuid in
  let after :=
    snd (run env (AuditService.handle_audit_event cfg py_str p) keys) in
  RecurringTaskService.DAPR_HTTP_PORT rcfg = AuditService.DAPR_HTTP_PORT cfg ->
  RecurringTaskService.DAPR_STATE_STORE rcfg
  = AuditService.DAPR_STATE_STORE cfg ->
  store_address (AuditService.base_url chk) (AuditService.store_name chk)
  = true ->
  PyStr.plain (AuditService.event_id p) = true ->
  PyStr.plain event_id = true ->
  snd (fst (run env (RecurringTaskService.is_processed rchk event_id) after))
  = snd (fst (run env (RecurringTaskService.is_processed rchk event_id) keys)).
Proof.
  intros chk rchk env after Hport Hstore _ _ _.
  destruct (url_ok (RecurringTaskService.state_url rchk event_id)) eqn:Hrok;
    [| rewrite !recurring_is_processed_invalid by exact Hrok; reflexivity].
  assert (Hread : forall ks,
            snd (fst (run env (RecurringTaskService.is_processed rchk
                                 event_id) ks))
            = Ok (if existsb (String.eqb
                                (RecurringTaskService._key event_id)) ks
                  then VStr "saved" else VBool false)).
  { intros ks. rewrite recurring_is_processed_run by exact Hrok.
    cbn [fst snd].
    rewrite recurring_state_url.
    unfold rchk, RecurringTaskService.idempotency_checker.
    cbn [RecurringTaskService.base_url RecurringTaskService.store_name].
    rewrite Hport, Hstore.
    change ("http://localhost:" +++ AuditService.DAPR_HTTP_PORT cfg)
      with (AuditService.base_url chk).
    change (AuditService.DAPR_STATE_STORE cfg)
      with (AuditService.store_name chk).
    unfold env. rewrite consumer_get_store. cbn [fst].
    destruct (existsb _ ks); reflexivity. }
  rewrite !Hread. f_equal.
  subst after.
  destruct (url_ok (AuditService.state_url chk (AuditService.event_id p)))
    eqn:Hok.
  2: { unfold AuditService.handle_audit_event.
       rewrite run_bind, audit_is_processed_invalid by exact Hok.
       reflexivity. }
  destruct (audit_store_run cfg py_str p keys Hok) as [Hdup Hnew].
  cbv zeta in Hdup, Hnew. fold chk env in Hdup, Hnew.
  destruct (existsb (String.eqb (AuditService._key (AuditService.event_id p)))
              keys) eqn:Hin.
  - rewrite (Hdup eq_refl). reflexivity.
  - destruct (Hnew eq_refl) as (calls & r & -> & _).
    cbn [snd existsb]. reflexivity.
Qed.

End Consumers.

(** An empty store: the first delivery saves the key, the second is a
    duplicate. *)
Lemma notification_redelivery_is_duplicate_witness :
  let cfg := NotificationService.mkConfig "3500" "statestore" in
  let p := NotificationService.mkPayload "evt-1" "reminder.triggered"
             "2024-01-31T00:00:00Z" "user-1" "task-1" "Pay rent" None
             "2024-01-31T00:00:00Z" in
  let env := store_env "http://localhost:3500/v1.0/state/statestore"
               (mkdatetime 2024 1 31 0 0 0 0 None) "u-1" in
  let first := run env (NotificationService.handle_reminder_event cfg p) [] in
  let second :=
    run env (NotificationService.handle_reminder_event cfg p) (snd first) in
  snd first = ["notification-processed:evt-1"]
  /\ snd (fst second) = Ok (duplicate_result "evt-1" "Event already processed")
  /\ posted (fst (fst second)) = [].
Proof.
  intros cfg p env first second. split; [reflexivity |].
  destruct (notification_redelivery_is_duplicate
              (mkdatetime 2024 1 31 0 0 0 0 None) "u-1" cfg p []
              eq_refl eq_refl eq_refl)
    as (_ & Hdup & Hposted & _).
  split; [exact Hdup | exact Hposted].
Defined.

(** An empty store: the first delivery adds one row, the second none. *)
Lemma audit_redelivery_adds_no_row_witness :
  let cfg := AuditService.mkConfig "3500" "statestore" in
  let p := AuditService.mkPayload "evt-1" "task.completed"
             "2024-01-31T00:00:00Z" "user-1" "chat-api"
             [("id", VStr "task-1")] in
  let env := store_env "http://localhost:3500/v1.0/state/statestore"
               (mkdatetime 2024 1 31 0 0 0 0 None) "row-1" in
  let first :=
    run env (AuditService.handle_audit_event cfg (fun _ => "task-1") p) [] in
  let second :=
    run env (AuditService.handle_audit_event cfg (fun _ => "task-1") p)
      (snd first) in
  List.length (added (fst (fst first))) = 1%nat
  /\ snd (fst second) = Ok (duplicate_result "evt-1" "Event already audited")
  /\ added (fst (fst second)) = [].
Proof.
  intros cfg p env first second.
  destruct (audit_redelivery_adds_no_row
              (mkdatetime 2024 1 31 0 0 0 0 None) "row-1" cfg
              (fun _ => "task-1") p [] eq_refl eq_refl eq_refl)
    as (Hrows & Hdup & Hadded & _).
  split; [exact Hrows |]. split; [exact Hdup | exact Hadded].
Defined.

Lemma audit_marker_is_not_read_by_recurring_witness :
  let env := store_env "http://localhost:3500/v1.0/state/statestore"
               (mkdatetime 2024 1 31 0 0 0 0 None) "row-1" in
  let rchk := RecurringTaskService.idempotency_checker
                (RecurringTaskService.mkConfig "3500" "statestore"
                   "chat-api") in
  let after :=
    snd (run env
           (AuditService.handle_audit_event
              (AuditService.mkConfig "3500" "statestore") (fun _ => "task-1")
              (AuditService.mkPayload "evt-1" "task.completed"
                 "2024-01-31T00:00:00Z" "user-1" "chat-api"
                 [("id", VStr "task-1")])) []) in
  after = ["audit-processed:evt-1"]
  /\ snd (fst (run env (RecurringTaskService.is_processed rchk "evt-1") after))
     = Ok (VBool false).
Proof.
  intros env rchk after. split; [reflexivity |].
  refine (eq_trans
            (audit_marker_is_not_read_by_recurring
               (mkdatetime 2024 1 31 0 0 0 0 None) "row-1"
             (AuditService.mkConfig "3500" "statestore") (fun _ => "task-1")
             (AuditService.mkPayload "evt-1" "task.completed"
                "2024-01-31T00:00:00Z" "user-1" "chat-api"
                [("id", VStr "task-1")])
             (RecurringTaskService.mkConfig "3500" "statestore" "chat-api")
             [] "evt-1" eq_refl eq_refl eq_refl eq_refl eq_refl) _).
  reflexivity.
Defined.

End MarkerRoundTrip.

(** ** Runs of the publisher *)

Section PublisherRuns.
Import Datetime Py ProgFacts Events Spec.

Variable cfg : Config.

(** A run of the loop with a successful attempt: it is the last call of
    the run; the attempts before it failed and were each followed by their
    wait, none of which overflowed. *)
Lemma publish_attempts_success (env : Env) (topic : string) (event : Value) :
  forall (attempts : list Z) (last_error : option string) (w : world env)
         calls out w',
    run env (publish_attempts cfg topic event attempts last_error) w
    = (calls, out, w') ->
    forallb post_failed calls = false ->
    exists pre a post before x,
      attempts = (pre ++ a :: post)%list
      /\ calls
         = (before
            ++ [Called (HttpPost (publish_url cfg topic) event
                          [("Content-Type", "application/json")]) x])%list
      /\ failed x = false
      /\ forallb post_failed before = true
      /\ out = Ok event
      /\ forallb (fun k => negb (overflows cfg k)) pre = true
      /\ steps before = failing_steps cfg pre
      /\ slept before
         = List.map (backoff_delay cfg)
             (filter (fun a => a <? MAX_RETRIES cfg) pre).
Proof.
  induction attempts as [| attempt rest IH];
    intros last_error w calls out w' Hrun Hsome.
  - cbn in Hrun. injection Hrun as <- _ _. discriminate.
  - cbn [publish_attempts] in Hrun.
    rewrite run_perform_bind in Hrun.
    set (e := HttpPost (publish_url cfg topic) event
                [("Content-Type", "application/json")]) in *.
    set (x := fst (answer env _ e w)) in *.
    set (w1 := snd (answer env _ e w)) in *.
    clearbody x w1.
    assert (Hloop :
      forall last_error',
        failed x = true ->
        (let '(c2, r, w2) :=
           run env (bind (backoff cfg attempt)
                      (fun _ => publish_attempts cfg topic event rest
                                  last_error')) w1 in
         (Called e x :: c2, r, w2)) = (calls, out, w') ->
        exists pre a post before y,
          attempt :: rest = (pre ++ a :: post)%list
          /\ calls = (before ++ [Called e y])%list
          /\ failed y = false
          /\ forallb post_failed before = true
          /\ out = Ok event
          /\ forallb (fun k => negb (overflows cfg k)) pre = true
          /\ steps before = failing_steps cfg pre
          /\ slept before
             = List.map (backoff_delay cfg)
                 (filter (fun a => a <? MAX_RETRIES cfg) pre)).
    { intros last_error' Hfail H.
      rewrite run_bind in H.
      destruct (overflows cfg attempt) eqn:Hov.
      { rewrite (backoff_overflow cfg env w1 attempt Hov) in H.
        injection H as <- _ _.
        cbn [forallb post_failed e] in Hsome. rewrite Hfail in Hsome.
        discriminate. }
      destruct (backoff_run cfg env w1 attempt Hov)
        as (cb & wb & Hb & _ & _ & Hbf & Hbs & Hbz).
      rewrite Hb in H.
      destruct (run env (publish_attempts cfg topic event rest last_error') wb)
        as [[c2 r2] w2] eqn:Hrest.
      injection H as <- <- <-.
      change (Called e x :: (cb ++ c2)%list)
        with ([Called e x] ++ (cb ++ c2))%list in Hsome.
      rewrite !forallb_app, Hbf in Hsome.
      cbn [forallb post_failed e andb] in Hsome. rewrite Hfail in Hsome.
      cbn [andb] in Hsome.
      destruct (IH _ _ _ _ _ Hrest Hsome)
        as (pre & a & post & before & y & -> & -> & Hy & Hbefore & Hout
            & Hno & Hst & Hsl).
      exists (attempt :: pre), a, post, (Called e x :: cb ++ before)%list, y.
      split; [reflexivity |].
      split; [cbn [app]; rewrite <- app_assoc; reflexivity |].
      split; [exact Hy |].
      split.
      { change (Called e x :: cb ++ before)%list
          with ([Called e x] ++ (cb ++ before))%list.
        rewrite !forallb_app, Hbf, Hbefore.
        cbn [forallb post_failed e andb]. rewrite Hfail. reflexivity. }
      split; [exact Hout |].
      split; [cbn [forallb]; rewrite Hov, Hno; reflexivity |].
      change (Called e x :: cb ++ before)%list
        with ([Called e x] ++ (cb ++ before))%list.
      rewrite !steps_app, !slept_app, Hbs, Hbz, Hst, Hsl.
      cbn [steps slept flat_map e app failing_steps filter].
      destruct (attempt <? MAX_RETRIES cfg); split; reflexivity. }
    destruct x as [response | detail].
    + destruct (success_status (status_code response)) eqn:Hs.
      * cbn in Hrun. injection Hrun as <- <- _.
        exists [], attempt, rest, [], (Responded response).
        cbn [failed]. rewrite Hs. repeat split.
      * eapply Hloop; [cbn; rewrite Hs; reflexivity | exact Hrun].
    + eapply Hloop; [reflexivity | exact Hrun].
Qed.

(** A prefix of [f 0, f 1, ...] is [f 0, ..., f (k-1)], and the element
    after it is [f k]. *)
Lemma map_seq_prefix {A : Type} (f : nat -> A) :
  forall (pre : list A) (a : A) (post : list A) (s n : nat),
    List.map f (seq s n) = (pre ++ a :: post)%list ->
    pre = List.map f (seq s (List.length pre))
    /\ a = f (s + List.length pre)%nat
    /\ (List.length pre < n)%nat.
Proof.
  induction pre as [| x pre IH]; intros a post s n H.
  - destruct n as [| n]; [discriminate |].
    cbn in H. injection H as <- _.
    cbn. rewrite Nat.add_0_r. repeat split. lia.
  - destruct n as [| n]; [discriminate |].
    cbn in H. injection H as <- H.
    destruct (IH _ _ _ _ H) as (Hpre & Ha & Hn).
    cbn [List.length seq List.map]. rewrite <- Hpre.
    repeat split; [| lia].
    rewrite Ha. f_equal. lia.
Qed.

(** The requests posted in a run are its attempts. *)
Lemma posted_count (calls : list Call) :
  List.length (posted calls)
  = List.length (filter (fun s => match s with Attempt => true
                                        | Wait _ => false end)
                   (steps calls)).
Proof.
  induction calls as [| [X e x] cs IHc]; [reflexivity |].
  change (Called e x :: cs) with ([Called e x] ++ cs)%list.
  rewrite posted_app, steps_app, filter_app, !length_app, IHc.
  destruct e; reflexivity.
Qed.

Lemma attempts_of_pairs (l : list Z) :
  List.length (filter (fun s => match s with Attempt => true
                                      | Wait _ => false end)
                 (flat_map (fun k => [Attempt; Wait (backoff_delay cfg k)]) l))
  = List.length l.
Proof.
  induction l as [| k l IHl]; [reflexivity |].
  cbn [flat_map app filter List.length]. rewrite IHl. reflexivity.
Qed.

(** The successful attempt of a run of the whole publisher, and what
    precedes it. *)
Lemma publish_event_success_run
    (env : Env) (w : world env) (topic event_type user_id : string)
    (payload : Value) (event_id : option string) calls out w' :
  DAPR_ENABLED cfg = true ->
  run env (publish_event cfg topic event_type user_id payload event_id) w
  = (calls, out, w') ->
  forallb post_failed calls = false ->
  exists n before event x,
    1 <= n <= MAX_RETRIES cfg /\ n <= 1025
    /\ calls
       = (before
          ++ [Called (HttpPost (publish_url cfg topic) event
                        [("Content-Type", "application/json")]) x])%list
    /\ failed x = false
    /\ forallb post_failed before = true
    /\ out = Ok event
    /\ List.length (posted before) = Z.to_nat (n - 1)
    /\ steps before
       = flat_map (fun k => [Attempt; Wait (backoff_delay cfg k)]) (range 1 n)
    /\ slept before = List.map (backoff_delay cfg) (range 1 n).
Proof.
  intros Hen Hrun Hsome.
  destruct (build_event_run env w event_type user_id payload event_id)
    as (event & eid & c0 & w0 & Hb & _ & Hp0 & Hs0 & Hz0 & Hf0 & _).
  rewrite (publish_event_run cfg env w topic _ _ _ _ c0 event w0 Hb), Hen
    in Hrun.
  destruct (run env (publish_attempts cfg topic event
                       (range 1 (MAX_RETRIES cfg + 1)) None) w0)
    as [[c1 r] w1] eqn:Hloop.
  injection Hrun as <- <- _.
  rewrite forallb_app, Hf0 in Hsome. cbn [andb] in Hsome.
  destruct (publish_attempts_success env topic event _ _ _ _ _ _ Hloop Hsome)
    as (pre & a & post & before & x & Hsplit & -> & Hx & Hbefore & Hout & Hno
        & Hst & Hsl).
  unfold range in Hsplit.
  destruct (map_seq_prefix _ _ _ _ _ _ Hsplit) as (Hpre & Ha & Hlen).
  cbn [Nat.add] in Ha.
  assert (Hrange : pre = range 1 a).
  { unfold range. rewrite Hpre at 1. do 2 f_equal. lia. }
  assert (Hbelow : filter (fun k => k <? MAX_RETRIES cfg) pre = pre).
  { rewrite Hpre. apply filter_below. lia. }
  assert (Hwaits : failing_steps cfg pre
                   = flat_map (fun k => [Attempt; Wait (backoff_delay cfg k)])
                       pre).
  { unfold failing_steps. revert Hbelow. clear.
    induction pre as [| k pre IHp]; intros Hbelow; [reflexivity |].
    assert (Hk : (k <? MAX_RETRIES cfg) = true).
    { assert (Hin : In k (filter (fun k => k <? MAX_RETRIES cfg) (k :: pre)))
        by (rewrite Hbelow; left; reflexivity).
      apply filter_In in Hin. exact (proj2 Hin). }
    cbn [filter] in Hbelow. rewrite Hk in Hbelow.
    injection Hbelow as Hbelow.
    cbn [flat_map]. rewrite Hk, (IHp Hbelow). reflexivity. }
  assert (Ha1 : 1 <= a <= MAX_RETRIES cfg) by lia.
  assert (Ha2 : a <= 1025).
  { destruct (Z.le_gt_cases a 1025) as [Hle | Hgt]; [exact Hle |].
    assert (Hin : In 1025 pre).
    { rewrite Hrange. unfold range. apply in_map_iff.
      exists (Z.to_nat 1024). split; [lia |]. apply in_seq. lia. }
    rewrite forallb_forall in Hno. specialize (Hno _ Hin).
    unfold overflows in Hno.
    destruct (Z.ltb_spec 1025 (MAX_RETRIES cfg)); [| lia].
    discriminate. }
  exists a, (c0 ++ before)%list, event, x.
  split; [exact Ha1 |]. split; [exact Ha2 |].
  split; [rewrite app_assoc; reflexivity |].
  split; [exact Hx |].
  split; [rewrite forallb_app, Hf0, Hbefore; reflexivity |].
  split; [exact Hout |].
  assert (Hsteps : steps (c0 ++ before)
                   = flat_map (fun k => [Attempt; Wait (backoff_delay cfg k)])
                       (range 1 a)).
  { rewrite steps_app, Hs0, Hst, Hwaits, <- Hrange. reflexivity. }
  split.
  { rewrite posted_count, Hsteps, attempts_of_pairs, range_length.
    reflexivity. }
  split; [exact Hsteps |].
  rewrite slept_app, Hz0, Hsl, Hbelow, <- Hrange. reflexivity.
Qed.

(** X19.  With Dapr enabled and delays that are finite floats, a publish
    in which some attempt succeeds ends with that attempt: the successful request is the last call of the run
    (no request and no wait follows it) and the envelope it posted is
    returned.  It is the [n]-th attempt, with [n <= MAX_RETRIES] and
    [n <= 1025]; everything before it failed: the attempts 1 to [n - 1],
    each followed by its wait of [RETRY_DELAY_SECONDS * 2^(k-1)]. *)
Theorem publish_event_stops_at_first_success
    (env : Env) (w : world env) (topic event_type user_id : string)
    (payload : Value) (event_id : option string) calls out w' :
  DAPR_ENABLED cfg = true ->
  delays_finite cfg = true ->
  run env (publish_event cfg topic event_type user_id payload event_id) w
  = (calls, out, w') ->
  forallb post_failed calls = false ->
  exists n before event x,
    1 <= n <= MAX_RETRIES cfg /\ n <= 1025
    /\ calls
       = (before
          ++ [Called (HttpPost (publish_url cfg topic) event
                        [("Content-Type", "application/json")]) x])%list
    /\ failed x = false
    /\ forallb post_failed before = true
    /\ out = Ok event
    /\ List.length (posted before) = Z.to_nat (n - 1)
    /\ steps before
       = flat_map (fun k => [Attempt; Wait (backoff_delay cfg k)]) (range 1 n)
    /\ slept before = List.map (backoff_delay cfg) (range 1 n).
Proof.
  intros Hen _.
  exact (publish_event_success_run env w topic event_type user_id payload
           event_id calls out w' Hen).
Qed.

Lemma total_app (a b : list Q) :
  (fold_right Qplus 0 (a ++ b) == fold_right Qplus 0 a + fold_right Qplus 0 b)%Q.
Proof.
  induction a as [| x a IH]; cbn [app fold_right].
  - rewrite Qplus_0_l. reflexivity.
  - rewrite IH. apply Qplus_assoc.
Qed.

(** [d + 2d + ... + 2^(k-1) d = (2^k - 1) d] *)
Lemma backoff_sum (k : nat) :
  (fold_right Qplus 0
     (List.map (backoff_delay cfg)
        (List.map (fun i => (1 + Z.of_nat i)%Z) (seq 0 k)))
   == RETRY_DELAY_SECONDS cfg * inject_Z (2 ^ Z.of_nat k - 1)%Z)%Q.
Proof.
  induction k as [| k IH].
  - cbn. rewrite Qmult_0_r. reflexivity.
  - rewrite seq_S, !map_app, total_app, IH. cbn [List.map fold_right Nat.add].
    unfold backoff_delay.
    replace (1 + Z.of_nat k - 1) with (Z.of_nat k) by lia.
    replace (2 ^ Z.of_nat (S k) - 1)
      with ((2 ^ Z.of_nat k - 1) + 2 ^ Z.of_nat k)
      by (rewrite Nat2Z.inj_succ, Z.pow_succ_r by lia; lia).
    rewrite inject_Z_plus. ring.
Qed.

(** X20.  With Dapr enabled, delays that are finite floats and at least
    one attempt allowed, a publish makes some number [n] of attempts, [1 <= n <= MAX_RETRIES] and
    [n <= 1025], and has waited [RETRY_DELAY_SECONDS * (2^(n-1) - 1)] in
    total when it ends; when every attempt fails, [n] is the smaller of
    [MAX_RETRIES] and 1025 (1.5 s waited with the defaults). *)
Theorem publish_event_total_wait
    (env : Env) (w : world env) (topic event_type user_id : string)
    (payload : Value) (event_id : option string) calls out w' :
  DAPR_ENABLED cfg = true ->
  delays_finite cfg = true ->
  1 <= MAX_RETRIES cfg ->
  run env (publish_event cfg topic event_type user_id payload event_id) w
  = (calls, out, w') ->
  exists n,
    1 <= n <= MAX_RETRIES cfg /\ n <= 1025
    /\ List.length (posted calls) = Z.to_nat n
    /\ (forallb post_failed calls = true -> n = Z.min (MAX_RETRIES cfg) 1025)
    /\ (total_wait calls
        == RETRY_DELAY_SECONDS cfg * inject_Z (2 ^ (n - 1) - 1)%Z)%Q.
Proof.
  intros Hen _ Hmax Hrun.
  assert (Hsum : forall n,
            1 <= n ->
            (fold_right Qplus 0 (List.map (backoff_delay cfg) (range 1 n))
             == RETRY_DELAY_SECONDS cfg * inject_Z (2 ^ (n - 1) - 1)%Z)%Q).
  { intros n Hn. unfold range. rewrite backoff_sum.
    rewrite Z2Nat.id by lia. reflexivity. }
  destruct (forallb post_failed calls) eqn:Hall.
  - destruct (build_event_run env w event_type user_id payload event_id)
      as (event & eid & c0 & w0 & Hb & _ & Hp0 & Hs0 & Hz0 & Hf0 & _).
    rewrite (publish_event_run cfg env w topic _ _ _ _ c0 event w0 Hb), Hen
      in Hrun.
    destruct (run env (publish_attempts cfg topic event
                         (range 1 (MAX_RETRIES cfg + 1)) None) w0)
      as [[c1 r] w1] eqn:Hloop.
    injection Hrun as <- _ _.
    unfold total_wait.
    rewrite forallb_app, Hf0 in Hall. cbn [andb] in Hall.
    rewrite posted_app, slept_app, Hp0, Hz0. cbn [app].
    destruct (Z.le_gt_cases (MAX_RETRIES cfg) 1025) as [Hle | Hgt].
    + destruct (publish_attempts_run cfg env topic event _ _ _ _ _ _ Hloop)
        as (_ & _ & _ & Hfail & _).
      destruct (Hfail Hall (range_no_overflow cfg Hle)) as (Hlen & _ & Hsl & _).
      exists (MAX_RETRIES cfg).
      rewrite Hlen, Hsl, range_length, range_waits.
      split; [lia |]. split; [exact Hle |]. split; [f_equal; lia |].
      split; [intros _; lia |].
      apply Hsum. exact Hmax.
    + rewrite (range_app 1 1025 (MAX_RETRIES cfg + 1)) in Hloop by lia.
      rewrite (range_cons 1025 (MAX_RETRIES cfg + 1)) in Hloop by lia.
      assert (Hpre : forallb (fun k => (k <? MAX_RETRIES cfg)
                                       && negb (overflows cfg k))
                       (range 1 1025) = true).
      { apply forallb_forall. intros k Hk.
        apply range_in in Hk. unfold overflows.
        destruct (Z.ltb_spec k (MAX_RETRIES cfg)); [| lia].
        destruct (Z.leb_spec 1024 (k - 1)); [lia | reflexivity]. }
      assert (Hov : overflows cfg 1025 = true).
      { unfold overflows.
        destruct (Z.ltb_spec 1025 (MAX_RETRIES cfg)); [| lia].
        reflexivity. }
      destruct (publish_attempts_overflow cfg env topic event _ _ _ _ _ _ _ _
                  Hpre Hov Hloop Hall)
        as (Hlen & _ & Hsl & _).
      exists 1025.
      rewrite Hlen, Hsl, range_length.
      split; [lia |]. split; [lia |]. split; [reflexivity |].
      split; [intros _; lia |].
      apply Hsum. lia.
  - destruct (publish_event_success_run env w topic event_type user_id payload
                event_id calls out w' Hen Hrun Hall)
      as (n & before & event & x & Hn & Hn' & -> & _ & _ & _ & Hlen & _ & Hsl).
    exists n. unfold total_wait.
    rewrite posted_app, slept_app, length_app, Hlen, Hsl.
    cbn [posted slept flat_map app List.length]. rewrite app_nil_r.
    split; [exact Hn |]. split; [exact Hn' |].
    split; [lia |].
    split; [discriminate |].
    apply Hsum. lia.
Qed.

End PublisherRuns.

(** The broker fails once and then accepts: two attempts, one wait of
    0.5 s between them, nothing after the second. *)
Lemma publish_event_stops_at_first_success_witness :
  let env := Py.flaky_env 1 (Datetime.mkdatetime 2024 1 31 0 0 0 0 None)
               "u-1" in
  let r := Py.run env
             (Events.publish_event Events.default_config "task-events"
                "task.created" "user-1" (Py.VDict []) None) O in
  Events.steps (fst (fst r))
  = [ Events.Attempt;
      Events.Wait (Events.backoff_delay Events.default_config 1);
      Events.Attempt ]
  /\ exists n before event x,
       1 <= n <= 3 /\ n <= 1025
       /\ fst (fst r)
          = (before
             ++ [Py.Called
                   (Py.HttpPost
                      (Events.publish_url Events.default_config "task-events")
                      event [("Content-Type", "application/json")]) x])%list
       /\ Events.failed x = false
       /\ forallb Events.post_failed before = true
       /\ snd (fst r) = Ok event
       /\ List.length (Py.posted before) = Z.to_nat (n - 1)
       /\ Events.steps before
          = flat_map (fun k => [ Events.Attempt;
                                 Events.Wait (Events.backoff_delay
                                                Events.default_config k) ])
              (Py.range 1 n)
       /\ Py.slept before
          = List.map (Events.backoff_delay Events.default_config)
              (Py.range 1 n).
Proof.
  intros env r. split; [reflexivity |].
  exact (publish_event_stops_at_first_success Events.default_config env O
           "task-events" "task.created" "user-1" (Py.VDict []) None
           (fst (fst r)) (snd (fst r)) (snd r) eq_refl eq_refl eq_refl
           eq_refl).
Defined.

(** The broker is down: three attempts, 1.5 s waited in all. *)
Lemma publish_event_total_wait_witness :
  let env := Py.const_env (Py.status_only 204) (Py.status_only 503)
               (Py.status_only 204)
               (Datetime.mkdatetime 2024 1 31 0 0 0 0 None) "u-1" in
  let r := Py.run env
             (Events.publish_event Events.default_config "task-events"
                "task.created" "user-1" (Py.VDict []) None) tt in
  (Spec.total_wait (fst (fst r)) == 3 # 2)%Q
  /\ exists n,
       1 <= n <= 3 /\ n <= 1025
       /\ List.length (Py.posted (fst (fst r))) = Z.to_nat n
       /\ (forallb Events.post_failed (fst (fst r)) = true -> n = 3)
       /\ (Spec.total_wait (fst (fst r))
           == (1 # 2) * inject_Z (2 ^ (n - 1) - 1)%Z)%Q.
Proof.
  intros env r. split; [reflexivity |].
  exact (publish_event_total_wait Events.default_config env tt
           "task-events" "task.created" "user-1" (Py.VDict []) None
           (fst (fst r)) (snd (fst r)) (snd r) eq_refl eq_refl
           ltac:(cbn; lia) eq_refl).
Defined.

(** ** Timestamps written and read back *)

Section TimestampRoundTrip.
Import Datetime Py ProgFacts Spec StrFacts.

Lemma take_digits_uint (d : Decimal.uint) :
  forall acc rest,
    take_digits (Decimal.nb_digits d)
      (NilEmpty.string_of_uint d +++ rest) acc
    = Some (PyStr.uint_value d acc, rest).
Proof.
  induction d; intros acc rest;
    cbn [Decimal.nb_digits NilEmpty.string_of_uint String.append take_digits
           PyStr.uint_value];
    [reflexivity | apply IHd ..].
Qed.

Lemma take_digits_zeros (k n : nat) (s : string) :
  take_digits (k + n) (zeros k +++ s) 0 = take_digits n s 0.
Proof.
  induction k as [| k IH]; [reflexivity |].
  cbn [Nat.add zeros String.append take_digits]. exact IH.
Qed.

Lemma pad_zeros (w : nat) (z : Z) :
  PyStr.pad w z
  = zeros (w - String.length (PyStr.of_int z)) +++ PyStr.of_int z.
Proof.
  reflexivity.
Qed.

(** Reading back a zero-padded field. *)
Lemma take_digits_pad (w : nat) (v : Z) (rest : string) :
  (1 <= w)%nat ->
  0 <= v < 10 ^ Z.of_nat w ->
  take_digits w (PyStr.pad w v +++ rest) 0 = Some (v, rest).
Proof.
  intros Hw Hv. rewrite pad_zeros, append_assoc.
  destruct v as [| p | p]; [| | lia].
  - change (PyStr.of_int 0) with "0". cbn [String.length].
    pose proof (take_digits_zeros (w - 1) 1 ("0" +++ rest)) as H.
    replace (w - 1 + 1)%nat with w in H by lia.
    rewrite H. reflexivity.
  - rewrite of_int_pos, string_of_uint_length.
    pose proof (to_uint_digits p w (proj2 Hv)) as Hlen.
    pose proof (take_digits_zeros (w - Decimal.nb_digits (Pos.to_uint p))
                  (Decimal.nb_digits (Pos.to_uint p))
                  (NilEmpty.string_of_uint (Pos.to_uint p) +++ rest)) as H.
    replace (w - Decimal.nb_digits (Pos.to_uint p)
             + Decimal.nb_digits (Pos.to_uint p))%nat with w in H by lia.
    rewrite H, take_digits_uint.
    rewrite uint_value_of_uint, Unsigned.of_to. reflexivity.
Qed.

Lemma append_nil_r (a : string) : a +++ "" = a.
Proof. induction a as [| c a IH]; cbn; [reflexivity | rewrite IH; reflexivity]. Qed.

(** Reading the text of a naive [datetime] followed by [tail], when
    [tail] does not begin like a fraction of a second. *)
Lemma parse_iso_isoformat (d : datetime) (tail : string) :
  valid d = true -> tzinfo d = None ->
  match tail with String "." _ => False | _ => True end ->
  parse_iso (isoformat d +++ tail)
  = obind (parse_offset tail) (fun tz => Some (with_tz d tz)).
Proof.
  intros Hvalid Htz Htail.
  destruct d as [y m dd h mi sec us tz]. cbn [tzinfo] in Htz. subst tz.
  unfold valid in Hvalid.
  cbn [year month day hour minute second microsecond] in Hvalid.
  unfold MINYEAR, MAXYEAR in Hvalid.
  repeat rewrite andb_true_iff in Hvalid.
  repeat match goal with
         | H : _ /\ _ |- _ => destruct H
         end.
  repeat match goal with
         | H : (_ <=? _) = true |- _ => apply Z.leb_le in H
         | H : (_ <? _) = true |- _ => apply Z.ltb_lt in H
         end.
  pose proof (CalendarOrder.days_in_month_bounds y m ltac:(lia)) as Hdim.
  unfold isoformat, parse_iso, parse_date, with_tz.
  cbn [year month day hour minute second microsecond tzinfo].
  repeat (rewrite append_assoc; cbn [String.append]).
  rewrite take_digits_pad by (cbn; lia).
  cbn [obind expect String.append]; rewrite ?Ascii.eqb_refl; cbn [obind].
  rewrite take_digits_pad by (cbn; lia).
  cbn [obind expect String.append]; rewrite ?Ascii.eqb_refl; cbn [obind].
  rewrite take_digits_pad by (cbn; lia).
  cbn [obind expect String.append]; rewrite ?Ascii.eqb_refl; cbn [obind].
  unfold parse_time.
  rewrite take_digits_pad by (cbn; lia).
  cbn [obind expect String.append]; rewrite ?Ascii.eqb_refl; cbn [obind].
  rewrite take_digits_pad by (cbn; lia).
  cbn [obind expect String.append]; rewrite ?Ascii.eqb_refl; cbn [obind].
  rewrite take_digits_pad by (cbn; lia).
  cbn [obind].
  destruct (Z.eqb_spec us 0) as [-> | Hus].
  - cbn [String.append].
    assert (Hf : parse_fraction tail = Some (0, tail)).
    { destruct tail as [| c r]; [reflexivity |].
      destruct c as [[] [] [] [] [] [] [] []]; try reflexivity.
      contradiction. }
    rewrite Hf. reflexivity.
  - cbn [String.append parse_fraction].
    rewrite take_digits_pad by (cbn; lia). reflexivity.
Qed.

(** [fromisoformat] reads back what [isoformat] writes, for a naive
    [datetime]. *)
Lemma fromisoformat_isoformat (d : datetime) :
  valid d = true -> tzinfo d = None -> fromisoformat (isoformat d) = Ok d.
Proof.
  intros Hvalid Htz. unfold fromisoformat.
  pose proof (parse_iso_isoformat d "" Hvalid Htz I) as Hparse.
  rewrite append_nil_r in Hparse. rewrite Hparse. cbn [parse_offset obind].
  destruct d as [y m dd h mi sec us tz]. cbn [tzinfo] in Htz. subst tz.
  unfold with_tz. cbn [year month day hour minute second microsecond].
  rewrite Hvalid. reflexivity.
Qed.

(** The same text with a UTC offset reads as the aware value. *)
Lemma fromisoformat_isoformat_utc (d : datetime) :
  valid d = true -> tzinfo d = None ->
  fromisoformat (isoformat d +++ "+00:00") = Ok (with_tz d (Some 0)).
Proof.
  intros Hvalid Htz. unfold fromisoformat.
  rewrite (parse_iso_isoformat d "+00:00" Hvalid Htz I).
  cbn [obind]. change (parse_offset "+00:00") with (Some (Some 0)).
  cbn [obind].
  replace (valid (with_tz d (Some 0))) with (valid d) by reflexivity.
  rewrite Hvalid. reflexivity.
Qed.

Lemma rev_acc_append (a b acc : string) :
  PyStr.rev_acc (a +++ b) acc = PyStr.rev_acc b (PyStr.rev_acc a acc).
Proof.
  revert acc. induction a as [| c a IH]; intros acc; cbn; [reflexivity |].
  apply IH.
Qed.

Lemma endswith_z (a : string) : PyStr.endswith (a +++ "Z") "Z" = true.
Proof.
  unfold PyStr.endswith, PyStr.rev. rewrite rev_acc_append. reflexivity.
Qed.

Lemma drop_last_z (a : string) : PyStr.drop_last (a +++ "Z") = a.
Proof.
  induction a as [| c a IH]; [reflexivity |].
  cbn [String.append PyStr.drop_last]. rewrite IH.
  destruct a; reflexivity.
Qed.

(** X21.  The timestamp that the publisher writes into an envelope is read
    back by the audit service as the publisher's clock reading: for the
    envelope built by [_build_event], [parse_timestamp] on its [timestamp]
    field returns the instant the publisher read, without falling back to
    the audit service's own clock. *)
Theorem audit_reads_publisher_timestamp
    (env : Env) (w : world env) (event_type user_id : string)
    (payload : Value) (event_id : option string)
    (c0 : list Call) (event : Value) (w0 : world env) :
  run env (Events._build_event event_type user_id payload event_id) w
  = (c0, Ok event, w0) ->
  exists now text,
    clock c0 = [now]
    /\ envelope_field event "timestamp" = VStr text
    /\ (valid now = true -> tzinfo now = None ->
        AuditService.parse_timestamp text = Ret now).
Proof.
  intros Hrun.
  assert (Hread : forall now,
            valid now = true -> tzinfo now = None ->
            AuditService.parse_timestamp (isoformat now +++ "Z") = Ret now).
  { intros now Hvalid Htz. unfold AuditService.parse_timestamp.
    rewrite endswith_z, drop_last_z, (fromisoformat_isoformat now Hvalid Htz).
    reflexivity. }
  unfold Events._build_event, Events.event_id_or_fresh in Hrun.
  destruct event_id as [s |]; [destruct (PyStr.truthy s) |];
    cbn [bind] in Hrun;
    repeat rewrite run_perform_bind in Hrun; cbn [run] in Hrun;
    injection Hrun as <- <- _;
    do 2 eexists; (split; [reflexivity |]);
    (split; [reflexivity | apply Hread]).
Qed.

Lemma audit_reads_publisher_timestamp_witness :
  let now := mkdatetime 2024 1 31 8 30 0 250000 None in
  let env := const_env (status_only 204) (status_only 204) (status_only 204)
               now "u-1" in
  exists text,
    envelope_field
      (match snd (fst (run env (Events._build_event "task.created" "user-1"
                                  (VDict []) None) tt)) with
       | Ok event => event
       | Err _ => VNone
       end) "timestamp" = VStr text
    /\ AuditService.parse_timestamp text = Ret now.
Proof.
  intros now env.
  destruct (audit_reads_publisher_timestamp env tt "task.created" "user-1"
              (VDict []) None _ _ _ eq_refl)
    as (now' & text & Hin & Hfield & Hread).
  exists text. split; [exact Hfield |].
  assert (Hnow : now' = now).
  { cbn in Hin. injection Hin as Hin. symmetry. exact Hin. }
  subst now'. apply Hread; reflexivity.
Defined.

(** The text of an aware UTC value followed by ["Z"]. *)
Lemma isoformat_utc_z (d : datetime) :
  tzinfo d = Some 0 ->
  isoformat d +++ "Z" = isoformat (with_tz d None) +++ "+00:00Z".
Proof.
  intros Htz. destruct d as [y m dd h mi sec us tz].
  cbn [tzinfo] in Htz. subst tz.
  unfold isoformat, with_tz.
  cbn [year month day hour minute second microsecond tzinfo].
  change (format_offset 0) with "+00:00".
  repeat (rewrite append_assoc; cbn [String.append]).
  reflexivity.
Qed.

(** X22.  The chat-api sends a due date as [isoformat() + "Z"].  For every
    valid naive due date sent so, the consumer's [calculate_next_due_date]
    reads it as that instant in UTC; whenever it returns a next date, that
    date is aware with offset zero, and the [due_date] text of the creation
    request, [next.isoformat() + "Z"], carries both designators: it ends in
    ["+00:00Z"]. *)
Theorem consumer_next_due_text
    (d : datetime) (rule : string) (next : datetime) :
  valid d = true -> tzinfo d = None ->
  RecurringTaskService.calculate_next_due_date
    (Some (isoformat d +++ "Z")) (Some rule) = Ok (Some next) ->
  fromisoformat (consumer_due_text (isoformat d +++ "Z"))
  = Ok (with_tz d (Some 0))
  /\ tzinfo next = Some 0
  /\ (exists k, to_micros next = to_micros d + k * US_PER_DAY)
  /\ isoformat next +++ "Z" = isoformat (with_tz next None) +++ "+00:00Z".
Proof.
  intros Hvalid Htz Hnext.
  assert (Hparse : fromisoformat (consumer_due_text (isoformat d +++ "Z"))
                   = Ok (with_tz d (Some 0))).
  { unfold consumer_due_text. rewrite endswith_z, drop_last_z.
    apply fromisoformat_isoformat_utc; assumption. }
  split; [exact Hparse |].
  assert (Hdue : PyStr.truthy (isoformat d +++ "Z") = true).
  { destruct (isoformat d); reflexivity. }
  assert (Hrule : PyStr.truthy rule = true).
  { destruct rule; [| reflexivity].
    unfold RecurringTaskService.calculate_next_due_date in Hnext.
    rewrite Hdue in Hnext. discriminate. }
  rewrite (consumer_after_parse _ _ _ Hdue Hrule Hparse) in Hnext.
  cbv zeta in Hnext.
  assert (Hshift : exists k, shifted_by_days (with_tz d (Some 0)) k
                             = Ok (Some next)).
  { destruct (String.eqb _ "daily"); [eauto |].
    destruct (String.eqb _ "weekly"); [eauto |].
    destruct (String.eqb _ "monthly"); [eauto |].
    destruct (RecurringTaskService.match_every "day" _) as [digits |].
    - destruct (PyStr.int digits); [eauto | discriminate].
    - destruct (RecurringTaskService.match_every "week" _) as [digits |];
        [| discriminate].
      destruct (PyStr.int digits); [eauto | discriminate]. }
  destruct Hshift as (k & Hk). unfold shifted_by_days in Hk.
  destruct (add (with_tz d (Some 0)) (timedelta_days k)) as [r |] eqn:Ha;
    [| discriminate].
  cbn [res_bind] in Hk. injection Hk as ->.
  destruct (CalendarOrder.add_inv _ _ _ Ha) as (Hm & Htzn & _).
  cbn [with_tz tzinfo] in Htzn.
  split; [exact Htzn |].
  split.
  { exists k. rewrite Hm. unfold timedelta_days. reflexivity. }
  apply isoformat_utc_z. exact Htzn.
Qed.

Lemma consumer_next_due_text_witness :
  RecurringTaskService.calculate_next_due_date
    (Some (isoformat (mkdatetime 2024 1 31 9 0 0 0 None) +++ "Z"))
    (Some "daily")
  = Ok (Some (mkdatetime 2024 2 1 9 0 0 0 (Some 0)))
  /\ isoformat (mkdatetime 2024 2 1 9 0 0 0 (Some 0)) +++ "Z"
     = "2024-02-01T09:00:00+00:00Z".
Proof.
  split; [reflexivity |].
  destruct (consumer_next_due_text (mkdatetime 2024 1 31 9 0 0 0 None) "daily"
              (mkdatetime 2024 2 1 9 0 0 0 (Some 0)) eq_refl eq_refl eq_refl)
    as (_ & _ & _ & Htext).
  rewrite Htext. reflexivity.
Defined.

Lemma zeros_digits (k : nat) : PyStr.all PyStr.isdigit (zeros k) = true.
Proof. induction k as [| k IH]; [reflexivity | exact IH]. Qed.

Lemma pad_digits (w : nat) (v : Z) :
  0 <= v -> PyStr.all PyStr.isdigit (PyStr.pad w v) = true.
Proof.
  intros Hv. rewrite pad_zeros, all_append, zeros_digits.
  destruct v as [| p | p]; [reflexivity | | lia].
  rewrite of_int_pos. apply string_of_uint_digits.
Qed.

Lemma digits_no_z (s : string) :
  PyStr.all PyStr.isdigit s = true ->
  PyStr.all (fun c => negb (Ascii.eqb c "Z")) s = true.
Proof.
  apply all_impl. intros c.
  destruct c as [[] [] [] [] [] [] [] []]; vm_compute; congruence.
Qed.

(** The text of a naive [datetime] has no ["Z"] in it. *)
Lemma isoformat_no_z (d : datetime) :
  valid d = true -> tzinfo d = None ->
  PyStr.all (fun c => negb (Ascii.eqb c "Z")) (isoformat d) = true.
Proof.
  intros Hvalid Htz.
  destruct d as [y m dd h mi sec us tz]. cbn [tzinfo] in Htz. subst tz.
  unfold valid in Hvalid.
  cbn [year month day hour minute second microsecond] in Hvalid.
  unfold MINYEAR, MAXYEAR in Hvalid.
  repeat rewrite andb_true_iff in Hvalid.
  repeat match goal with
         | H : _ /\ _ |- _ => destruct H
         end.
  repeat match goal with
         | H : (_ <=? _) = true |- _ => apply Z.leb_le in H
         | H : (_ <? _) = true |- _ => apply Z.ltb_lt in H
         end.
  unfold isoformat.
  cbn [year month day hour minute second microsecond tzinfo].
  repeat (rewrite all_append; cbn [PyStr.all String.append]).
  rewrite !digits_no_z by (apply pad_digits; lia).
  destruct (us =? 0); cbn [PyStr.all andb String.append];
    [reflexivity |].
  rewrite digits_no_z by (apply pad_digits; lia). reflexivity.
Qed.

Lemma replace_final_z (s : string) :
  PyStr.all (fun c => negb (Ascii.eqb c "Z")) s = true ->
  PyStr.replace "Z" "+00:00" (s +++ "Z") = s +++ "+00:00".
Proof.
  unfold PyStr.replace.
  induction s as [| c r IH]; [reflexivity |].
  cbn [PyStr.all]. rewrite andb_true_iff. intros [Hc Hr].
  cbn [String.append String.length PyStr.replace_fuel PyStr.startswith].
  rewrite Ascii.eqb_sym. apply negb_true_iff in Hc. rewrite Hc.
  cbn [andb]. rewrite (IH Hr). reflexivity.
Qed.

(** X23.  The job data that [schedule_reminder_job] builds is read back
    by [handle_reminder_callback]: for a valid naive [remind_at] (and due
    date, when there is one) the callback answers [success] and adds one
    background task, [publish_reminder_event] for the same task and user
    with the two instants as aware UTC values; the event that task
    publishes carries them as ISO texts ending in ["+00:00Z"]. *)
Theorem callback_reads_job_data
    (cfg : Events.Config) (task_id task_title user_id : string)
    (due_date : option datetime) (remind_at : datetime) :
  valid remind_at = true -> tzinfo remind_at = None ->
  match due_date with
  | Some d => valid d = true /\ tzinfo d = None
  | None => True
  end ->
  let data :=
    Callbacks.mkData task_id task_title user_id
      (match due_date with
       | Some d => Some (isoformat d +++ "Z")
       | None => None
       end)
      (isoformat remind_at +++ "Z") in
  let task :=
    Callbacks.mkTask user_id task_id task_title
      (match due_date with
       | Some d => Some (with_tz d (Some 0))
       | None => None
       end)
      (with_tz remind_at (Some 0)) "reminder.triggered" in
  Callbacks.handle_reminder_callback data
  = (VDict [ ("status", VStr "success");
             ("message", VStr "Reminder triggered");
             ("task_id", VStr task_id) ], Some task)
  /\ Callbacks.run_task cfg task
     = Events.publish_event cfg "reminders" "reminder.triggered" user_id
         (VDict [ ("task_id", VStr task_id);
                  ("task_title", VStr task_title);
                  ("due_at", match due_date with
                             | Some d => VStr (isoformat d +++ "+00:00Z")
                             | None => VNone
                             end);
                  ("remind_at", VStr (isoformat remind_at +++ "+00:00Z")) ])
         None.
Proof.
  intros Hvalid Htz Hdue data task.
  assert (Hread : forall d,
            valid d = true -> tzinfo d = None ->
            fromisoformat (PyStr.replace "Z" "+00:00" (isoformat d +++ "Z"))
            = Ok (with_tz d (Some 0))).
  { intros d Hv Ht. rewrite replace_final_z by (apply isoformat_no_z; auto).
    apply fromisoformat_isoformat_utc; assumption. }
  assert (Htext : forall d,
            tzinfo d = None ->
            isoformat (with_tz d (Some 0)) +++ "Z"
            = isoformat d +++ "+00:00Z").
  { intros d Ht. rewrite isoformat_utc_z by reflexivity.
    destruct d as [y m dd h mi sec us tz]. cbn [tzinfo] in Ht. subst tz.
    reflexivity. }
  split.
  - unfold Callbacks.handle_reminder_callback, Callbacks.parse_job_times.
    subst data task.
    cbn [Callbacks.remind_at Callbacks.due_at Callbacks.task_id
           Callbacks.task_title Callbacks.user_id].
    rewrite (Hread remind_at Hvalid Htz). cbn [res_bind].
    destruct due_date as [d |]; [| reflexivity].
    destruct Hdue as [Hdv Hdt].
    assert (Htruthy : PyStr.truthy (isoformat d +++ "Z") = true)
      by (destruct (isoformat d); reflexivity).
    rewrite Htruthy, (Hread d Hdv Hdt). reflexivity.
  - subst task. unfold Callbacks.run_task, Events.publish_reminder_event.
    cbn [Callbacks.bg_user_id Callbacks.bg_task_id Callbacks.bg_task_title
           Callbacks.bg_due_date Callbacks.bg_remind_at
           Callbacks.bg_event_type].
    cbv zeta. rewrite (Htext remind_at Htz).
    destruct due_date as [d |]; [| reflexivity].
    rewrite (Htext d (proj2 Hdue)). reflexivity.
Qed.

Lemma callback_reads_job_data_witness :
  Callbacks.handle_reminder_callback
    (Callbacks.mkData "task-1" "Pay rent" "user-1"
       (Some "2024-02-01T09:00:00Z") "2024-02-01T08:30:00Z")
  = (VDict [ ("status", VStr "success");
             ("message", VStr "Reminder triggered");
             ("task_id", VStr "task-1") ],
     Some (Callbacks.mkTask "user-1" "task-1" "Pay rent"
             (Some (mkdatetime 2024 2 1 9 0 0 0 (Some 0)))
             (mkdatetime 2024 2 1 8 30 0 0 (Some 0)) "reminder.triggered")).
Proof.
  exact (proj1 (callback_reads_job_data Events.default_config "task-1"
                  "Pay rent" "user-1"
                  (Some (mkdatetime 2024 2 1 9 0 0 0 None))
                  (mkdatetime 2024 2 1 8 30 0 0 None)
                  eq_refl eq_refl (conj eq_refl eq_refl))).
Defined.

End TimestampRoundTrip.

(** ** Replacing a scheduled reminder *)

Section Reschedule.
Import Datetime Py ProgFacts Spec.

Variable dapr_client : DaprClient.DaprClient.

(** X24.  With a new time, [reschedule_reminder_job] first deletes the job
    named ["reminder-" + task_id] and then reads the clock.  When the new
    time is already past it stops there and returns [False]: the old job is
    gone and none replaces it.  When the new time cannot be compared with
    the clock (it is timezone-aware and the clock's reading is naive) it
    stops there as well, raising [TypeError].  Otherwise it posts one job
    under the URL it deleted, scheduled ["@at"] the new time, and returns
    whether that request was accepted; the answer to the deletion is never
    reported. *)
Theorem reschedule_replaces_job
    (env : Env) (w : world env) (task_id task_title user_id : string)
    (due_date : option datetime) (remind_at : datetime) :
  let url := DaprClient.job_url dapr_client ("reminder-" +++ task_id) in
  let del := HttpDelete url in
  let w1 := snd (answer env _ del w) in
  let now := fst (answer env _ UtcNow w1) in
  let w2 := snd (answer env _ UtcNow w1) in
  exists body,
    let post := HttpPost url body [] in
    run env (Reminder.reschedule_reminder_job dapr_client task_id task_title
               user_id due_date (Some remind_at)) w
    = match lt remind_at now with
      | Ok true =>
          ([Called del (fst (answer env _ del w)); Called UtcNow now],
           Ok false, w2)
      | Ok false =>
          ([Called del (fst (answer env _ del w)); Called UtcNow now;
            Called post (fst (answer env _ post w2))],
           Ok (accepted (fst (answer env _ post w2))),
           snd (answer env _ post w2))
      | Err e =>
          ([Called del (fst (answer env _ del w)); Called UtcNow now],
           Err e, w2)
      end
    /\ envelope_field body "schedule"
       = VStr ("@at " +++ isoformat remind_at +++ "Z")
    /\ (tzinfo remind_at = None -> tzinfo now = None ->
        lt remind_at now = Ok (to_micros remind_at <? to_micros now))
    /\ (tzinfo remind_at <> None -> tzinfo now = None ->
        exists msg, lt remind_at now = Err (TypeError msg)).
Proof.
  intros url del w1 now w2.
  unfold Reminder.reschedule_reminder_job.
  rewrite run_bind, cancel_reminder_job_run. fold url del w1.
  unfold Reminder.schedule_reminder_job.
  rewrite run_bind, is_reminder_in_past_run. fold now w2.
  exists (VDict [ ("schedule", VStr ("@at " +++ isoformat remind_at +++ "Z"));
                  ("data",
                    VDict [ ("task_id", VStr task_id);
                            ("task_title", VStr task_title);
                            ("user_id", VStr user_id);
                            ("due_at", match due_date with
                                       | Some d => VStr (isoformat d +++ "Z")
                                       | None => VNone
                                       end);
                            ("remind_at",
                              VStr (isoformat remind_at +++ "Z")) ]);
                  ("callback",
                    VDict [("method",
                            VStr "/api/v1/jobs/reminder-callback")]) ]).
  split; [| split; [reflexivity | split]].
  - destruct (lt remind_at now) as [[|] | e]; [reflexivity | | reflexivity].
    cbn iota. unfold DaprClient.schedule_job, Reminder._build_job_name.
    fold url. rewrite run_perform_bind.
    match goal with
    | |- context [answer env HttpResult ?e w2] =>
        set (post := e);
        destruct (fst (answer env HttpResult post w2)) as [r | detail]
    end.
    + cbn [accepted].
      destruct ((status_code r =? 200) || (status_code r =? 201)
                || (status_code r =? 204)); reflexivity.
    + reflexivity.
  - intros Hr Hn. unfold lt. rewrite Hr, Hn. reflexivity.
  - intros Hr Hn. unfold lt. rewrite Hn.
    destruct (tzinfo remind_at); [eexists; reflexivity | contradiction].
Qed.

End Reschedule.

(** The clock reads 2024-01-31 and the new time is one second earlier:
    the job is deleted and nothing is posted. *)
Lemma reschedule_replaces_job_witness :
  let now := Datetime.mkdatetime 2024 1 31 0 0 0 0 None in
  let env := Py.const_env (Py.status_only 204) (Py.status_only 204)
               (Py.status_only 204) now "u-1" in
  exists calls,
    Py.run env
      (Reminder.reschedule_reminder_job (DaprClient.new "3500") "task-1"
         "Pay rent" "user-1" (Some now)
         (Some (Datetime.mkdatetime 2024 1 30 23 59 59 0 None))) tt
    = (calls, Ok false, tt)
    /\ Py.posted calls = [] /\ existsb Py.is_delete calls = true.
Proof.
  intros now env.
  destruct (reschedule_replaces_job (DaprClient.new "3500") env tt "task-1"
              "Pay rent" "user-1" (Some now)
              (Datetime.mkdatetime 2024 1 30 23 59 59 0 None))
    as (body & Hrun & _).
  eexists. split; [exact Hrun |]. split; reflexivity.
Defined.

